(** * sample-app-nodejs-mflix: the movie controller and its response envelope

    A shallow embedding of [server/src/controllers/movieController.ts],
    [server/src/utils/errorHandler.ts], [server/src/utils/logger.ts] and
    [server/src/config/database.ts].
    JavaScript values are an inductive type, request handlers are programs of
    a state-and-exception monad over an abstract environment (the MongoDB
    deployment, the embedding provider, the wall clock), and the aggregation
    pipeline of the year report is given the semantics of the stages it
    uses. *)

From Stdlib Require Import ZArith QArith Qround String Ascii List Bool Lia Lqa.
From Stdlib Require Import Permutation Sorted.
From stdpp Require Import base option gmap strings.
Import ListNotations.

#[local] Set Warnings "-register-all".
Local Open Scope string_scope.
Local Open Scope Z_scope.

(* ===================================================================== *)
(** ** JavaScript values *)
(* ===================================================================== *)

Module Js.

(** The values that flow through the controller.  Strings are sequences of
    code units in U+0000..U+00FF; a number is [JNaN], [JInfinity] with its
    sign, or [JNum q] with [q] the exact value of a finite double.  [JObj] is
    a plain object, with [Object.prototype] behind it.  [JObjectId] is a
    driver [ObjectId] given by its 24 hex digits and [JObjectIdOf v] the one
    the driver generates for [new ObjectId(v)] when [v] is not a string,
    [JRegExp] a [RegExp], [JFunction] a built-in function given by its name,
    [JParseFloat s] the number [parseFloat(s)], which the controller only
    ever forwards to the store. *)
Inductive JsVal : Type :=
| JUndefined
| JNull
| JBool (b : bool)
| JNum (q : Q)
| JNaN
| JStr (s : string)
| JArr (items : list JsVal)
| JObj (props : list (string * JsVal))
| JObjectId (hex : string)
| JObjectIdOf (seed : JsVal)
| JRegExp (source flags : string)
| JParseFloat (s : string)
| JInfinity (negative : bool)
| JFunction (name : string).

Definition JInt (z : Z) : JsVal := JNum (inject_Z z).

(** What a [throw] carries.  [MongoError] has the numeric [code] that
    [parseErrorDetails] switches on. *)
Inductive JsError : Type :=
| Error (message : string)
| TypeError (message : string)
| ValidationError (message : string)
| MongoError (code : Z) (message : string)
| SyntaxError (message : string).

Definition error_message (e : JsError) : string :=
  match e with
  | Error m | TypeError m | ValidationError m | MongoError _ m | SyntaxError m => m
  end.

(** [err.name]. *)
Definition error_name (e : JsError) : string :=
  match e with
  | Error _ => "Error"
  | TypeError _ => "TypeError"
  | ValidationError _ => "ValidationError"
  | MongoError _ _ => "MongoError"
  | SyntaxError _ => "SyntaxError"
  end.

Inductive Result (A : Type) : Type :=
| Ok (a : A)
| Thrown (e : JsError).
Arguments Ok {A} a.
Arguments Thrown {A} e.

(** ToBoolean. *)
Definition truthy (v : JsVal) : bool :=
  match v with
  | JUndefined | JNull | JNaN => false
  | JBool b => b
  | JNum q => negb (Qeq_bool q 0)
  | JStr s => negb (String.eqb s "")
  | JParseFloat _ => true
  | JArr _ | JObj _ | JObjectId _ | JObjectIdOf _ | JRegExp _ _ => true
  | JInfinity _ | JFunction _ => true
  end.

Fixpoint lookup_prop (k : string) (props : list (string * JsVal)) : JsVal :=
  match props with
  | [] => JUndefined
  | (k', v) :: rest => if String.eqb k k' then v else lookup_prop k rest
  end.

Definition has_own (k : string) (props : list (string * JsVal)) : bool :=
  existsb (fun kv => String.eqb k (fst kv)) props.

Definition digit_char (d : Z) : ascii :=
  ascii_of_nat (48 + Z.to_nat d).

Fixpoint decimal_digits (fuel : nat) (n : Z) (acc : string) : string :=
  match fuel with
  | O => acc
  | S fuel' =>
      let acc' := String (digit_char (n mod 10)) acc in
      if n / 10 =? 0 then acc' else decimal_digits fuel' (n / 10) acc'
  end.

(** Decimal text of an integer. *)
Definition string_of_Z (z : Z) : string :=
  let digits := decimal_digits (S (Z.to_nat (Z.log2 (Z.abs z)))) (Z.abs z) "" in
  if z <? 0 then String "-" digits else digits.

Fixpoint index_keys (n : nat) (from : Z) : list string :=
  match n with
  | O => []
  | S n' => string_of_Z from :: index_keys n' (from + 1)
  end.

(** The value of a digit in any radix up to 36. *)
Definition digit_value (c : ascii) : option Z :=
  let n := Z.of_N (N_of_ascii c) in
  if (48 <=? n) && (n <=? 57) then Some (n - 48)
  else if (97 <=? n) && (n <=? 122) then Some (n - 87)
  else if (65 <=? n) && (n <=? 90) then Some (n - 55)
  else None.

(** The longest prefix of radix-[radix] digits, read as a number; [acc] is
    [None] until the first digit has been seen. *)
Fixpoint digits_prefix (radix : Z) (s : string) (acc : option Z) : option Z :=
  match s with
  | String c rest =>
      match digit_value c with
      | Some d =>
          if d <? radix
          then digits_prefix radix rest (Some (default 0 acc * radix + d))
          else acc
      | None => acc
      end
  | EmptyString => acc
  end.

(** The index that a property name is the canonical decimal text of. *)
Definition array_index (k : string) : option nat :=
  match digits_prefix 10 k None with
  | Some n => if String.eqb (string_of_Z n) k then Some (Z.to_nat n) else None
  | None => None
  end.

(** The properties of [Object.prototype], which every value other than
    [undefined] and [null] inherits, and those of [Array.prototype]
    (ECMAScript 2023). *)
Definition Object_prototype : list string :=
  ["constructor"; "__defineGetter__"; "__defineSetter__"; "hasOwnProperty";
   "__lookupGetter__"; "__lookupSetter__"; "isPrototypeOf"; "propertyIsEnumerable";
   "toString"; "valueOf"; "__proto__"; "toLocaleString"].

Definition Array_prototype : list string :=
  ["at"; "concat"; "copyWithin"; "fill"; "find"; "findIndex"; "findLast";
   "findLastIndex"; "lastIndexOf"; "pop"; "push"; "reverse"; "shift"; "unshift";
   "slice"; "sort"; "splice"; "includes"; "indexOf"; "join"; "keys"; "entries";
   "values"; "forEach"; "filter"; "flat"; "flatMap"; "map"; "every"; "some";
   "reduce"; "reduceRight"; "toReversed"; "toSorted"; "toSpliced"; "with"].

Definition constructor_name (o : JsVal) : string :=
  match o with
  | JArr _ => "Array"
  | JStr _ => "String"
  | JNum _ | JNaN | JInfinity _ | JParseFloat _ => "Number"
  | JBool _ => "Boolean"
  | JFunction _ => "Function"
  | JRegExp _ _ => "RegExp"
  | JObjectId _ | JObjectIdOf _ => "ObjectId"
  | _ => "Object"
  end.

(** What [o.k] finds on the prototype chain of [o]: the properties of
    [Object.prototype], and for an array those of [Array.prototype].  The
    methods of the other built-in prototypes are left out: no handler reads a
    property of a string, a number, a function or an identifier. *)
Definition inherited (o : JsVal) (k : string) : JsVal :=
  if existsb (String.eqb k) Object_prototype then
    if String.eqb k "constructor" then JFunction (constructor_name o)
    else if String.eqb k "__proto__" then
      match o with JArr _ => JArr [] | _ => JObj [] end
    else JFunction k
  else
    match o with
    | JArr _ => if existsb (String.eqb k) Array_prototype then JFunction k else JUndefined
    | _ => JUndefined
    end.

(** An own property of an object, [undefined] on anything else. *)
Definition own (o : JsVal) (k : string) : JsVal :=
  match o with
  | JObj props => lookup_prop k props
  | _ => JUndefined
  end.

(** The names that only an own property can answer: not [length], not an
    index, not a name of the two prototypes. *)
Definition plain_key (k : string) : bool :=
  negb (String.eqb k "length")
  && negb (existsb (String.eqb k) Object_prototype)
  && negb (existsb (String.eqb k) Array_prototype)
  && match array_index k with None => true | Some _ => false end.

(** [o.k] and [o[k]] where [o] is neither [undefined] nor [null]: an own
    property, or else what the prototype chain has. *)
Definition get (o : JsVal) (k : string) : JsVal :=
  match o with
  | JUndefined | JNull => JUndefined
  | JObj props => if has_own k props then lookup_prop k props else inherited o k
  | JArr items =>
      if String.eqb k "length" then JInt (Z.of_nat (List.length items))
      else
        match array_index k with
        | Some i => nth i items JUndefined
        | None => inherited o k
        end
  | JStr s =>
      if String.eqb k "length" then JInt (Z.of_nat (String.length s))
      else
        match array_index k with
        | Some i =>
            match String.get i s with
            | Some c => JStr (String c "")
            | None => JUndefined
            end
        | None => inherited o k
        end
  | _ => inherited o k
  end.

(** [o.k] in general: reading a property of [undefined] or [null] throws. *)
Definition get_prop (o : JsVal) (k : string) : Result JsVal :=
  match o with
  | JUndefined =>
      Thrown (TypeError ("Cannot read properties of undefined (reading '" ++ k ++ "')"))
  | JNull =>
      Thrown (TypeError ("Cannot read properties of null (reading '" ++ k ++ "')"))
  | _ => Ok (get o k)
  end.

(** The first property of a destructuring [const { k, ... } = source]: it
    throws when the value of [source] is [undefined] or [null]. *)
Definition destructure (o : JsVal) (source k : string) : Result JsVal :=
  match o with
  | JUndefined =>
      Thrown (TypeError ("Cannot destructure property '" ++ k ++ "' of '" ++ source
                           ++ "' as it is undefined."))
  | JNull =>
      Thrown (TypeError ("Cannot destructure property '" ++ k ++ "' of '" ++ source
                           ++ "' as it is null."))
  | _ => Ok (get o k)
  end.

Fixpoint set_prop (k : string) (v : JsVal) (props : list (string * JsVal))
  : list (string * JsVal) :=
  match props with
  | [] => [(k, v)]
  | (k', v') :: rest =>
      if String.eqb k k' then (k, v) :: rest else (k', v') :: set_prop k v rest
  end.

Definition has_key (k : string) (o : JsVal) : bool :=
  match o with
  | JObj props => existsb (fun kv => String.eqb k (fst kv)) props
  | _ => false
  end.

(** *** Numbers *)

(** Rounding to the nearest integer, ties to the even one. *)
Definition round_half_even (x : Q) : Z :=
  let f := Qfloor x in
  match Qcompare (x - inject_Z f) (1 # 2) with
  | Lt => f
  | Gt => f + 1
  | Eq => if Z.even f then f else f + 1
  end.

(** [base ^ e] for any integer [e]. *)
Definition Qpow (base : Z) (e : Z) : Q :=
  if 0 <=? e then inject_Z (base ^ e) else (1 # Z.to_pos (base ^ (- e)))%Q.

(** The integer part of the binary logarithm of a positive rational. *)
Definition Qlog2 (q : Q) : Z :=
  let l := Z.log2 (Qnum q) - Z.log2 (Zpos (Qden q)) in
  if Qle_bool (Qpow 2 l) q then l else l - 1.

(** The double nearest to a positive rational, ties to the even significand;
    [None] when that is [Infinity]. *)
Definition nearest_double (q : Q) : option Q :=
  let e := Z.max (Qlog2 q - 52) (-1074) in
  let v := (inject_Z (round_half_even (q / Qpow 2 e)) * Qpow 2 e)%Q in
  if Qle_bool (Qpow 2 1024) v then None else Some (Qred v).

Definition reads_back_as (q : Q) (decimal : Q) : bool :=
  match nearest_double decimal with
  | Some v => Qeq_bool v q
  | None => false
  end.

(** [n] with [10 ^ (n - 1) <= q < 10 ^ n], for a positive [q], found from
    an estimate. *)
Fixpoint settle_exponent (fuel : nat) (q : Q) (n : Z) : Z :=
  match fuel with
  | O => n
  | S fuel' =>
      if Qle_bool (Qpow 10 n) q then settle_exponent fuel' q (n + 1)
      else if Qle_bool (Qpow 10 (n - 1)) q then n
      else settle_exponent fuel' q (n - 1)
  end.

Definition decimal_exponent (q : Q) : Z :=
  settle_exponent 8 q (Qlog2 q * 30103 / 100000 + 1).

(** The significand of [k] digits whose decimal reads back as [q], if there
    is one: of the two neighbours of [q] the nearer, the even one on a
    tie. *)
Definition significand (q : Q) (n : Z) (k : Z) : option Z :=
  let scale := Qpow 10 (n - k) in
  let low := Qfloor (q / scale) in
  let high := low + 1 in
  match reads_back_as q (inject_Z low * scale), reads_back_as q (inject_Z high * scale) with
  | true, false => Some low
  | false, true => Some high
  | false, false => None
  | true, true =>
      match Qcompare (q - inject_Z low * scale) (inject_Z high * scale - q) with
      | Lt => Some low
      | Gt => Some high
      | Eq => Some (if Z.even low then low else high)
      end
  end.

(** The shortest significand that reads back as [q], and its number of
    digits; seventeen digits always do for a double. *)
Fixpoint shortest (fuel : nat) (q : Q) (n : Z) (k : Z) : Z * Z :=
  match fuel with
  | O => (Qfloor (q / Qpow 10 (n - k)), k)
  | S fuel' =>
      match significand q n k with
      | Some s => (s, k)
      | None => shortest fuel' q n (k + 1)
      end
  end.

Fixpoint strip_zeros (fuel : nat) (s : Z) : Z :=
  match fuel with
  | O => s
  | S fuel' => if (s mod 10 =? 0) && negb (s =? 0) then strip_zeros fuel' (s / 10) else s
  end.

Fixpoint zeros (n : nat) : string :=
  match n with
  | O => ""
  | S n' => String "0" (zeros n')
  end.

Definition substring_from (n : nat) (s : string) : string :=
  String.substring n (String.length s - n) s.

(** Number::toString of a positive finite number: the shortest digits that
    read back as the same double, laid out with a decimal point or an
    exponent as the position of the point requires. *)
Definition positive_toString (q : Q) : string :=
  let n0 := decimal_exponent q in
  let '(s, k0) := shortest 17 q n0 1 in
  let n := Z.of_nat (String.length (string_of_Z s)) + (n0 - k0) in
  let digits := string_of_Z (strip_zeros 20 s) in
  let k := Z.of_nat (String.length digits) in
  if (k <=? n) && (n <=? 21) then digits ++ zeros (Z.to_nat (n - k))
  else if (0 <? n) && (n <=? 21) then
    String.substring 0 (Z.to_nat n) digits ++ "." ++ substring_from (Z.to_nat n) digits
  else if (-6 <? n) && (n <=? 0) then "0." ++ zeros (Z.to_nat (- n)) ++ digits
  else
    let e := n - 1 in
    let exponent := (if e <? 0 then "-" else "+") ++ string_of_Z (Z.abs e) in
    if k =? 1 then digits ++ "e" ++ exponent
    else String.substring 0 1 digits ++ "." ++ substring_from 1 digits ++ "e" ++ exponent.

(** Number::toString of the double nearest to [q]. *)
Definition Number_toString (q : Q) : string :=
  let magnitude :=
    match nearest_double (if Qle_bool 0 q then q else - q) with
    | Some v => if Qeq_bool v 0 then "0" else positive_toString v
    | None => "Infinity"
    end in
  match Qcompare q 0 with
  | Eq => "0"
  | Gt => magnitude
  | Lt => if String.eqb magnitude "0" then "0" else "-" ++ magnitude
  end.

Fixpoint join (sep : string) (parts : list string) : string :=
  match parts with
  | [] => ""
  | [p] => p
  | p :: rest => p ++ sep ++ join sep rest
  end.

(** ToString, and with it [String(v)] and the holes of template literals. *)
Fixpoint ToString (v : JsVal) : string :=
  match v with
  | JUndefined => "undefined"
  | JNull => "null"
  | JBool true => "true"
  | JBool false => "false"
  | JNum q => Number_toString q
  | JNaN => "NaN"
  | JInfinity false => "Infinity"
  | JInfinity true => "-Infinity"
  | JStr s => s
  | JArr items =>
      join "," (map (fun i => match i with
                              | JUndefined | JNull => ""
                              | _ => ToString i
                              end) items)
  | JObj _ => "[object Object]"
  | JObjectId hex => hex
  | JObjectIdOf _ => "[object ObjectId]"
  | JRegExp source flags => "/" ++ source ++ "/" ++ flags
  | JParseFloat s => "parseFloat(" ++ s ++ ")"
  | JFunction name => "function " ++ name ++ "() { [native code] }"
  end.

(** [Object.keys]: the own enumerable keys; it throws on [undefined] and
    [null]. *)
Definition Object_keys (v : JsVal) : Result (list string) :=
  match v with
  | JUndefined | JNull =>
      Thrown (TypeError "Cannot convert undefined or null to object")
  | JObj props => Ok (map fst props)
  | JArr items => Ok (index_keys (List.length items) 0)
  | JStr s => Ok (index_keys (String.length s) 0)
  | _ => Ok []
  end.

(** Object spread [{ ...v }]. *)
Definition spread (v : JsVal) : list (string * JsVal) :=
  match v with
  | JObj props => props
  | JArr items => combine (index_keys (List.length items) 0) items
  | JStr s =>
      combine (index_keys (String.length s) 0)
              (map (fun c => JStr (String c "")) (list_ascii_of_string s))
  | _ => []
  end.

Definition Array_isArray (v : JsVal) : bool :=
  match v with JArr _ => true | _ => false end.

(** [typeof v === "string"]. *)
Definition is_string (v : JsVal) : bool :=
  match v with JStr _ => true | _ => false end.

(** *** parseInt *)

(** WhiteSpace and LineTerminator code units below U+0100. *)
Definition is_whitespace (c : ascii) : bool :=
  let n := N_of_ascii c in
  ((9 <=? n) && (n <=? 13) || (n =? 32) || (n =? 160))%N.

Fixpoint trim_start (s : string) : string :=
  match s with
  | String c rest => if is_whitespace c then trim_start rest else s
  | EmptyString => EmptyString
  end.

(** The mathematical integer that [parseInt(s)], with no radix argument,
    reads from the text: [None] when it reads none and the result is
    [NaN]. *)
Definition parseInt_string (s : string) : option Z :=
  let s1 := trim_start s in
  let '(sign, s2) :=
    match s1 with
    | String "-" rest => (-1, rest)
    | String "+" rest => (1, rest)
    | _ => (1, s1)
    end in
  let '(radix, s3) :=
    match s2 with
    | String "0" (String "x" rest) => (16, rest)
    | String "0" (String "X" rest) => (16, rest)
    | _ => (10, s2)
    end in
  option_map (Z.mul sign) (digits_prefix radix s3 None).

(** A Number that is an integer or an infinity. *)
Inductive Integral : Type :=
| Finite (z : Z)
| Infinite (negative : bool).

(** [z / 2 ^ e] rounded to the nearest integer, ties to the even one. *)
Definition round_shift (z e : Z) : Z :=
  let q := z / 2 ^ e in
  let r := z mod 2 ^ e in
  let half := 2 ^ (e - 1) in
  if r <? half then q
  else if half <? r then q + 1
  else if Z.even q then q else q + 1.

(** The Number value of a mathematical integer: the nearest double, which
    below 2^53 is the integer itself. *)
Definition Number_of_integer (z : Z) : Integral :=
  let a := Z.abs z in
  if a <? 2 ^ 53 then Finite z
  else
    let e := Z.log2 a - 52 in
    let v := round_shift a e * 2 ^ e in
    if 2 ^ 1024 <=? v then Infinite (z <? 0) else Finite (Z.sgn z * v).

(** [parseInt(v)]: [None] is [NaN]. *)
Definition parseInt (v : JsVal) : option Integral :=
  Number_of_integer <$> parseInt_string (ToString v).

Definition Integral_json (x : Integral) : JsVal :=
  match x with
  | Finite z => JInt z
  | Infinite negative => JInfinity negative
  end.

(** [parseInt(x) || d]. *)
Definition or_number (n : option Integral) (d : Z) : Integral :=
  match n with
  | Some (Finite z) => if z =? 0 then Finite d else Finite z
  | Some x => x
  | None => Finite d
  end.

(** [Math.max(x, low)]. *)
Definition Math_max (x : Integral) (low : Z) : Integral :=
  match x with
  | Finite z => Finite (Z.max z low)
  | Infinite false => x
  | Infinite true => Finite low
  end.

(** [Math.min(Math.max(x, low), high)], which is finite whatever [x] is. *)
Definition clamp (x : Integral) (low high : Z) : Z :=
  match Math_max x low with
  | Finite z => Z.min z high
  | Infinite _ => high
  end.

(** [n || d] for an integer [n] that may be missing. *)
Definition or_default (n : option Z) (d : Z) : Z :=
  match n with
  | Some z => if z =? 0 then d else z
  | None => d
  end.

(** A destructuring default: [const { k = d } = o]. *)
Definition with_default (v d : JsVal) : JsVal :=
  match v with JUndefined => d | _ => v end.

(** [s.trim()] needs the end as well. *)
Definition trim (s : string) : string :=
  let rev_s := string_of_list_ascii (rev (list_ascii_of_string (trim_start s))) in
  string_of_list_ascii (rev (list_ascii_of_string (trim_start rev_s))).

(** [v[i]]. *)
Definition get_index (v : JsVal) (i : nat) : JsVal :=
  match v with
  | JArr items => nth i items JUndefined
  | JStr s => match String.get i s with
              | Some c => JStr (String c "")
              | None => JUndefined
              end
  | _ => get v (string_of_Z (Z.of_nat i))
  end.

(** [Array.prototype.sort(cmp)] with a numeric comparator: the sort is
    stable, and [x] goes before [y] when [cmp x y <= 0] or stays behind it
    otherwise.  Insertion from the right realises it. *)
Fixpoint insert_sorted {A} (cmp : A -> A -> Q) (x : A) (l : list A) : list A :=
  match l with
  | [] => [x]
  | y :: rest =>
      if Qle_bool (cmp x y) 0 then x :: l else y :: insert_sorted cmp x rest
  end.

Definition Array_sort {A} (cmp : A -> A -> Q) (l : list A) : list A :=
  fold_right (insert_sorted cmp) [] l.

End Js.
Export Js.

(* ===================================================================== *)
(** ** The driver's identifier type *)
(* ===================================================================== *)

Module ObjectId.

Definition is_hex_digit (c : ascii) : bool :=
  match digit_value c with
  | Some d => d <? 16
  | None => false
  end.

(** A string is an identifier when it is 24 hexadecimal digits. *)
Definition is_hex24 (s : string) : bool :=
  (String.length s =? 24)%nat && forallb is_hex_digit (list_ascii_of_string s).

(** [ObjectId.isValid(id)] of the driver (bson 6): [false] on [null] and
    [undefined], otherwise whether [new ObjectId(id)] succeeds: a string must
    be 24 hex digits, a number seeds a generated identifier, an object is
    read through its [id] property, anything else is refused. *)
Definition isValid (v : JsVal) : bool :=
  match v with
  | JStr s => is_hex24 s
  | JNum _ | JNaN | JInfinity _ | JParseFloat _ => true
  | JObjectId _ | JObjectIdOf _ => true
  | JObj props =>
      match lookup_prop "id" props with
      | JStr s => is_hex24 s
      | _ => false
      end
  | _ => false
  end.

Definition to_lower (c : ascii) : ascii :=
  let n := N_of_ascii c in
  if ((65 <=? n) && (n <=? 90))%N then ascii_of_N (n + 32) else c.

(** [new ObjectId(v)] for a [v] that [isValid] accepts; [toString()] of the
    result prints lower-case hex. *)
Definition new (v : JsVal) : JsVal :=
  match v with
  | JStr s => JObjectId (string_of_list_ascii (map to_lower (list_ascii_of_string s)))
  | JObjectId h => JObjectId h
  | _ => JObjectIdOf v
  end.

End ObjectId.

(* ===================================================================== *)
(** ** Date.prototype.toISOString *)
(* ===================================================================== *)

Module Date.

Definition msPerDay : Z := 86400000.

(** Year, month (1-12) and day of month of a day number counted from
    1970-01-01, in the proleptic Gregorian calendar.  The computation works
    in 400-year eras that start on 1 March. *)
Definition civil_from_days (days : Z) : Z * Z * Z :=
  let z := days + 719468 in
  let era := z / 146097 in
  let doe := z mod 146097 in
  let yoe := (doe - doe / 1460 + doe / 36524 - doe / 146096) / 365 in
  let doy := doe - (365 * yoe + yoe / 4 - yoe / 100) in
  let mp := (5 * doy + 2) / 153 in
  let d := doy - (153 * mp + 2) / 5 + 1 in
  let m := if mp <? 10 then mp + 3 else mp - 9 in
  (yoe + era * 400 + (if m <=? 2 then 1 else 0), m, d).

(** [n] written with exactly [width] decimal digits. *)
Fixpoint pad (width : nat) (n : Z) : string :=
  match width with
  | O => ""
  | S w => pad w (n / 10) ++ String (digit_char (n mod 10)) ""
  end.

Definition render (y mo d h mi s ms : Z) : string :=
  (if (0 <=? y) && (y <=? 9999) then pad 4 y
   else (if y <? 0 then "-" else "+") ++ pad 6 (Z.abs y))
    ++ "-" ++ pad 2 mo ++ "-" ++ pad 2 d
    ++ "T" ++ pad 2 h ++ ":" ++ pad 2 mi ++ ":" ++ pad 2 s ++ "." ++ pad 3 ms ++ "Z".

(** [new Date(t).toISOString()] for a time value [t] in milliseconds since
    the epoch. *)
Definition toISOString (t : Z) : string :=
  let '(y, mo, d) := civil_from_days (t / msPerDay) in
  let r := t mod msPerDay in
  render y mo d (r / 3600000) (r / 60000 mod 60) (r / 1000 mod 60) (r mod 1000).

(** The calendar date-time format of ISO 8601 in UTC,
    [YYYY-MM-DDTHH:mm:ss.sssZ], with every field in its range. *)
Definition is_iso8601 (s : string) : Prop :=
  exists y mo d h mi sec ms,
    0 <= y <= 9999 /\ 1 <= mo <= 12 /\ 1 <= d <= 31 /\
    0 <= h <= 23 /\ 0 <= mi <= 59 /\ 0 <= sec <= 59 /\ 0 <= ms <= 999 /\
    s = pad 4 y ++ "-" ++ pad 2 mo ++ "-" ++ pad 2 d ++ "T"
          ++ pad 2 h ++ ":" ++ pad 2 mi ++ ":" ++ pad 2 sec ++ "." ++ pad 3 ms ++ "Z".

End Date.

(* ===================================================================== *)
(** ** What the handlers run on *)
(* ===================================================================== *)

Module Runtime.

(** Results of [updateOne]/[updateMany] and [deleteOne]/[deleteMany]. *)
Record UpdateResult := { matchedCount : Z; modifiedCount : Z }.
Record DeleteResult := { deletedCount : Z }.

(** A document of the first vector-search aggregation: its [$project] keeps
    [_id] (an [ObjectId], here its hex digits) and the similarity score. *)
Record ScoredId := { scored_id : string; scored_score : Q }.

(** A document of the second vector-search aggregation. *)
Record ProjectedMovie := {
  pm_id : string;
  pm_title : JsVal;
  pm_plot : JsVal;
  pm_poster : JsVal;
  pm_year : JsVal;
  pm_genres : JsVal;
  pm_directors : JsVal;
  pm_cast : JsVal
}.

(** A document of the comments report and one of its [recentComments]. *)
Record ReportComment := {
  rc_id : option string;
  rc_userName : JsVal;
  rc_userEmail : JsVal;
  rc_text : JsVal;
  rc_date : JsVal
}.

Record ReportRow := {
  rr_id : string;
  rr_title : JsVal;
  rr_year : JsVal;
  rr_genres : JsVal;
  rr_imdbRating : JsVal;
  rr_recentComments : list ReportComment;
  rr_totalComments : Z
}.

(** The collection methods the controller calls, indexed by what they
    resolve to.  [aggregate] is generic in the driver; the three typed
    variants are its uses whose result documents the controller takes
    apart. *)
Inductive StoreOp : Type -> Type :=
| Find (coll : string) (filter sort : JsVal) (limit : Z) (skip : Integral)
  : StoreOp (list JsVal)
| FindOne (coll : string) (filter : JsVal) : StoreOp JsVal
| UpdateOne (coll : string) (filter update : JsVal) : StoreOp UpdateResult
| UpdateMany (coll : string) (filter update : JsVal) : StoreOp UpdateResult
| DeleteOne (coll : string) (filter : JsVal) : StoreOp DeleteResult
| DeleteMany (coll : string) (filter : JsVal) : StoreOp DeleteResult
| FindOneAndDelete (coll : string) (filter : JsVal) : StoreOp JsVal
| Aggregate (coll : string) (pipeline : list JsVal) : StoreOp (list JsVal)
| AggregateScores (coll : string) (pipeline : list JsVal) : StoreOp (list ScoredId)
| AggregateMovies (coll : string) (pipeline : list JsVal) : StoreOp (list ProjectedMovie)
| AggregateReport (coll : string) (pipeline : list JsVal) : StoreOp (list ReportRow).

Record HttpRequest := {
  http_url : string;
  http_method : string;
  http_headers : list (string * string);
  http_body : JsVal
}.

(** A settled [fetch]: status line, [text()] and [json()] of the body. *)
Record HttpResponse := {
  http_status : Z;
  http_text : string;
  http_json : Result JsVal
}.

Definition http_ok (r : HttpResponse) : bool :=
  (200 <=? http_status r) && (http_status r <=? 299).

(** Everything outside the process, as the handlers see it.  [E] is the
    state of that outside world: the contents of the MongoDB deployment, the
    embedding provider, the time.  A store call or a [fetch] may change it in
    any way and may fail; reading the clock, the module variable [database]
    and [process.env] does not change it.  [regexp_ok] is the engine's
    verdict on a pattern given to [new RegExp] and [regexp_error] the reason
    it gives for a pattern it rejects. *)
Class Platform (E : Type) := {
  now : E -> Z;
  database : E -> bool;
  VOYAGE_API_KEY : E -> option string;
  store : forall T, StoreOp T -> E -> Result T * E;
  fetch : HttpRequest -> E -> Result HttpResponse * E;
  regexp_ok : string -> bool;
  regexp_error : string -> string
}.

(** The calls that leave the process. *)
Inductive Event : Type :=
| StoreCall {T : Type} (op : StoreOp T)
| HttpCall (req : HttpRequest).

Record World (E : Type) := { env : E; log : list Event }.
Arguments env {E} w.
Arguments log {E} w.

(** An [async] function body: it reads and changes the world, and either
    returns or throws. *)
Definition M (E A : Type) : Type := World E -> Result A * World E.

Section Monad.
Context {E : Type} {P : Platform E}.

Definition ret {A} (a : A) : M E A := fun w => (Ok a, w).

Definition throw {A} (e : JsError) : M E A := fun w => (Thrown e, w).

Definition bind {A B} (m : M E A) (k : A -> M E B) : M E B :=
  fun w =>
    match m w with
    | (Ok a, w') => k a w'
    | (Thrown e, w') => (Thrown e, w')
    end.

(** [try { m } catch (e) { h e }]. *)
Definition try_catch {A} (m : M E A) (h : JsError -> M E A) : M E A :=
  fun w =>
    match m w with
    | (Ok a, w') => (Ok a, w')
    | (Thrown e, w') => h e w'
    end.

Definition lift {A} (r : Result A) : M E A := fun w => (r, w).

(** [await collection.op(...)]. *)
Definition call {T} (op : StoreOp T) : M E T :=
  fun w =>
    let '(r, e') := store T op (env w) in
    (r, {| env := e'; log := (log w ++ [StoreCall op])%list |}).

(** [await fetch(...)]. *)
Definition http (req : HttpRequest) : M E HttpResponse :=
  fun w =>
    let '(r, e') := fetch req (env w) in
    (r, {| env := e'; log := (log w ++ [HttpCall req])%list |}).

(** [new Date()]. *)
Definition Date_now : M E Z := fun w => (Ok (now (env w)), w).

Definition getenv_VOYAGE_API_KEY : M E (option string) :=
  fun w => (Ok (VOYAGE_API_KEY (env w)), w).

(** [new RegExp(pattern, flags)], which throws a [SyntaxError] on a malformed
    pattern. *)
Definition new_RegExp (pattern flags : string) : M E JsVal :=
  if regexp_ok pattern then ret (JRegExp pattern flags)
  else throw (SyntaxError ("Invalid regular expression: /" ++ pattern ++ "/" ++ flags
                             ++ ": " ++ regexp_error pattern)).

End Monad.

Declare Scope js_scope.
Delimit Scope js_scope with js.
Notation "'let*' x ':=' m 'in' k" := (bind m (fun x => k))
  (at level 10, x pattern, m at level 100, k at level 200) : js_scope.
Notation "m ';;' k" := (bind m (fun _ => k))
  (at level 100, k at level 200, right associativity) : js_scope.

(** What a handler leaves in [res]. *)
Record Response := { status : Z; body : JsVal }.

Record Request := { params : JsVal; query : JsVal; req_body : JsVal }.

End Runtime.
Export Runtime.
Local Open Scope js_scope.

(* ===================================================================== *)
(** ** utils/errorHandler.ts *)
(* ===================================================================== *)

Module ErrorHandler.
Section Program.
Context {E : Type} {P : Platform E}.

(** [a || b] on values. *)
Definition or_else (a b : JsVal) : JsVal := if truthy a then a else b.

Definition createSuccessResponse (data message : JsVal) : M E JsVal :=
  let* t := Date_now in
  ret (JObj [("success", JBool true);
             ("message", or_else message (JStr "Operation completed successfully"));
             ("data", data);
             ("timestamp", JStr (Date.toISOString t))]).

Definition createErrorResponse (message code details : JsVal) : M E JsVal :=
  let* t := Date_now in
  ret (JObj [("success", JBool false);
             ("message", message);
             ("error", JObj [("message", message); ("code", code); ("details", details)]);
             ("timestamp", JStr (Date.toISOString t))]).

Record ErrorDetails := {
  ed_message : JsVal;
  ed_code : JsVal;
  ed_details : JsVal;
  ed_statusCode : Z
}.

Definition parseErrorDetails (err : JsError) : ErrorDetails :=
  match err with
  | MongoError code message =>
      if code =? 11000 then
        {| ed_message := JStr "Duplicate key error";
           ed_code := JStr "DUPLICATE_KEY";
           ed_details := JStr "A document with this data already exists";
           ed_statusCode := 409 |}
      else if code =? 121 then
        {| ed_statusCode := 400;
           ed_message := JStr "Document validation failed";
           ed_code := JStr "DOCUMENT_VALIDATION_ERROR";
           ed_details := JStr message |}
      else
        {| ed_message := JStr "Database error";
           ed_code := JStr "DATABASE_ERROR";
           ed_details := JInt code;
           ed_statusCode := 500 |}
  | _ =>
      if String.eqb (error_name err) "ValidationError" then
        {| ed_message := JStr "Validation failed";
           ed_code := JStr "VALIDATION_ERROR";
           ed_details := JStr (error_message err);
           ed_statusCode := 400 |}
      else
        {| ed_message := or_else (JStr (error_message err)) (JStr "Internal server error");
           ed_code := JStr "INTERNAL_ERROR";
           ed_details := JUndefined;
           ed_statusCode := 500 |}
  end.

(** The error middleware (its logging left out). *)
Definition errorHandler (err : JsError) : M E Response :=
  let errorDetails := parseErrorDetails err in
  let* response :=
    createErrorResponse (ed_message errorDetails) (ed_code errorDetails)
                        (ed_details errorDetails) in
  ret {| status := ed_statusCode errorDetails; body := response |}.

(** A route: the handler wrapped by [asyncHandler], with the error
    middleware behind it. *)
Definition asyncHandler (fn : Request -> M E Response) (req : Request) : M E Response :=
  try_catch (fn req) errorHandler.

End Program.
End ErrorHandler.
Export ErrorHandler.

(* ===================================================================== *)
(** ** config/database.ts *)
(* ===================================================================== *)

Module Database.
Section Program.
Context {E : Type} {P : Platform E}.

(** A collection handle is the collection's name. *)
Definition getCollection (collectionName : string) : M E string :=
  fun w =>
    if database (env w) then (Ok collectionName, w)
    else (Thrown (Error "Database not connected."), w).

End Program.
End Database.
Export Database.

(* ===================================================================== *)
(** ** controllers/movieController.ts *)
(* ===================================================================== *)

Module MovieController.
Section Program.
Context {E : Type} {P : Platform E}.

(** [res.status(code).json(body); return] and [res.json(body)]. *)
Definition respond (code : Z) (envelope : M E JsVal) : M E Response :=
  let* b := envelope in ret {| status := code; body := b |}.

Definition res_json (envelope : M E JsVal) : M E Response := respond 200 envelope.

Definition count_of {A} (l : list A) : string := string_of_Z (Z.of_nat (List.length l)).

(** *** GET /api/movies *)

Definition getAllMovies_limitNum (limit : JsVal) : Z :=
  clamp (or_number (parseInt limit) 20) 1 100.

Definition getAllMovies_skipNum (skip : JsVal) : Integral :=
  Math_max (or_number (parseInt skip) 0) 0.

(** The number [parseInt] returned, as a value. *)
Definition number_of_parse (n : option Integral) : JsVal :=
  match n with
  | Some x => Integral_json x
  | None => JNaN
  end.

Definition getAllMovies_filter (q genre year minRating maxRating : JsVal) : M E JsVal :=
  let f0 : list (string * JsVal) := [] in
  let f1 := if truthy q then set_prop "$text" (JObj [("$search", q)]) f0 else f0 in
  let* f2 :=
    if truthy genre then
      let* re := new_RegExp (ToString genre) "i" in
      ret (set_prop "genres" (JObj [("$regex", re)]) f1)
    else ret f1 in
  let f3 := if truthy year then set_prop "year" (number_of_parse (parseInt year)) f2 else f2 in
  let f4 :=
    if truthy minRating || truthy maxRating then
      let r0 : list (string * JsVal) := [] in
      let r1 := if truthy minRating
                then set_prop "$gte" (JParseFloat (ToString minRating)) r0 else r0 in
      let r2 := if truthy maxRating
                then set_prop "$lte" (JParseFloat (ToString maxRating)) r1 else r1 in
      set_prop "imdb.rating" (JObj r2) f3
    else f3 in
  ret (JObj f4).

Definition getAllMovies (req : Request) : M E Response :=
  let* moviesCollection := getCollection "movies" in
  let q := get (query req) "q" in
  let genre := get (query req) "genre" in
  let year := get (query req) "year" in
  let minRating := get (query req) "minRating" in
  let maxRating := get (query req) "maxRating" in
  let limit := with_default (get (query req) "limit") (JStr "20") in
  let skip := with_default (get (query req) "skip") (JStr "0") in
  let sortBy := with_default (get (query req) "sortBy") (JStr "title") in
  let sortOrder := with_default (get (query req) "sortOrder") (JStr "asc") in
  let* filter := getAllMovies_filter q genre year minRating maxRating in
  let limitNum := getAllMovies_limitNum limit in
  let skipNum := getAllMovies_skipNum skip in
  let sort :=
    JObj [(ToString sortBy,
           match sortOrder with
           | JStr "desc" => JInt (-1)
           | _ => JInt 1
           end)] in
  let* movies := call (Find moviesCollection filter sort limitNum skipNum) in
  res_json (createSuccessResponse (JArr movies)
              (JStr ("Found " ++ count_of movies ++ " movies"))).

(** *** GET /api/movies/:id *)

Definition getMovieById (req : Request) : M E Response :=
  let id := get (params req) "id" in
  if negb (ObjectId.isValid id) then
    respond 400 (createErrorResponse (JStr "Invalid movie ID format")
                   (JStr "INVALID_OBJECT_ID") JUndefined)
  else
    let* moviesCollection := getCollection "movies" in
    let* movie := call (FindOne moviesCollection (JObj [("_id", ObjectId.new id)])) in
    if negb (truthy movie) then
      respond 404 (createErrorResponse (JStr "Movie not found")
                     (JStr "MOVIE_NOT_FOUND") JUndefined)
    else
      res_json (createSuccessResponse movie (JStr "Movie retrieved successfully")).

(** *** PATCH /api/movies/:id *)

Definition updateMovie (req : Request) : M E Response :=
  let id := get (params req) "id" in
  let updateData := req_body req in
  if negb (ObjectId.isValid id) then
    respond 400 (createErrorResponse (JStr "Invalid movie ID format")
                   (JStr "INVALID_OBJECT_ID") JUndefined)
  else
    let* keys := lift (Object_keys updateData) in
    if (List.length keys =? 0)%nat then
      respond 400 (createErrorResponse (JStr "No update data provided")
                     (JStr "NO_UPDATE_DATA") JUndefined)
    else
      let* moviesCollection := getCollection "movies" in
      let* result :=
        call (UpdateOne moviesCollection (JObj [("_id", ObjectId.new id)])
                (JObj [("$set", updateData)])) in
      if matchedCount result =? 0 then
        respond 404 (createErrorResponse (JStr "Movie not found")
                       (JStr "MOVIE_NOT_FOUND") JUndefined)
      else
        let* updatedMovie :=
          call (FindOne moviesCollection (JObj [("_id", ObjectId.new id)])) in
        res_json (createSuccessResponse updatedMovie
                    (JStr ("Movie updated successfully. Modified "
                             ++ string_of_Z (modifiedCount result) ++ " field(s)."))).

(** *** The identifier conversion of the two batch handlers *)

(** [ids.map(id => { if (ObjectId.isValid(id)) return new ObjectId(id);
    throw new Error(`Invalid ObjectId: ${id}`) })]: the entries are taken in
    order and the first refused one ends the whole [map]. *)
Fixpoint convert_ids (ids : list JsVal) : Result (list JsVal) :=
  match ids with
  | [] => Ok []
  | id :: rest =>
      if ObjectId.isValid id then
        match convert_ids rest with
        | Ok converted => Ok (ObjectId.new id :: converted)
        | Thrown e => Thrown e
        end
      else Thrown (Error ("Invalid ObjectId: " ++ ToString id))
  end.

(** [processedFilter]: a copy of [filter] whose [_id.$in], when it is an
    array, holds the converted identifiers. *)
Definition process_filter (filter : JsVal) : Result JsVal :=
  let processedFilter := spread filter in
  let _id := get filter "_id" in
  if truthy _id && truthy (get _id "$in") && Array_isArray (get _id "$in") then
    match get _id "$in" with
    | JArr ids =>
        match convert_ids ids with
        | Ok converted =>
            Ok (JObj (set_prop "_id" (JObj [("$in", JArr converted)]) processedFilter))
        | Thrown e => Thrown e
        end
    | _ => Ok (JObj processedFilter)
    end
  else Ok (JObj processedFilter).

(** *** PATCH /api/movies *)

Definition updateMoviesBatch (req : Request) : M E Response :=
  let* filter := lift (destructure (req_body req) "req.body" "filter") in
  let update := get (req_body req) "update" in
  if negb (truthy filter) || negb (truthy update) then
    respond 400 (createErrorResponse (JStr "Both filter and update objects are required")
                   (JStr "MISSING_REQUIRED_FIELDS") JUndefined)
  else
    let* keys := lift (Object_keys update) in
    if (List.length keys =? 0)%nat then
      respond 400 (createErrorResponse (JStr "Update object cannot be empty")
                     (JStr "EMPTY_UPDATE") JUndefined)
    else
      let* moviesCollection := getCollection "movies" in
      let* processedFilter := lift (process_filter filter) in
      let* result :=
        call (UpdateMany moviesCollection processedFilter (JObj [("$set", update)])) in
      res_json (createSuccessResponse
                  (JObj [("matchedCount", JInt (matchedCount result));
                         ("modifiedCount", JInt (modifiedCount result))])
                  (JStr ("Update operation completed. Matched "
                           ++ string_of_Z (matchedCount result) ++ " documents, modified "
                           ++ string_of_Z (modifiedCount result) ++ " documents."))).

(** *** DELETE /api/movies/:id *)

Definition deleteMovie (req : Request) : M E Response :=
  let id := get (params req) "id" in
  if negb (ObjectId.isValid id) then
    respond 400 (createErrorResponse (JStr "Invalid movie ID format")
                   (JStr "INVALID_OBJECT_ID") JUndefined)
  else
    let* moviesCollection := getCollection "movies" in
    let* result := call (DeleteOne moviesCollection (JObj [("_id", ObjectId.new id)])) in
    if deletedCount result =? 0 then
      respond 404 (createErrorResponse (JStr "Movie not found")
                     (JStr "MOVIE_NOT_FOUND") JUndefined)
    else
      res_json (createSuccessResponse
                  (JObj [("deletedCount", JInt (deletedCount result))])
                  (JStr "Movie deleted successfully")).

(** *** DELETE /api/movies *)

(** [!filter || Object.keys(filter).length === 0]; [Object.keys] is only
    reached on a truthy value, where it does not throw. *)
Definition filter_missing (filter : JsVal) : bool :=
  negb (truthy filter)
  || match Object_keys filter with
     | Ok keys => (List.length keys =? 0)%nat
     | Thrown _ => false
     end.

Definition deleteMoviesBatch (req : Request) : M E Response :=
  let* filter := lift (destructure (req_body req) "req.body" "filter") in
  if filter_missing filter then
    respond 400 (createErrorResponse
                   (JStr "Filter object is required and cannot be empty. This prevents accidental deletion of all documents.")
                   (JStr "MISSING_FILTER") JUndefined)
  else
    let* moviesCollection := getCollection "movies" in
    let* processedFilter := lift (process_filter filter) in
    let* result := call (DeleteMany moviesCollection processedFilter) in
    res_json (createSuccessResponse
                (JObj [("deletedCount", JInt (deletedCount result))])
                (JStr ("Delete operation completed. Removed "
                         ++ string_of_Z (deletedCount result) ++ " documents."))).

(** *** DELETE /api/movies/:id/find-and-delete *)

Definition findAndDeleteMovie (req : Request) : M E Response :=
  let id := get (params req) "id" in
  if negb (ObjectId.isValid id) then
    respond 400 (createErrorResponse (JStr "Invalid movie ID format")
                   (JStr "INVALID_OBJECT_ID") JUndefined)
  else
    let* moviesCollection := getCollection "movies" in
    let* deletedMovie :=
      call (FindOneAndDelete moviesCollection (JObj [("_id", ObjectId.new id)])) in
    if negb (truthy deletedMovie) then
      respond 404 (createErrorResponse (JStr "Movie not found")
                     (JStr "MOVIE_NOT_FOUND") JUndefined)
    else
      res_json (createSuccessResponse deletedMovie
                  (JStr "Movie found and deleted successfully")).

(** *** GET /api/movies/search *)

Definition validOperators : list string := ["must"; "should"; "mustNot"; "filter"].

(** [list.includes(v)]. *)
Definition includes (l : list string) (v : JsVal) : bool :=
  match v with
  | JStr s => existsb (String.eqb s) l
  | _ => false
  end.

Definition phrase_clause (q : JsVal) (path : string) : JsVal :=
  JObj [("phrase", JObj [("query", q); ("path", JStr path)])].

Definition fuzzy_clause (q : JsVal) (path : string) : JsVal :=
  JObj [("text", JObj [("query", q); ("path", JStr path);
                       ("fuzzy", JObj [("maxEdits", JInt 1); ("prefixLength", JInt 5)])])].

(** [searchPhrases] after the five [if (...) push(...)]. *)
Definition searchPhrases (plot fullplot directors writers cast : JsVal) : list JsVal :=
  ((if truthy plot then [phrase_clause plot "plot"] else [])
     ++ (if truthy fullplot then [phrase_clause fullplot "fullplot"] else [])
     ++ (if truthy directors then [fuzzy_clause directors "directors"] else [])
     ++ (if truthy writers then [fuzzy_clause writers "writers"] else [])
     ++ (if truthy cast then [fuzzy_clause cast "cast"] else []))%list.

Definition searchMovies_limitNum (limit : JsVal) : Z :=
  clamp (or_number (parseInt limit) 20) 1 100.

Definition searchMovies_skipNum (skip : JsVal) : Integral :=
  Math_max (or_number (parseInt skip) 0) 0.

Definition searchMovies_pipeline (searchOperator : JsVal) (phrases : list JsVal)
    (skipNum : Integral) (limitNum : Z) : list JsVal :=
  [JObj [("$search",
          JObj [("index", JStr "movieSearchIndex");
                ("compound", JObj [(ToString searchOperator, JArr phrases)])])];
   JObj [("$facet",
          JObj [("totalCount", JArr [JObj [("$count", JStr "count")]]);
                ("results",
                 JArr [JObj [("$skip", Integral_json skipNum)];
                       JObj [("$limit", JInt limitNum)];
                       JObj [("$project",
                              JObj [("_id", JInt 1); ("title", JInt 1); ("year", JInt 1);
                                    ("plot", JInt 1); ("fullplot", JInt 1);
                                    ("released", JInt 1); ("runtime", JInt 1);
                                    ("poster", JInt 1); ("genres", JInt 1);
                                    ("directors", JInt 1); ("writers", JInt 1);
                                    ("cast", JInt 1); ("countries", JInt 1);
                                    ("languages", JInt 1); ("rated", JInt 1);
                                    ("awards", JInt 1); ("imdb", JInt 1)])]])])]].

Definition searchMovies (req : Request) : M E Response :=
  let* moviesCollection := getCollection "movies" in
  let plot := get (query req) "plot" in
  let fullplot := get (query req) "fullplot" in
  let directors := get (query req) "directors" in
  let writers := get (query req) "writers" in
  let cast := get (query req) "cast" in
  let limit := with_default (get (query req) "limit") (JStr "20") in
  let skip := with_default (get (query req) "skip") (JStr "0") in
  let searchOperator := with_default (get (query req) "searchOperator") (JStr "must") in
  if negb (includes validOperators searchOperator) then
    respond 400 (createErrorResponse
                   (JStr ("Invalid search_operator '" ++ ToString searchOperator
                            ++ "'. Must be one of: " ++ join ", " validOperators))
                   (JStr "INVALID_SEARCH_OPERATOR") JUndefined)
  else
    let phrases := searchPhrases plot fullplot directors writers cast in
    if (List.length phrases =? 0)%nat then
      respond 400 (createErrorResponse
                     (JStr "At least one search parameter must be provided")
                     (JStr "NO_SEARCH_PARAMETERS") JUndefined)
    else
      let limitNum := searchMovies_limitNum limit in
      let skipNum := searchMovies_skipNum skip in
      let pipeline := searchMovies_pipeline searchOperator phrases skipNum limitNum in
      let* results := call (Aggregate moviesCollection pipeline) in
      let facetResult := or_else (nth 0%nat results JUndefined) (JObj []) in
      let totalCount :=
        or_else (get (get_index (get facetResult "totalCount") 0) "count") (JInt 0) in
      let movies := or_else (get facetResult "results") (JArr []) in
      res_json (createSuccessResponse
                  (JObj [("movies", movies); ("totalCount", totalCount)])
                  (JStr ("Found " ++ ToString totalCount
                           ++ " movies matching the search criteria"))).

(** *** The embedding provider *)

Definition voyage_request (text apiKey : string) : HttpRequest :=
  {| http_url := "https://api.voyageai.com/v1/embeddings";
     http_method := "POST";
     http_headers := [("Content-Type", "application/json");
                      ("Authorization", "Bearer " ++ apiKey)];
     http_body := JObj [("input", JArr [JStr text]);
                        ("model", JStr "voyage-3-large");
                        ("output_dimension", JInt 2048);
                        ("input_type", JStr "query")] |}.

Definition generateVoyageEmbedding (text apiKey : string) : M E JsVal :=
  try_catch
    (let* response := http (voyage_request text apiKey) in
     if negb (http_ok response) then
       let errorText := http_text response in
       throw (Error ("Voyage AI API returned status " ++ string_of_Z (http_status response)
                       ++ ": " ++ errorText))
     else
       let* data := lift (http_json response) in
       let* data_data := lift (get_prop data "data") in
       if negb (truthy data_data)
          || negb (truthy (get_index data_data 0))
          || negb (truthy (get (get_index data_data 0) "embedding"))
       then throw (Error "Invalid response format from Voyage AI API")
       else ret (get (get_index data_data 0) "embedding"))
    (fun error =>
       throw (Error ("Failed to generate embedding: " ++ error_message error))).

(** *** GET /api/movies/vector-search *)

Record VectorSearchResult := {
  vs_id : string;
  vs_title : JsVal;
  vs_plot : JsVal;
  vs_poster : JsVal;
  vs_year : JsVal;
  vs_genres : JsVal;
  vs_directors : JsVal;
  vs_cast : JsVal;
  vs_score : Q
}.

Definition VectorSearchResult_json (r : VectorSearchResult) : JsVal :=
  JObj [("_id", JStr (vs_id r)); ("title", vs_title r); ("plot", vs_plot r);
        ("poster", vs_poster r); ("year", vs_year r); ("genres", vs_genres r);
        ("directors", vs_directors r); ("cast", vs_cast r); ("score", JNum (vs_score r))].

Definition vectorSearch_limitNum (limit : JsVal) : Z :=
  clamp (or_number (parseInt limit) 20) 1 50.

Definition vectorSearchPipeline (queryVector : JsVal) (limitNum : Z) : list JsVal :=
  [JObj [("$vectorSearch",
          JObj [("index", JStr "vector_index");
                ("path", JStr "plot_embedding_voyage_3_large");
                ("queryVector", queryVector);
                ("numCandidates", JInt (limitNum * 20));
                ("limit", JInt limitNum)])];
   JObj [("$project",
          JObj [("_id", JInt 1); ("score", JObj [("$meta", JStr "vectorSearchScore")])])]].

Definition moviesPipeline (movieIds : list JsVal) : list JsVal :=
  [JObj [("$match", JObj [("_id", JObj [("$in", JArr movieIds)])])];
   JObj [("$project",
          JObj [("_id", JInt 1); ("title", JInt 1); ("plot", JInt 1); ("poster", JInt 1);
                ("genres", JInt 1); ("directors", JInt 1); ("cast", JInt 1);
                ("year",
                 JObj [("$cond",
                        JObj [("if",
                               JObj [("$and",
                                      JArr [JObj [("$ne", JArr [JStr "$year"; JNull])];
                                            JObj [("$eq",
                                                   JArr [JObj [("$type", JStr "$year")];
                                                         JStr "int"])]])]);
                              ("then", JStr "$year");
                              ("else", JNull)])])])]].

(** [scoreMap] after the [forEach]: a later document with the same
    identifier replaces the earlier score. *)
Definition build_scoreMap (vectorResults : list ScoredId) : gmap string Q :=
  fold_left (fun m doc => <[scored_id doc := scored_score doc]> m) vectorResults ∅.

(** [scoreMap.get(id) || 0]. *)
Definition score_or_zero (o : option Q) : Q :=
  match o with
  | Some sc => if Qeq_bool sc 0 then 0%Q else sc
  | None => 0%Q
  end.

(** Step 3, the [map]: one result per re-fetched movie. *)
Definition combine_scores (scoreMap : gmap string Q) (movieResults : list ProjectedMovie)
  : list VectorSearchResult :=
  map (fun movie =>
         let movieIdStr := pm_id movie in
         let score := score_or_zero (scoreMap !! movieIdStr) in
         {| vs_id := movieIdStr;
            vs_title := or_else (pm_title movie) (JStr "");
            vs_plot := pm_plot movie;
            vs_poster := pm_poster movie;
            vs_year := pm_year movie;
            vs_genres := or_else (pm_genres movie) (JArr []);
            vs_directors := or_else (pm_directors movie) (JArr []);
            vs_cast := or_else (pm_cast movie) (JArr []);
            vs_score := score |})
      movieResults.

(** The comparator [(a, b) => b.score - a.score]. *)
Definition by_score_desc (a b : VectorSearchResult) : Q := (vs_score b - vs_score a)%Q.

(** [finalResults] after the [sort]. *)
Definition finalResults (vectorResults : list ScoredId) (movieResults : list ProjectedMovie)
  : list VectorSearchResult :=
  Array_sort by_score_desc (combine_scores (build_scoreMap vectorResults) movieResults).

Definition api_key_missing (key : option string) : bool :=
  match key with
  | None => true
  | Some k => negb (truthy (JStr k)) || (String.length (trim k) =? 0)%nat
  end.

Definition vectorSearchMovies (req : Request) : M E Response :=
  let q := get (query req) "q" in
  let limit := with_default (get (query req) "limit") (JStr "10") in
  if negb (truthy q) || negb (is_string q) || (String.length (trim (ToString q)) =? 0)%nat then
    respond 400 (createErrorResponse (JStr "Search query is required")
                   (JStr "MISSING_QUERY_PARAMETER") JUndefined)
  else
    let* key := getenv_VOYAGE_API_KEY in
    if api_key_missing key then
      respond 400 (createErrorResponse
                     (JStr "Vector search unavailable: VOYAGE_API_KEY not configured. Please add your API key to the .env file")
                     (JStr "SERVICE_UNAVAILABLE") JUndefined)
    else
      let limitNum := vectorSearch_limitNum limit in
      try_catch
        (let* queryVector := generateVoyageEmbedding (trim (ToString q)) (default "" key) in
         let* embeddedMoviesCollection := getCollection "embedded_movies" in
         let* vectorResults :=
           call (AggregateScores embeddedMoviesCollection
                   (vectorSearchPipeline queryVector limitNum)) in
         if (List.length vectorResults =? 0)%nat then
           res_json (createSuccessResponse (JArr [])
                       (JStr ("No similar movies found for query: '" ++ ToString q ++ "'")))
         else
           let movieIds := map (fun doc => JObjectId (scored_id doc)) vectorResults in
           let* moviesCollection := getCollection "movies" in
           let* movieResults :=
             call (AggregateMovies moviesCollection (moviesPipeline movieIds)) in
           let final := finalResults vectorResults movieResults in
           res_json (createSuccessResponse
                       (JArr (map VectorSearchResult_json final))
                       (JStr ("Found " ++ count_of final ++ " similar movies for query: '"
                                ++ ToString q ++ "'"))))
        (fun error =>
           respond 500 (createErrorResponse (JStr "Error performing vector search")
                          (JStr "VECTOR_SEARCH_ERROR") (JStr (error_message error)))).

(** *** GET /api/movies/aggregations/reportingByComments *)

Definition comments_limitNum (limit : JsVal) : Z :=
  clamp (or_number (parseInt limit) 10) 1 50.

Definition year_quality_filter : JsVal :=
  JObj [("$type", JStr "number"); ("$gte", JInt 1800); ("$lte", JInt 2030)].

(** The pipeline as it stands when [aggregate] is called: [first_match] is
    the content of the first stage's [$match]. *)
Definition comments_pipeline (first_match : list (string * JsVal)) (limitNum : Z)
    (movieId : JsVal) : list JsVal :=
  [JObj [("$match", JObj first_match)];
   JObj [("$lookup",
          JObj [("from", JStr "comments"); ("localField", JStr "_id");
                ("foreignField", JStr "movie_id"); ("as", JStr "comments")])];
   JObj [("$match", JObj [("comments", JObj [("$ne", JArr [])])])];
   JObj [("$addFields",
          JObj [("recentComments",
                 JObj [("$slice",
                        JArr [JObj [("$sortArray",
                                     JObj [("input", JStr "$comments");
                                           ("sortBy", JObj [("date", JInt (-1))])])];
                              JInt limitNum])]);
                ("mostRecentCommentDate", JObj [("$max", JStr "$comments.date")])])];
   JObj [("$sort", JObj [("mostRecentCommentDate", JInt (-1))])];
   JObj [("$limit", if truthy movieId then JInt 50 else JInt 20)];
   JObj [("$project",
          JObj [("title", JInt 1); ("year", JInt 1); ("genres", JInt 1); ("_id", JInt 1);
                ("imdbRating", JStr "$imdb.rating");
                ("recentComments",
                 JObj [("$map",
                        JObj [("input", JStr "$recentComments");
                              ("as", JStr "comment");
                              ("in",
                               JObj [("_id", JStr "$$comment._id");
                                     ("userName", JStr "$$comment.name");
                                     ("userEmail", JStr "$$comment.email");
                                     ("text", JStr "$$comment.text");
                                     ("date", JStr "$$comment.date")])])]);
                ("totalComments", JObj [("$size", JStr "$comments")])])]].

Definition ReportComment_json (c : ReportComment) : JsVal :=
  JObj [("_id", match rc_id c with Some h => JStr h | None => JUndefined end);
        ("userName", rc_userName c); ("userEmail", rc_userEmail c);
        ("text", rc_text c); ("date", rc_date c)].

Definition ReportRow_json (r : ReportRow) : JsVal :=
  JObj [("_id", JStr (rr_id r)); ("title", rr_title r); ("year", rr_year r);
        ("genres", rr_genres r); ("imdbRating", rr_imdbRating r);
        ("recentComments", JArr (map ReportComment_json (rr_recentComments r)));
        ("totalComments", JInt (rr_totalComments r))].

Definition getMoviesWithMostRecentComments (req : Request) : M E Response :=
  let* moviesCollection := getCollection "movies" in
  let limit := with_default (get (query req) "limit") (JStr "10") in
  let movieId := get (query req) "movieId" in
  let limitNum := comments_limitNum limit in
  let first_match := [("year", year_quality_filter)] in
  if truthy movieId && is_string movieId && negb (ObjectId.isValid movieId) then
    respond 400 (createErrorResponse (JStr "Invalid movie ID format")
                   (JStr "INVALID_OBJECT_ID") JUndefined)
  else
    let first_match :=
      if truthy movieId && is_string movieId
      then set_prop "_id" (ObjectId.new movieId) first_match
      else first_match in
    let* results :=
      call (AggregateReport moviesCollection
              (comments_pipeline first_match limitNum movieId)) in
    let processedResults := map ReportRow_json results in
    let totalComments :=
      fold_left (fun sum result => sum + or_default (Some (rr_totalComments result)) 0)
                results 0 in
    let message :=
      if truthy movieId then
        "Found " ++ string_of_Z totalComments ++ " comments from movie"
      else
        "Found " ++ string_of_Z totalComments ++ " comments from "
          ++ count_of processedResults ++ " movie"
          ++ (if (List.length processedResults =? 1)%nat then "" else "s") in
    res_json (createSuccessResponse (JArr processedResults) (JStr message)).

(** *** GET /api/movies/aggregations/reportingByYear *)

Definition rating_if_double : JsVal :=
  JObj [("$cond",
         JArr [JObj [("$and",
                      JArr [JObj [("$ne", JArr [JStr "$imdb.rating"; JNull])];
                            JObj [("$ne", JArr [JStr "$imdb.rating"; JStr ""])];
                            JObj [("$eq", JArr [JObj [("$type", JStr "$imdb.rating")];
                                                JStr "double"])]])];
               JStr "$imdb.rating";
               JStr "$$REMOVE"])].

Definition yearStats_pipeline : list JsVal :=
  [JObj [("$match", JObj [("year", year_quality_filter)])];
   JObj [("$group",
          JObj [("_id", JStr "$year");
                ("movieCount", JObj [("$sum", JInt 1)]);
                ("averageRating", JObj [("$avg", rating_if_double)]);
                ("highestRating", JObj [("$max", rating_if_double)]);
                ("lowestRating", JObj [("$min", rating_if_double)]);
                ("totalVotes", JObj [("$sum", JStr "$imdb.votes")])])];
   JObj [("$project",
          JObj [("year", JStr "$_id");
                ("movieCount", JInt 1);
                ("averageRating", JObj [("$round", JArr [JStr "$averageRating"; JInt 2])]);
                ("highestRating", JInt 1);
                ("lowestRating", JInt 1);
                ("totalVotes", JInt 1);
                ("_id", JInt 0)])];
   JObj [("$sort", JObj [("year", JInt (-1))])]].

Definition getMoviesByYearWithStats (req : Request) : M E Response :=
  let* moviesCollection := getCollection "movies" in
  let* results := call (Aggregate moviesCollection yearStats_pipeline) in
  res_json (createSuccessResponse (JArr results)
              (JStr ("Aggregated statistics for " ++ count_of results ++ " years"))).

(** *** GET /api/movies/aggregations/reportingByDirectors *)

Definition directors_limitNum (limit : JsVal) : Z :=
  clamp (or_number (parseInt limit) 20) 1 100.

Definition directors_pipeline (limitNum : Z) : list JsVal :=
  [JObj [("$match",
          JObj [("directors",
                 JObj [("$exists", JBool true); ("$ne", JNull);
                       ("$not", JObj [("$eq", JArr [])])]);
                ("year", year_quality_filter)])];
   JObj [("$unwind", JStr "$directors")];
   JObj [("$match", JObj [("directors", JObj [("$nin", JArr [JNull; JStr ""])])])];
   JObj [("$group",
          JObj [("_id", JStr "$directors");
                ("movieCount", JObj [("$sum", JInt 1)]);
                ("averageRating", JObj [("$avg", JStr "$imdb.rating")])])];
   JObj [("$sort", JObj [("movieCount", JInt (-1))])];
   JObj [("$limit", JInt limitNum)];
   JObj [("$project",
          JObj [("director", JStr "$_id");
                ("movieCount", JInt 1);
                ("averageRating", JObj [("$round", JArr [JStr "$averageRating"; JInt 2])]);
                ("_id", JInt 0)])]].

Definition getDirectorsWithMostMovies (req : Request) : M E Response :=
  let* moviesCollection := getCollection "movies" in
  let limit := with_default (get (query req) "limit") (JStr "20") in
  let limitNum := directors_limitNum limit in
  let* results := call (Aggregate moviesCollection (directors_pipeline limitNum)) in
  res_json (createSuccessResponse (JArr results)
              (JStr ("Found " ++ count_of results ++ " directors with most movies"))).

End Program.
End MovieController.
Export MovieController.

(* ===================================================================== *)
(** ** The aggregation stages of the year report *)
(* ===================================================================== *)

Module Mongo.

(** BSON values on the paths the report reads.  A double is given by its
    exact value and is finite; comparisons of numbers are exact in the
    engine, too.  Arrays are left out: no field the pipeline reads is an array
    in the movie schema. *)
Inductive Value : Type :=
| VNull
| VBool (b : bool)
| VInt (z : Z)
| VLong (z : Z)
| VDouble (q : Q)
| VString (s : string)
| VDoc (fields : list (string * Value)).

Definition Doc : Type := list (string * Value).

Fixpoint field (name : string) (d : Doc) : option Value :=
  match d with
  | [] => None
  | (k, v) :: rest => if String.eqb name k then Some v else field name rest
  end.

(** The value at a dotted path; [None] is a missing field. *)
Fixpoint lookup_path (path : list string) (v : Value) : option Value :=
  match path with
  | [] => Some v
  | name :: rest =>
      match v with
      | VDoc fields =>
          match field name fields with
          | Some inner => lookup_path rest inner
          | None => None
          end
      | _ => None
      end
  end.

(** What [$type] answers. *)
Definition type_name (v : option Value) : string :=
  match v with
  | None => "missing"
  | Some VNull => "null"
  | Some (VBool _) => "bool"
  | Some (VInt _) => "int"
  | Some (VLong _) => "long"
  | Some (VDouble _) => "double"
  | Some (VString _) => "string"
  | Some (VDoc _) => "object"
  end.

(** The number a numeric value stands for. *)
Definition number (v : Value) : option Q :=
  match v with
  | VInt z | VLong z => Some (inject_Z z)
  | VDouble q => Some q
  | _ => None
  end.

(** The canonical comparison order of BSON types. *)
Definition rank (v : Value) : Z :=
  match v with
  | VNull => 1
  | VInt _ | VLong _ | VDouble _ => 2
  | VString _ => 3
  | VDoc _ => 4
  | VBool _ => 5
  end.

Fixpoint compare_values (a b : Value) {struct a} : comparison :=
  match a, b with
  | VNull, VNull => Eq
  | VBool x, VBool y => Bool.compare x y
  | VString x, VString y => String.compare x y
  | VDoc xs, VDoc ys =>
      (fix compare_fields (xs : list (string * Value)) (ys : list (string * Value))
         : comparison :=
         match xs, ys with
         | [], [] => Eq
         | [], _ :: _ => Lt
         | _ :: _, [] => Gt
         | (kx, vx) :: xs', (ky, vy) :: ys' =>
             match Z.compare (rank vx) (rank vy) with
             | Eq =>
                 match String.compare kx ky with
                 | Eq =>
                     match compare_values vx vy with
                     | Eq => compare_fields xs' ys'
                     | c => c
                     end
                 | c => c
                 end
             | c => c
             end
         end) xs ys
  | _, _ =>
      match number a, number b with
      | Some x, Some y => Qcompare x y
      | _, _ => Z.compare (rank a) (rank b)
      end
  end.


Definition same_value (a b : Value) : bool :=
  match compare_values a b with Eq => true | _ => false end.

(** Equality of what two expressions produced; a missing field equals only
    a missing field. *)
Definition same_outcome (a b : option Value) : bool :=
  match a, b with
  | None, None => true
  | Some x, Some y => same_value x y
  | _, _ => false
  end.

(** Truth of a value in [$cond] and [$and]. *)
Definition holds (v : option Value) : bool :=
  match v with
  | None | Some VNull | Some (VBool false) => false
  | Some (VInt z) | Some (VLong z) => negb (z =? 0)
  | Some (VDouble q) => negb (Qeq_bool q 0)
  | Some _ => true
  end.

(** The engine's arithmetic on doubles: what [$sum] returns once an addend
    is a double or the integers leave the 64-bit range, the mean [$avg]
    returns, and what [$round] makes of a double.  The server computes them
    in floating point; the stages below are given their meaning relative to
    them. *)
Class Arithmetic := {
  sum_doubles : list Q -> Q;
  mean : list Q -> Q;
  round_double : Z -> Q -> Q
}.

(** Aggregation expressions, as far as the report uses them. *)
Inductive Expr : Type :=
| Field (path : list string)
| Lit (v : Value)
| Remove
| Cond (test yes no : Expr)
| And (operands : list Expr)
| NotEqual (a b : Expr)
| Equal (a b : Expr)
| TypeOf (e : Expr)
| Round (e : Expr) (places : Z).

Section Semantics.
Context {arithmetic : Arithmetic}.

(** The value of an expression on a document.  The outer [None] is an
    error that aborts the aggregation, the inner one a missing value. *)
Fixpoint eval (d : Doc) (e : Expr) : option (option Value) :=
  match e with
  | Field path => Some (lookup_path path (VDoc d))
  | Lit v => Some (Some v)
  | Remove => Some None
  | Cond test yes no =>
      t ← eval d test;
      if holds t then eval d yes else eval d no
  | And operands =>
      ts ← mapM (eval d) operands;
      Some (Some (VBool (forallb holds ts)))
  | NotEqual a b =>
      x ← eval d a; y ← eval d b;
      Some (Some (VBool (negb (same_outcome x y))))
  | Equal a b =>
      x ← eval d a; y ← eval d b;
      Some (Some (VBool (same_outcome x y)))
  | TypeOf e => x ← eval d e; Some (Some (VString (type_name x)))
  | Round e places =>
      x ← eval d e;
      match x with
      | None | Some VNull => Some (Some VNull)
      | Some (VDouble q) => Some (Some (VDouble (round_double places q)))
      | Some (VInt z) => Some (Some (VInt z))
      | Some (VLong z) => Some (Some (VLong z))
      | Some _ => None
      end
  end.

Inductive Accumulator : Type :=
| Sum (e : Expr)
| Avg (e : Expr)
| Max (e : Expr)
| Min (e : Expr).

Definition Qsum (l : list Q) : Q := fold_right Qplus 0%Q l.

Definition is_double (v : Value) : bool :=
  match v with VDouble _ => true | _ => false end.

Definition is_long (v : Value) : bool :=
  match v with VLong _ => true | _ => false end.

(** Does a number fit a signed integer of that many bits? *)
Definition fits (bits : Z) (q : Q) : bool :=
  (- 2 ^ (bits - 1) <=? Qfloor q) && (Qfloor q <? 2 ^ (bits - 1)).

(** Do these numbers add up in floating point: is one of them a double, or
    does the sum of the integers leave the 64-bit range? *)
Definition adds_in_doubles (numeric : list Value) : bool :=
  existsb is_double numeric || negb (fits 64 (Qsum (omap number numeric))).

(** The sum of numbers: exact for integers within 64 bits, the engine's
    otherwise. *)
Definition total_of (numeric : list Value) : Q :=
  if adds_in_doubles numeric then sum_doubles (omap number numeric)
  else Qsum (omap number numeric).

(** [$sum]: values that are not numbers are skipped; the sum is a double as
    soon as one addend is or the integers overflow 64 bits, and otherwise a
    64-bit integer when an addend is or when it does not fit 32 bits. *)
Definition sum_of (vs : list (option Value)) : Value :=
  let numeric := omap (fun v => v ≫= (fun x => number x ≫= (fun _ => Some x))) vs in
  let total := total_of numeric in
  if adds_in_doubles numeric then VDouble total
  else if existsb is_long numeric || negb (fits 32 total) then VLong (Qfloor total)
  else VInt (Qfloor total).

(** [$avg]: the engine's mean of the numbers, [null] when there is none. *)
Definition avg_of (vs : list (option Value)) : Value :=
  match omap (fun v => v ≫= number) vs with
  | [] => VNull
  | numbers => VDouble (mean numbers)
  end.

Definition present (v : option Value) : option Value :=
  match v with
  | None | Some VNull => None
  | Some x => Some x
  end.

Definition greater (a b : Value) : Value :=
  match compare_values a b with Lt => b | _ => a end.

Definition smaller (a b : Value) : Value :=
  match compare_values a b with Gt => b | _ => a end.

(** [$max] and [$min]: [null] and missing values are skipped; [null] when
    nothing is left. *)
Definition extreme_of (pick : Value -> Value -> Value) (vs : list (option Value)) : Value :=
  match omap present vs with
  | [] => VNull
  | first :: rest => fold_left pick rest first
  end.

Definition accumulate (acc : Accumulator) (group : list Doc) : option Value :=
  match acc with
  | Sum e => sum_of <$> mapM (fun d => eval d e) group
  | Avg e => avg_of <$> mapM (fun d => eval d e) group
  | Max e => extreme_of greater <$> mapM (fun d => eval d e) group
  | Min e => extreme_of smaller <$> mapM (fun d => eval d e) group
  end.






(** The group key of a document: a missing key counts as [null]. *)
Definition key_of (key : Expr) (d : Doc) : option Value :=
  default VNull <$> eval d key.

(** One representative per class of equal keys. *)
Fixpoint distinct (keys : list Value) : list Value :=
  match keys with
  | [] => []
  | k :: rest => if existsb (same_value k) rest then distinct rest else k :: distinct rest
  end.

Definition has_key (key : Expr) (k : Value) (d : Doc) : bool :=
  match key_of key d with
  | Some k' => same_value k' k
  | None => false
  end.

Definition group_row (key : Expr) (accumulators : list (string * Accumulator))
    (docs : list Doc) (k : Value) : option Doc :=
  let members := List.filter (has_key key k) docs in
  cells ← mapM (fun na => pair (fst na) <$> accumulate (snd na) members) accumulators;
  Some (("_id", k) :: cells).

(** [$group]: one output document per distinct key, in no promised
    order. *)
Definition group (key : Expr) (accumulators : list (string * Accumulator))
    (docs : list Doc) : option (list Doc) :=
  keys ← mapM (key_of key) docs;
  mapM (group_row key accumulators docs) (distinct keys).




Definition sort_key (by_field : string) (d : Doc) : Value := default VNull (field by_field d).

(** Does [x] go before [y]? *)
Definition goes_first (by_field : string) (direction : Z) (x y : Doc) : bool :=
  match compare_values (sort_key by_field x) (sort_key by_field y) with
  | Eq => true
  | Lt => 0 <=? direction
  | Gt => direction <? 0
  end.

Fixpoint insert_doc (before : Doc -> Doc -> bool) (x : Doc) (l : list Doc) : list Doc :=
  match l with
  | [] => [x]
  | y :: rest => if before x y then x :: l else y :: insert_doc before x rest
  end.

Definition sort (by_field : string) (direction : Z) (docs : list Doc) : list Doc :=
  fold_right (insert_doc (goes_first by_field direction)) [] docs.



(** *** The year report *)

Definition rating : Expr := Field ["imdb"; "rating"].

Definition rating_if_double : Expr :=
  Cond (And [NotEqual rating (Lit VNull);
             NotEqual rating (Lit (VString ""));
             Equal (TypeOf rating) (Lit (VString "double"))])
       rating Remove.



(** *** The pipeline as the driver receives it *)







(** *** What the report is meant to say *)

















End Semantics.





End Mongo.

(* ===================================================================== *)
(** ** A scripted platform *)
(* ===================================================================== *)

Module Scenario.

(** A small outside world: a clock, the movies as documents, and the
    answers the provider and the two vector-search aggregations will give.
    Every call that leaves the process takes a millisecond; [deleteMany]
    and [updateMany] touch every document. *)
Record Sim := {
  sim_time : Z;
  sim_connected : bool;
  sim_key : option string;
  sim_docs : list JsVal;
  sim_http : Result HttpResponse;
  sim_scores : list ScoredId;
  sim_movies : list ProjectedMovie
}.

Definition tick (e : Sim) : Sim :=
  {| sim_time := sim_time e + 1; sim_connected := sim_connected e; sim_key := sim_key e;
     sim_docs := sim_docs e; sim_http := sim_http e; sim_scores := sim_scores e;
     sim_movies := sim_movies e |}.

Definition with_docs (docs : list JsVal) (e : Sim) : Sim :=
  {| sim_time := sim_time e; sim_connected := sim_connected e; sim_key := sim_key e;
     sim_docs := docs; sim_http := sim_http e; sim_scores := sim_scores e;
     sim_movies := sim_movies e |}.

Definition sim_store (T : Type) (op : StoreOp T) (e : Sim) : Result T * Sim :=
  let n := Z.of_nat (List.length (sim_docs e)) in
  match op in StoreOp T return Result T * Sim with
  | Find _ _ _ _ _ => (Ok (sim_docs e), tick e)
  | FindOne _ _ => (Ok (nth 0%nat (sim_docs e) JNull), tick e)
  | UpdateOne _ _ _ => (Ok {| matchedCount := Z.min n 1; modifiedCount := Z.min n 1 |}, tick e)
  | UpdateMany _ _ _ => (Ok {| matchedCount := n; modifiedCount := n |}, tick e)
  | DeleteOne _ _ => (Ok {| deletedCount := Z.min n 1 |}, tick (with_docs (tl (sim_docs e)) e))
  | DeleteMany _ _ => (Ok {| deletedCount := n |}, tick (with_docs [] e))
  | FindOneAndDelete _ _ =>
      (Ok (nth 0%nat (sim_docs e) JNull), tick (with_docs (tl (sim_docs e)) e))
  | Aggregate _ _ => (Ok (sim_docs e), tick e)
  | AggregateScores _ _ => (Ok (sim_scores e), tick e)
  | AggregateMovies _ _ => (Ok (sim_movies e), tick e)
  | AggregateReport _ _ => (Ok [], tick e)
  end.

#[global] Instance sim_platform : Platform Sim := {|
  now := sim_time;
  database := sim_connected;
  VOYAGE_API_KEY := sim_key;
  store := sim_store;
  fetch := fun _ e => (sim_http e, tick e);
  regexp_ok := fun _ => true;
  regexp_error := fun _ => ""
|}.

Definition movie (title : string) : JsVal :=
  JObj [("_id", JObjectId "507f1f77bcf86cd799439011"); ("title", JStr title)].

(** Monday 3 November 2025, 00:00:00.123 UTC; two movies; no API key. *)
Definition quiet : Sim :=
  {| sim_time := 1762128000123; sim_connected := true; sim_key := None;
     sim_docs := [movie "Alien"; movie "Brazil"];
     sim_http := Thrown (TypeError "fetch failed");
     sim_scores := []; sim_movies := [] |}.

(** The same world with a configured key and a provider that answers as
    scripted. *)
Definition with_provider (answer : Result HttpResponse) (e : Sim) : Sim :=
  {| sim_time := sim_time e; sim_connected := sim_connected e;
     sim_key := Some "pa-test-key";
     sim_docs := sim_docs e; sim_http := answer; sim_scores := sim_scores e;
     sim_movies := sim_movies e |}.

Definition unauthorized : HttpResponse :=
  {| http_status := 401; http_text := "Unauthorized";
     http_json := Thrown (Error "Unexpected token U in JSON at position 0") |}.

Definition server_error : HttpResponse :=
  {| http_status := 500; http_text := "Internal Server Error";
     http_json := Thrown (Error "Unexpected token I in JSON at position 0") |}.

Definition embedding : JsVal := JArr [JNum (1 # 4); JNum (-3 # 8)].

Definition embedded : HttpResponse :=
  {| http_status := 200; http_text := "";
     http_json := Ok (JObj [("data", JArr [JObj [("embedding", embedding)]])]) |}.

Definition id_alien : string := "573a1390f29313caabcd4135".
Definition id_brazil : string := "573a1390f29313caabcd42e8".
Definition id_cube : string := "573a1390f29313caabcd4323".

Definition projected (id title : string) : ProjectedMovie :=
  {| pm_id := id; pm_title := JStr title; pm_plot := JUndefined; pm_poster := JUndefined;
     pm_year := JInt 1985; pm_genres := JUndefined; pm_directors := JUndefined;
     pm_cast := JUndefined |}.

(** The nearest-neighbour search scores Alien 0.75 and Brazil 0.9; the
    re-fetch returns Cube (never scored), Alien and Brazil, in that order. *)
Definition scored : list ScoredId :=
  [{| scored_id := id_alien; scored_score := 3 # 4 |};
   {| scored_id := id_brazil; scored_score := 9 # 10 |}].

Definition refetched : list ProjectedMovie :=
  [projected id_cube "Cube"; projected id_alien "Alien"; projected id_brazil "Brazil"].

Definition searching : Sim :=
  {| sim_time := 1762128000123; sim_connected := true; sim_key := Some "pa-test-key";
     sim_docs := []; sim_http := Ok embedded;
     sim_scores := scored; sim_movies := refetched |}.

(** The same search with another answer of the re-fetch. *)
Definition refetching (movies : list ProjectedMovie) : Sim :=
  {| sim_time := 1762128000123; sim_connected := true; sim_key := Some "pa-test-key";
     sim_docs := []; sim_http := Ok embedded;
     sim_scores := scored; sim_movies := movies |}.

Definition start (e : Sim) : World Sim := {| env := e; log := [] |}.



(** An engine that computes with the exact values: exact sums and means,
    and rounding to the nearest decimal with ties to the even one. *)
Definition exact : Mongo.Arithmetic :=
  {| Mongo.sum_doubles := Mongo.Qsum;
     Mongo.mean := fun numbers =>
       (Mongo.Qsum numbers / inject_Z (Z.of_nat (List.length numbers)))%Q;
     Mongo.round_double := fun places q =>
       (inject_Z (round_half_even (q * inject_Z (10 ^ places))) / inject_Z (10 ^ places))%Q |}.



Definition request (params query body : JsVal) : Request :=
  {| params := params; query := query; req_body := body |}.

End Scenario.

(* ===================================================================== *)
(** ** Creating movies *)
(* ===================================================================== *)

Module Creation.

(** What [insertOne] and [insertMany] resolve to. *)
Record InsertOneResult := { one_acknowledged : bool; insertedId : JsVal }.

Record InsertManyResult := {
  many_acknowledged : bool;
  insertedCount : Z;
  insertedIds : JsVal
}.

(** [v == null || v === ""]. *)
Definition is_blank (v : JsVal) : bool :=
  match v with
  | JUndefined | JNull => true
  | JStr s => String.eqb s ""
  | _ => false
  end.

(** [requiredFields.filter(field => body[field] == null || body[field] === "")]:
    reading a field of [undefined] or [null] throws. *)
Fixpoint missingFields (body : JsVal) (requiredFields : list string) : Result (list string) :=
  match requiredFields with
  | [] => Ok []
  | field :: rest =>
      match get_prop body field with
      | Thrown e => Thrown e
      | Ok v =>
          match missingFields body rest with
          | Thrown e => Thrown e
          | Ok missing => Ok (if is_blank v then field :: missing else missing)
          end
      end
  end.

(** [validateRequiredFields] of utils/errorHandler.ts. *)
Definition validateRequiredFields (body : JsVal) (requiredFields : list string) : Result unit :=
  match missingFields body requiredFields with
  | Thrown e => Thrown e
  | Ok missing =>
      if (0 <? List.length missing)%nat
      then Thrown (ValidationError ("Missing required fields: " ++ join ", " missing))
      else Ok tt
  end.

(** The [forEach] of [createMoviesBatch]: each movie is validated in turn and
    a failure is thrown again as a plain [Error] that names the index. *)
Fixpoint validate_each (moviesData : list JsVal) (index : Z) : Result unit :=
  match moviesData with
  | [] => Ok tt
  | movie :: rest =>
      match validateRequiredFields movie ["title"] with
      | Ok _ => validate_each rest (index + 1)
      | Thrown error =>
          Thrown (Error ("Movie at index " ++ string_of_Z index ++ ": "
                           ++ error_message error))
      end
  end.

Section Program.
Context {E : Type} {P : Platform E}.

(** The two collection methods that insert, as the handlers call them. *)
Variable insertOne : string -> JsVal -> M E InsertOneResult.
Variable insertMany : string -> JsVal -> M E InsertManyResult.

(** *** POST /api/movies *)

Definition createMovie (req : Request) : M E Response :=
  let movieData := req_body req in
  let* _ := lift (validateRequiredFields movieData ["title"]) in
  let* moviesCollection := getCollection "movies" in
  let* result := insertOne moviesCollection movieData in
  if negb (one_acknowledged result) then
    throw (Error "Movie insertion was not acknowledged by the database")
  else
    let* createdMovie :=
      call (FindOne moviesCollection (JObj [("_id", insertedId result)])) in
    respond 201 (createSuccessResponse createdMovie
                   (JStr ("Movie '" ++ ToString (get movieData "title")
                            ++ "' created successfully"))).

(** *** POST /api/movies/batch *)

Definition createMoviesBatch (req : Request) : M E Response :=
  let moviesData := req_body req in
  let items := match moviesData with JArr l => l | _ => [] end in
  if negb (Array_isArray moviesData) || (List.length items =? 0)%nat then
    respond 400 (createErrorResponse
                   (JStr "Request body must be a non-empty array of movie objects")
                   (JStr "INVALID_INPUT") JUndefined)
  else
    let* _ := lift (validate_each items 0) in
    let* moviesCollection := getCollection "movies" in
    let* result := insertMany moviesCollection moviesData in
    if negb (many_acknowledged result) then
      throw (Error "Batch movie insertion was not acknowledged by the database")
    else
      respond 201 (createSuccessResponse
                     (JObj [("insertedCount", JInt (insertedCount result));
                            ("insertedIds", insertedIds result)])
                     (JStr ("Successfully created " ++ string_of_Z (insertedCount result)
                              ++ " movies"))).

End Program.
End Creation.
Export Creation.

(* ===================================================================== *)
(** ** The shared connection *)
(* ===================================================================== *)

Module Connection.

(** The state of a promise. *)
Inductive Promise : Type :=
| Pending
| Fulfilled
| Rejected (e : JsError).

(** The module variables of config/database.ts: [connect$], whether
    [database] is set, and how often [client.connect()] has been called. *)
Record State := {
  connect_promise : option Promise;
  database_set : bool;
  connect_calls : nat
}.

Definition initial : State :=
  {| connect_promise := None; database_set := false; connect_calls := 0 |}.

Definition uri_missing : JsError :=
  Error "MONGODB_URI environment variable is not defined. Please check your .env file and ensure it contains a valid MongoDB connection string.".

(** [_connectToDatabase()] up to its first [await]: the promise it returns
    and the state it leaves.  [refused] is what [new MongoClient(uri, ...)]
    throws for this connection string, if it throws: the [catch] throws it
    again and [client.connect()] is never reached. *)
Definition start_connect (MONGODB_URI : option string) (refused : option JsError)
    (s : State) : State :=
  if database_set s then
    {| connect_promise := Some Fulfilled; database_set := true;
       connect_calls := connect_calls s |}
  else
    match MONGODB_URI with
    | Some uri =>
        if truthy (JStr uri) then
          match refused with
          | Some e =>
              {| connect_promise := Some (Rejected e); database_set := false;
                 connect_calls := connect_calls s |}
          | None =>
              {| connect_promise := Some Pending; database_set := false;
                 connect_calls := S (connect_calls s) |}
          end
        else
          {| connect_promise := Some (Rejected uri_missing); database_set := false;
             connect_calls := connect_calls s |}
    | None =>
        {| connect_promise := Some (Rejected uri_missing); database_set := false;
           connect_calls := connect_calls s |}
    end.

(** [connectToDatabase()]: [connect$ ??= _connectToDatabase()]. *)
Definition connectToDatabase (MONGODB_URI : option string) (refused : option JsError)
    (s : State) : State :=
  match connect_promise s with
  | Some _ => s
  | None => start_connect MONGODB_URI refused s
  end.

(** [client.connect()] settles: on success [database] is set and the
    promise is fulfilled, on failure the error is thrown again. *)
Definition settle (failure : option JsError) (s : State) : State :=
  match connect_promise s with
  | Some Pending =>
      match failure with
      | None =>
          {| connect_promise := Some Fulfilled; database_set := true;
             connect_calls := connect_calls s |}
      | Some e =>
          {| connect_promise := Some (Rejected e); database_set := false;
             connect_calls := connect_calls s |}
      end
  | _ => s
  end.

(** What happens to the module, in order: a caller asks for the connection
    (with the environment as it is then, and the driver's verdict on the
    connection string), or the pending connect settles. *)
Inductive Step : Type :=
| Ask (MONGODB_URI : option string) (refused : option JsError)
| Settle (failure : option JsError).

Definition step (s : State) (x : Step) : State :=
  match x with
  | Ask uri refused => connectToDatabase uri refused s
  | Settle failure => settle failure s
  end.

Definition run (steps : list Step) : State := fold_left step steps initial.

End Connection.

(* ===================================================================== *)
(** ** utils/logger.ts *)
(* ===================================================================== *)

Module Logger.

(** The [levels] table. *)
Definition levels (name : string) : option Z :=
  if String.eqb name "error" then Some 0
  else if String.eqb name "warn" then Some 1
  else if String.eqb name "info" then Some 2
  else if String.eqb name "http" then Some 3
  else if String.eqb name "debug" then Some 4
  else None.

(** [process.env.X || d]. *)
Definition env_or (v : option string) (d : string) : string :=
  match v with
  | Some s => if String.eqb s "" then d else s
  | None => d
  end.

Definition getLogLevel (NODE_ENV LOG_LEVEL : option string) : string :=
  let env := env_or NODE_ENV "development" in
  let by_environment :=
    if String.eqb env "production" then "info"
    else if String.eqb env "test" then "error"
    else "debug" in
  match LOG_LEVEL with
  | Some envLogLevel => if truthy (JStr envLogLevel) then envLogLevel else by_environment
  | None => by_environment
  end.

(** The level [logHttpRequest] logs a finished request at. *)
Definition logHttpRequest_level (statusCode : Z) : string :=
  if 500 <=? statusCode then "error"
  else if 400 <=? statusCode then "warn"
  else "http".

Definition logHttpRequest_message (method url : string) (statusCode responseTime : Z) : string :=
  method ++ " " ++ url ++ " " ++ string_of_Z statusCode ++ " - "
    ++ string_of_Z responseTime ++ "ms".

(** A transport: its name and its own level, when it has one. *)
Record Transport := { transport_name : string; transport_level : option string }.

Definition createTransports (NODE_ENV : option string) : list Transport :=
  let env := env_or NODE_ENV "development" in
  ((if negb (String.eqb env "test")
    then [{| transport_name := "console"; transport_level := None |}] else [])
   ++ (if negb (String.eqb env "test")
       then [{| transport_name := "error.log"; transport_level := Some "error" |};
             {| transport_name := "combined.log"; transport_level := None |}]
       else []))%list.

(** winston's rule: a message passes a threshold when its level's number is
    not above the threshold's; a level that is not in the table passes
    nothing and lets nothing pass. *)
Definition passes (threshold message_level : string) : bool :=
  match levels threshold, levels message_level with
  | Some t, Some m => m <=? t
  | _, _ => false
  end.

(** The transports a message of [message_level] is written to: each
    transport decides by its own level, and by the logger's when it has
    none. *)
Definition written_to (NODE_ENV LOG_LEVEL : option string) (message_level : string)
  : list string :=
  let level := getLogLevel NODE_ENV LOG_LEVEL in
  map transport_name
      (List.filter (fun t => passes (default level (transport_level t)) message_level)
                   (createTransports NODE_ENV)).

End Logger.

(* ===================================================================== *)
(** ** More scripted worlds *)
(* ===================================================================== *)

Module Cases.

Definition valid_id : string := "507f1f77bcf86cd799439011".

(** [insertOne] and [insertMany] on the scripted platform: the documents
    are appended and acknowledged. *)
Definition sim_insertOne (coll : string) (doc : JsVal) : M Scenario.Sim InsertOneResult :=
  fun w =>
    (Ok {| one_acknowledged := true; insertedId := JObjectId valid_id |},
     {| env := Scenario.tick
                 (Scenario.with_docs (Scenario.sim_docs (env w) ++ [doc])%list (env w));
        log := log w |}).

Definition sim_insertMany (coll : string) (docs : JsVal) : M Scenario.Sim InsertManyResult :=
  fun w =>
    let items := match docs with JArr l => l | _ => [] end in
    (Ok {| many_acknowledged := true;
           insertedCount := Z.of_nat (List.length items);
           insertedIds := JObj [] |},
     {| env := Scenario.tick
                 (Scenario.with_docs (Scenario.sim_docs (env w) ++ items)%list (env w));
        log := log w |}).

(** A deployment that refuses every operation with the same error, and a
    provider that is never reached. *)
Record Broken := { broken_with : JsError; broken_time : Z }.

Definition broken_store (T : Type) (op : StoreOp T) (e : Broken) : Result T * Broken :=
  (Thrown (broken_with e), e).

#[global] Instance broken_platform : Platform Broken := {|
  now := broken_time;
  database := fun _ => true;
  VOYAGE_API_KEY := fun _ => None;
  store := broken_store;
  fetch := fun _ e => (Thrown (TypeError "fetch failed"), e);
  regexp_ok := fun pattern => negb (String.eqb pattern "(");
  regexp_error := fun _ => "Unterminated group"
|}.

Definition duplicate_key : Broken :=
  {| broken_with := MongoError 11000 "E11000 duplicate key error";
     broken_time := 1762128000123 |}.

Definition by_id (id : string) : Request :=
  Scenario.request (JObj [("id", JStr id)]) (JObj []) (JObj [("rated", JStr "PG")]).

Definition with_body (body : JsVal) : Request :=
  Scenario.request (JObj []) (JObj []) body.

Definition with_query (query : list (string * JsVal)) : Request :=
  Scenario.request (JObj []) (JObj query) JUndefined.

End Cases.

(* ===================================================================== *)
(** ** Vocabulary of the statements *)
(* ===================================================================== *)

(** The [error.code] of an envelope. *)
Definition error_code (envelope : JsVal) : JsVal := get (get envelope "error") "code".

(** A response that is a failure envelope with the given HTTP status and
    machine-readable code. *)
Definition fails_with (http : Z) (code : string) (resp : Response) : Prop :=
  status resp = http
  /\ get (body resp) "success" = JBool false
  /\ error_code (body resp) = JStr code.

(** The handler answers with that failure and leaves the world as it found
    it: no call left the process, and the store is what it was. *)
Definition refuses {E : Type} (m : M E Response) (w : World E) (http : Z) (code : string)
  : Prop :=
  exists resp, m w = (Ok resp, w) /\ fails_with http code resp.

(** The limit an endpoint is meant to use, from what [parseInt] made of the
    parameter: the default when nothing was parsed or zero was, otherwise the
    parsed number brought into [1, ceiling]. *)
Definition effective_limit (default ceiling : Z) (parsed : option Z) : Z :=
  match parsed with
  | None => default
  | Some n =>
      if n =? 0 then default
      else if n <? 1 then 1
      else if ceiling <? n then ceiling
      else n
  end.

(** Highest similarity first. *)
Definition score_desc (a b : VectorSearchResult) : Prop := (vs_score b <= vs_score a)%Q.

(** A vector search that reaches both aggregations: the request has a
    usable [q], the key is configured, the provider returned an embedding,
    the store answered the nearest-neighbour aggregation with
    [vectorResults], at least one, and the re-fetch of their identifiers with
    [movieResults].  [final] is the world after the second answer. *)
Definition searches {E : Type} {P : Platform E} (req : Request) (w : World E)
    (vectorResults : list ScoredId) (movieResults : list ProjectedMovie)
    (final : World E) : Prop :=
  exists q key queryVector w1 e2,
    get (query req) "q" = JStr q
    /\ (String.length (trim q) =? 0)%nat = false
    /\ VOYAGE_API_KEY (env w) = Some key
    /\ api_key_missing (Some key) = false
    /\ generateVoyageEmbedding (trim q) key w = (Ok queryVector, w1)
    /\ database (env w1) = true
    /\ store _ (AggregateScores "embedded_movies"
                  (vectorSearchPipeline queryVector
                     (vectorSearch_limitNum
                        (with_default (get (query req) "limit") (JStr "10")))))
             (env w1)
       = (Ok vectorResults, e2)
    /\ vectorResults <> []
    /\ database e2 = true
    /\ store _ (AggregateMovies "movies"
                  (moviesPipeline (map (fun doc => JObjectId (scored_id doc)) vectorResults)))
             e2
       = (Ok movieResults, env final)
    /\ log final
       = (log w1
            ++ [StoreCall (AggregateScores "embedded_movies"
                             (vectorSearchPipeline queryVector
                                (vectorSearch_limitNum
                                   (with_default (get (query req) "limit") (JStr "10")))));
                StoreCall (AggregateMovies "movies"
                             (moviesPipeline
                                (map (fun doc => JObjectId (scored_id doc))
                                     vectorResults)))])%list.

(** The instants whose year [toISOString] prints with four digits:
    0000-01-01T00:00:00.000Z up to 9999-12-31T23:59:59.999Z. *)
Definition four_digit_year (t : Z) : Prop :=
  -62167219200000 <= t < 253402300800000.

(** The comments counted by a report: the sum of the rows' [totalComments]. *)
Definition total_comments (rows : list ReportRow) : Z :=
  fold_right Z.add 0 (map rr_totalComments rows).

(* ===================================================================== *)
(** ** The response envelope *)
(* ===================================================================== *)

Lemma lookup_absent (k : string) (props : list (string * JsVal)) :
  has_own k props = false -> lookup_prop k props = JUndefined.
Proof.
  induction props as [|[k' v] rest IH]; cbn [has_own existsb lookup_prop fst]; [reflexivity|].
  destruct (String.eqb k k'); cbn [orb]; [discriminate | exact IH].
Qed.

(** On a name that no prototype answers, [get] reads own properties
    only. *)
Lemma get_plain (o : JsVal) (k : string) : plain_key k = true -> get o k = own o k.
Proof.
  unfold plain_key. intros Hplain.
  apply andb_prop in Hplain as [Hplain Hindex].
  apply andb_prop in Hplain as [Hplain Harray].
  apply andb_prop in Hplain as [Hlength Hobject].
  apply negb_true_iff in Hlength, Hobject, Harray.
  destruct (array_index k) eqn:Hk; [discriminate Hindex|].
  destruct o; cbn [get own]; unfold inherited; rewrite ?Hobject, ?Harray, ?Hlength, ?Hk;
    try reflexivity.
  destruct (has_own k props) eqn:Hown; [reflexivity|].
  symmetry. apply lookup_absent, Hown.
Qed.

(** On a plain object, so does every name that [Object.prototype] lacks. *)
Lemma get_object (props : list (string * JsVal)) (k : string) :
  existsb (String.eqb k) Object_prototype = false ->
  get (JObj props) k = lookup_prop k props.
Proof.
  intros Hobject. cbn [get]. unfold inherited. rewrite Hobject.
  destruct (has_own k props) eqn:Hown; [reflexivity|].
  symmetry. apply lookup_absent, Hown.
Qed.

Ltac js_get_goal :=
  repeat match goal with
         | |- context [get (JObj ?props) ?k] => rewrite (get_object props k eq_refl)
         | |- context [get ?o ?k] => rewrite (get_plain o k eq_refl)
         end.

Ltac js_get :=
  repeat match goal with
         | |- context [get (JObj ?props) ?k] => rewrite (get_object props k eq_refl)
         | H : context [get (JObj ?props) ?k] |- _ =>
             rewrite (get_object props k eq_refl) in H
         | |- context [get ?o ?k] => rewrite (get_plain o k eq_refl)
         | H : context [get ?o ?k] |- _ => rewrite (get_plain o k eq_refl) in H
         end.

Ltac split_ifs :=
  repeat match goal with
         | |- context [if ?a <? ?b then _ else _] => destruct (Z.ltb_spec a b)
         | |- context [if ?a <=? ?b then _ else _] => destruct (Z.leb_spec a b)
         end.

Lemma civil_from_days_bounds (days : Z) :
  -719528 <= days <= 2932896 ->
  0 <= fst (fst (Date.civil_from_days days)) <= 9999 /\
  1 <= snd (fst (Date.civil_from_days days)) <= 12 /\
  1 <= snd (Date.civil_from_days days) <= 31.
Proof.
  intros Hdays. unfold Date.civil_from_days. cbn [fst snd].
  split_ifs; Z.div_mod_to_equations; lia.
Qed.

Lemma toISOString_iso8601 (t : Z) :
  four_digit_year t -> Date.is_iso8601 (Date.toISOString t).
Proof.
  unfold four_digit_year, Date.toISOString, Date.msPerDay. intros Ht.
  assert (Hdays : -719528 <= t / 86400000 <= 2932896)
    by (Z.div_mod_to_equations; lia).
  destruct (civil_from_days_bounds _ Hdays) as (Hy & Hmo & Hd).
  destruct (Date.civil_from_days (t / 86400000)) as [[y mo] d]. cbn [fst snd] in *.
  exists y, mo, d, (t mod 86400000 / 3600000), (t mod 86400000 / 60000 mod 60),
    (t mod 86400000 / 1000 mod 60), (t mod 86400000 mod 1000).
  repeat split; try lia; try (Z.div_mod_to_equations; lia).
  unfold Date.render.
  replace ((0 <=? y) && (y <=? 9999)) with true by (symmetry; apply andb_true_iff; lia).
  reflexivity.
Qed.

Section Envelope.
Context {E : Type} {P : Platform E}.

(** C4. An envelope built by [createSuccessResponse] has [success = true], a
    [data] field and no [error] field; one built by [createErrorResponse] has
    [success = false], an [error] field and no [data] field.  Both carry a
    [timestamp] that is the ISO 8601 text of the clock as read inside the
    constructor, and building them changes nothing. *)
Theorem envelope_has_data_xor_error (w : World E) (data message code details : JsVal) :
  four_digit_year (now (env w)) ->
  (exists r, createSuccessResponse data message w = (Ok r, w)
     /\ get r "success" = JBool true
     /\ has_key "data" r = true /\ has_key "error" r = false
     /\ get r "timestamp" = JStr (Date.toISOString (now (env w))))
  /\ (exists r, createErrorResponse message code details w = (Ok r, w)
     /\ get r "success" = JBool false
     /\ has_key "error" r = true /\ has_key "data" r = false
     /\ get r "timestamp" = JStr (Date.toISOString (now (env w))))
  /\ Date.is_iso8601 (Date.toISOString (now (env w))).
Proof.
  intros Ht. split; [|split].
  - eexists. split; [reflexivity|]. repeat split.
  - eexists. split; [reflexivity|]. repeat split.
  - apply toISOString_iso8601, Ht.
Qed.

End Envelope.

Lemma envelope_has_data_xor_error_witness :
  four_digit_year (now (env (Scenario.start Scenario.quiet)))
  /\ createSuccessResponse (JArr []) JUndefined (Scenario.start Scenario.quiet)
     = (Ok (JObj [("success", JBool true);
                  ("message", JStr "Operation completed successfully");
                  ("data", JArr []);
                  ("timestamp", JStr "2025-11-03T00:00:00.123Z")]),
        Scenario.start Scenario.quiet)
  /\ Date.is_iso8601 (Date.toISOString (now (env (Scenario.start Scenario.quiet)))).
Proof.
  assert (Ht : four_digit_year (now (env (Scenario.start Scenario.quiet))))
    by (unfold four_digit_year; simpl; lia).
  split; [exact Ht|]. split; [reflexivity|].
  exact (proj2 (proj2 (envelope_has_data_xor_error
                         (Scenario.start Scenario.quiet) (JArr []) JUndefined
                         JUndefined JUndefined Ht))).
Defined.

(* ===================================================================== *)
(** ** Validation before the store *)
(* ===================================================================== *)

Section Validation.
Context {E : Type} {P : Platform E}.

Lemma respond_error (w : World E) (http : Z) (message code : string) (details : JsVal) :
  refuses (respond http (createErrorResponse (JStr message) (JStr code) details)) w http code.
Proof.
  eexists. split; [reflexivity|]. repeat split.
Qed.

Lemma errorHandler_fails (w : World E) (e : JsError) :
  exists resp, errorHandler e w = (Ok resp, w)
    /\ (status resp = 400 \/ status resp = 409 \/ status resp = 500)
    /\ get (body resp) "success" = JBool false.
Proof.
  eexists. split; [reflexivity|]. split; [|reflexivity].
  cbn [status]. unfold parseErrorDetails.
  destruct e; cbn; try (right; right; reflexivity); try (left; reflexivity).
  destruct (code =? 11000); [right; left; reflexivity|].
  destruct (code =? 121); [left; reflexivity | right; right; reflexivity].
Qed.

(** An [Error] reaches the client as a 500. *)
Lemma errorHandler_Error (w : World E) (message : string) :
  exists resp, errorHandler (Error message) w = (Ok resp, w)
    /\ status resp = 500 /\ get (body resp) "success" = JBool false.
Proof.
  eexists. split; [reflexivity|]. split; reflexivity.
Qed.

Lemma convert_ids_refused (ids : list JsVal) :
  Exists (fun id => ObjectId.isValid id = false) ids ->
  exists message, convert_ids ids = Thrown (Error message).
Proof.
  induction ids as [|id rest IH]; intros Hex.
  - inversion Hex.
  - cbn [convert_ids]. destruct (ObjectId.isValid id) eqn:Hid.
    + inversion Hex as [? ? Hhd | ? ? Htl]; subst; [congruence|].
      destruct (IH Htl) as [message ->]. eauto.
    + eauto.
Qed.

Lemma in_array_is_object (filter : JsVal) (ids : list JsVal) :
  get (get filter "_id") "$in" = JArr ids ->
  exists fprops iprops,
    filter = JObj fprops /\ lookup_prop "_id" fprops = JObj iprops
    /\ lookup_prop "$in" iprops = JArr ids.
Proof.
  intros Hin. js_get.
  destruct filter as [| | | | | | |fprops| | | | | |]; cbn [own] in Hin; try discriminate Hin.
  destruct (lookup_prop "_id" fprops) as [| | | | | | |iprops| | | | | |] eqn:Hid;
    cbn [own] in Hin; try discriminate Hin.
  eauto.
Qed.

Lemma process_filter_refused (filter : JsVal) (ids : list JsVal) :
  get (get filter "_id") "$in" = JArr ids ->
  Exists (fun id => ObjectId.isValid id = false) ids ->
  exists message, process_filter filter = Thrown (Error message).
Proof.
  intros Hin Hex.
  destruct (in_array_is_object _ _ Hin) as (fprops & iprops & -> & Hid & Hids).
  destruct (convert_ids_refused _ Hex) as [message Hconv].
  exists message. unfold process_filter. js_get. cbn [own]. rewrite Hid. cbn [own truthy].
  rewrite Hids. cbn [truthy Array_isArray andb]. rewrite Hconv. reflexivity.
Qed.

(** C5 (amended). An identifier string that the driver's format predicate
    refuses makes get, update, delete and find-and-delete by id answer 400
    [INVALID_OBJECT_ID] without any call to the store.  The comments report
    does the same for a refused [movieId] that is not the empty string, once
    the database is connected. *)
Theorem invalid_id_refused (w : World E) (req : Request) (s : string) :
  ObjectId.isValid (JStr s) = false ->
  (get (params req) "id" = JStr s ->
     refuses (getMovieById req) w 400 "INVALID_OBJECT_ID"
     /\ refuses (updateMovie req) w 400 "INVALID_OBJECT_ID"
     /\ refuses (deleteMovie req) w 400 "INVALID_OBJECT_ID"
     /\ refuses (findAndDeleteMovie req) w 400 "INVALID_OBJECT_ID")
  /\ (get (query req) "movieId" = JStr s -> s <> "" -> database (env w) = true ->
     refuses (getMoviesWithMostRecentComments req) w 400 "INVALID_OBJECT_ID").
Proof.
  intros Hbad. split.
  - intros Hid.
    unfold getMovieById, updateMovie, deleteMovie, findAndDeleteMovie.
    rewrite Hid, Hbad. cbn [negb]. repeat split; apply respond_error.
  - intros Hid Hne Hdb.
    assert (Htruthy : truthy (JStr s) = true).
    { cbn. destruct (String.eqb_spec s ""); [contradiction | reflexivity]. }
    unfold refuses, getMoviesWithMostRecentComments, bind, getCollection.
    rewrite Hdb, Hid, Htruthy, Hbad. cbn [is_string negb andb].
    exact (respond_error w 400 _ _ _).
Qed.


(** C7. When the filter of a batch update or batch delete carries an array
    under [_id.$in] and one entry fails the identifier-format predicate, the
    route answers with a failure and the world is as it was: [updateMany] and
    [deleteMany] are not called, so nothing is modified or deleted. *)
Theorem batch_aborts_on_invalid_id (w : World E) (req : Request)
    (props : list (string * JsVal)) (ids : list JsVal) :
  req_body req = JObj props ->
  get (get (lookup_prop "filter" props) "_id") "$in" = JArr ids ->
  Exists (fun id => ObjectId.isValid id = false) ids ->
  (exists resp, asyncHandler updateMoviesBatch req w = (Ok resp, w)
     /\ (status resp = 400 \/ status resp = 500)
     /\ get (body resp) "success" = JBool false)
  /\ (exists resp, asyncHandler deleteMoviesBatch req w = (Ok resp, w)
     /\ (status resp = 400 \/ status resp = 500)
     /\ get (body resp) "success" = JBool false).
Proof.
  intros Hbody Hin Hex.
  destruct (process_filter_refused _ _ Hin Hex) as [message Hthrow].
  destruct (in_array_is_object _ _ Hin) as (fprops & iprops & Hf & Hid & _).
  split.
  - unfold asyncHandler, try_catch, updateMoviesBatch, bind, lift.
    rewrite Hbody. cbn [destructure]. js_get. rewrite Hf. cbn [truthy negb orb].
    destruct (truthy (lookup_prop "update" props)) eqn:Hup; cbn [negb].
    + destruct (Object_keys (lookup_prop "update" props)) as [keys|e] eqn:Hkeys.
      * destruct (List.length keys =? 0)%nat.
        -- eexists. split; [reflexivity|]. split; [left|]; reflexivity.
        -- unfold getCollection. destruct (database (env w)).
           ++ rewrite <- Hf, Hthrow. eexists. split; [reflexivity|].
              split; [right|]; reflexivity.
           ++ eexists. split; [reflexivity|]. split; [right|]; reflexivity.
      * destruct (lookup_prop "update" props); cbn in Hup, Hkeys; discriminate.
    + eexists. split; [reflexivity|]. split; [left|]; reflexivity.
  - unfold asyncHandler, try_catch, deleteMoviesBatch, bind, lift.
    rewrite Hbody. cbn [destructure]. js_get.
    assert (Hpresent : filter_missing (lookup_prop "filter" props) = false).
    { rewrite Hf. destruct fprops as [|[k v] rest]; [cbn in Hid; discriminate|].
      reflexivity. }
    rewrite Hpresent. unfold getCollection. destruct (database (env w)).
    + rewrite Hthrow. eexists. split; [reflexivity|]. split; [right|]; reflexivity.
    + eexists. split; [reflexivity|]. split; [right|]; reflexivity.
Qed.

(** C1 (amended). With the database connected and none of [plot],
    [fullplot], [directors], [writers], [cast] supplied, the compound search
    answers 400 [NO_SEARCH_PARAMETERS] when [searchOperator] is absent or one
    of the four operators, whatever [limit] and [skip] are; a
    [searchOperator] outside the four is answered 400
    [INVALID_SEARCH_OPERATOR] before the fields are looked at.  Neither case
    calls the store. *)
Theorem search_without_fields_refused (w : World E) (req : Request) :
  database (env w) = true ->
  (truthy (get (query req) "plot") = false ->
   truthy (get (query req) "fullplot") = false ->
   truthy (get (query req) "directors") = false ->
   truthy (get (query req) "writers") = false ->
   truthy (get (query req) "cast") = false ->
   (get (query req) "searchOperator" = JUndefined
    \/ exists op, get (query req) "searchOperator" = JStr op /\ In op validOperators) ->
   refuses (searchMovies req) w 400 "NO_SEARCH_PARAMETERS")
  /\ (includes validOperators
        (with_default (get (query req) "searchOperator") (JStr "must")) = false ->
      refuses (searchMovies req) w 400 "INVALID_SEARCH_OPERATOR").
Proof.
  intros Hdb. split.
  - intros Hplot Hfullplot Hdirectors Hwriters Hcast Hop.
    assert (Hvalid : includes validOperators
                       (with_default (get (query req) "searchOperator") (JStr "must")) = true).
    { destruct Hop as [-> | (op & -> & Hin)]; [reflexivity|].
      cbn in Hin. destruct Hin as [<- | [<- | [<- | [<- | []]]]]; reflexivity. }
    unfold refuses, searchMovies, bind, getCollection. rewrite Hdb, Hvalid.
    unfold searchPhrases. rewrite Hplot, Hfullplot, Hdirectors, Hwriters, Hcast.
    cbn [negb app List.length Nat.eqb].
    exact (respond_error w 400 _ _ _).
  - intros Hinvalid.
    unfold refuses, searchMovies, bind, getCollection. rewrite Hdb, Hinvalid.
    cbn [negb]. exact (respond_error w 400 _ _ _).
Qed.

End Validation.

Lemma invalid_id_refused_witness :
  let req := Scenario.request (JObj [("id", JStr "not-an-id")])
                              (JObj [("movieId", JStr "not-an-id")]) JUndefined in
  let w := Scenario.start Scenario.quiet in
  ObjectId.isValid (JStr "not-an-id") = false
  /\ refuses (getMovieById req) w 400 "INVALID_OBJECT_ID"
  /\ refuses (getMoviesWithMostRecentComments req) w 400 "INVALID_OBJECT_ID".
Proof.
  intros req w.
  destruct (invalid_id_refused w req "not-an-id" eq_refl) as [Hparam Hquery].
  split; [reflexivity|]. split.
  - exact (proj1 (Hparam eq_refl)).
  - apply Hquery; [reflexivity | discriminate | reflexivity].
Defined.

(** C5 as stated fails at the comments report: an empty [movieId] fails the
    format predicate, yet the handler treats it as absent and runs the
    aggregation. *)
Lemma comments_report_runs_on_empty_movieId :
  let req := Scenario.request (JObj []) (JObj [("movieId", JStr "")]) JUndefined in
  ObjectId.isValid (JStr "") = false
  /\ exists resp w',
       getMoviesWithMostRecentComments req (Scenario.start Scenario.quiet) = (Ok resp, w')
       /\ status resp = 200
       /\ get (body resp) "success" = JBool true
       /\ log w' = [StoreCall (AggregateReport "movies"
                                 (comments_pipeline [("year", year_quality_filter)] 10
                                                    (JStr "")))].
Proof.
  split; [reflexivity|]. eexists. eexists. split; [lazy; reflexivity|].
  repeat split.
Qed.



Lemma batch_aborts_on_invalid_id_witness :
  let ids := [JStr "507f1f77bcf86cd799439011"; JStr "oops"] in
  let props := [("filter", JObj [("_id", JObj [("$in", JArr ids)])]);
                ("update", JObj [("rated", JStr "PG")])] in
  let req := Scenario.request (JObj []) (JObj []) (JObj props) in
  exists resp,
    asyncHandler deleteMoviesBatch req (Scenario.start Scenario.quiet)
      = (Ok resp, Scenario.start Scenario.quiet)
    /\ (status resp = 400 \/ status resp = 500)
    /\ get (body resp) "success" = JBool false.
Proof.
  intros ids props req.
  refine (proj2 (batch_aborts_on_invalid_id (Scenario.start Scenario.quiet) req props ids
                   eq_refl eq_refl _)).
  apply Exists_cons_tl, Exists_cons_hd. reflexivity.
Defined.

Lemma search_without_fields_refused_witness :
  let req := Scenario.request (JObj [])
               (JObj [("limit", JStr "500"); ("searchOperator", JStr "should")]) JUndefined in
  refuses (searchMovies req) (Scenario.start Scenario.quiet) 400 "NO_SEARCH_PARAMETERS".
Proof.
  intros req.
  apply (proj1 (search_without_fields_refused (P := Scenario.sim_platform)
                  (Scenario.start Scenario.quiet) req eq_refl));
    try reflexivity.
  right. exists "should". split; [reflexivity|]. cbn. tauto.
Defined.

(** C1 as stated fails: with no text field and an invalid [searchOperator]
    the code is [INVALID_SEARCH_OPERATOR], not [NO_SEARCH_PARAMETERS]. *)
Lemma search_checks_operator_first :
  let req := Scenario.request (JObj []) (JObj [("searchOperator", JStr "invalid")])
                              JUndefined in
  refuses (searchMovies req) (Scenario.start Scenario.quiet) 400 "INVALID_SEARCH_OPERATOR"
  /\ ~ refuses (searchMovies req) (Scenario.start Scenario.quiet) 400 "NO_SEARCH_PARAMETERS".
Proof.
  intros req. split.
  - eexists. split; [lazy; reflexivity|]. repeat split.
  - intros (resp & Hrun & _ & _ & Hcode).
    cbv in Hrun. injection Hrun as <-. cbv in Hcode. discriminate Hcode.
Qed.

(* ===================================================================== *)
(** ** Pagination limits *)
(* ===================================================================== *)

Lemma round_shift_lower (z e : Z) : 0 < e -> 0 <= z -> z / 2 ^ e <= round_shift z e.
Proof.
  intros He Hz. unfold round_shift.
  destruct (z mod 2 ^ e <? 2 ^ (e - 1)); [lia|].
  destruct (2 ^ (e - 1) <? z mod 2 ^ e); [lia|].
  destruct (Z.even (z / 2 ^ e)); lia.
Qed.

(** Rounding keeps an integer of magnitude 2^53 or more at 2^52 or more, on
    its side of zero. *)
Lemma Number_of_integer_large (z : Z) :
  2 ^ 53 <= Z.abs z ->
  match Number_of_integer z with
  | Finite v => if z <? 0 then v <= - 2 ^ 52 else 2 ^ 52 <= v
  | Infinite negative => negative = (z <? 0)
  end.
Proof.
  intros Hbig. unfold Number_of_integer.
  destruct (Z.ltb_spec (Z.abs z) (2 ^ 53)) as [Hsmall|_]; [lia|].
  set (a := Z.abs z) in *. set (e := Z.log2 a - 52).
  assert (Hlog : 53 <= Z.log2 a).
  { apply Z.log2_le_pow2; lia. }
  assert (He : 0 < e) by (unfold e; lia).
  assert (Hpow : 0 < 2 ^ e) by (apply Z.pow_pos_nonneg; lia).
  assert (Hq : 2 ^ 52 <= a / 2 ^ e).
  { apply Z.div_le_lower_bound; [exact Hpow|].
    rewrite Z.mul_comm, <- Z.pow_add_r by lia.
    replace (52 + e) with (Z.log2 a) by (unfold e; lia).
    apply Z.log2_spec. lia. }
  pose proof (round_shift_lower a e He ltac:(lia)) as Hround.
  assert (Hv : 2 ^ 52 <= round_shift a e * 2 ^ e) by nia.
  destruct (2 ^ 1024 <=? round_shift a e * 2 ^ e); [reflexivity|].
  destruct (Z.ltb_spec z 0).
  - replace (Z.sgn z) with (-1) by lia. lia.
  - replace (Z.sgn z) with 1 by lia. lia.
Qed.

Lemma clamp_bounds (x : Integral) (low high : Z) :
  low <= high -> low <= clamp x low high <= high.
Proof.
  intros Hlh. unfold clamp, Math_max. destruct x as [z|[|]]; lia.
Qed.

Lemma clamp_effective (default ceiling : Z) (parsed : option Z) :
  1 <= default <= ceiling -> ceiling <= 2 ^ 52 ->
  clamp (or_number (Number_of_integer <$> parsed) default) 1 ceiling
  = effective_limit default ceiling parsed.
Proof.
  intros Hd Hc. unfold effective_limit.
  destruct parsed as [n|]; cbn [fmap option_fmap option_map or_number clamp Math_max];
    [|lia].
  destruct (Z.ltb_spec (Z.abs n) (2 ^ 53)) as [Hsmall|Hbig].
  - unfold Number_of_integer. destruct (Z.ltb_spec (Z.abs n) (2 ^ 53)); [|lia].
    cbn [or_number]. destruct (Z.eqb_spec n 0); cbn [clamp Math_max]; split_ifs; lia.
  - pose proof (Number_of_integer_large n Hbig) as Hn.
    destruct (Number_of_integer n) as [v|negative]; cbn [or_number].
    + destruct (Z.eqb_spec n 0); [lia|].
      destruct (Z.ltb_spec n 0);
        (destruct (Z.eqb_spec v 0); [lia|]); cbn [clamp Math_max]; split_ifs; lia.
    + subst negative. destruct (Z.eqb_spec n 0); [lia|].
      destruct (Z.ltb_spec n 0); cbn [clamp Math_max]; split_ifs; lia.
Qed.

(** C2 (amended). For every string given as [limit]: when [parseInt] finds
    no number, or finds zero, the limit used is the endpoint's default;
    otherwise it is the parsed number brought into the endpoint's range.
    Defaults and ceilings: 20 and 100 for the list, the compound search and
    the directors report, 10 and 50 for the comments report. *)
Theorem limit_is_effective_limit (s : string) :
  getAllMovies_limitNum (JStr s) = effective_limit 20 100 (parseInt_string s)
  /\ searchMovies_limitNum (JStr s) = effective_limit 20 100 (parseInt_string s)
  /\ comments_limitNum (JStr s) = effective_limit 10 50 (parseInt_string s)
  /\ directors_limitNum (JStr s) = effective_limit 20 100 (parseInt_string s).
Proof.
  unfold getAllMovies_limitNum, searchMovies_limitNum, comments_limitNum,
    directors_limitNum, parseInt. cbn [ToString].
  repeat split; apply clamp_effective; lia.
Qed.

(** C2 as stated fails at ["0"]: the parsed integer 0 lies below the range,
    whose nearest bound is 1, but the list endpoint uses 20. *)
Lemma limit_zero_uses_default :
  parseInt_string "0" = Some 0
  /\ getAllMovies_limitNum (JStr "0") = 20
  /\ ~ (forall s n, parseInt_string s = Some n -> n < 1 ->
                    getAllMovies_limitNum (JStr s) = 1).
Proof.
  split; [reflexivity|]. split; [reflexivity|].
  intros Hclaim. specialize (Hclaim "0" 0 eq_refl ltac:(lia)). discriminate Hclaim.
Qed.

Section Pagination.
Context {E : Type} {P : Platform E}.

(** The limit computed by [getAllMovies] is the one handed to [find]. *)
Lemma getAllMovies_finds_with_limit (w : World E) (req : Request) :
  database (env w) = true ->
  truthy (get (query req) "genre") = false ->
  exists filter sort r w',
    getAllMovies req w = (r, w')
    /\ log w' = (log w ++ [StoreCall
                             (Find "movies" filter sort
                                (getAllMovies_limitNum
                                   (with_default (get (query req) "limit") (JStr "20")))
                                (getAllMovies_skipNum
                                   (with_default (get (query req) "skip") (JStr "0"))))])%list.
Proof.
  intros Hdb Hgenre.
  unfold getAllMovies, bind, getCollection, getAllMovies_filter. rewrite Hdb, Hgenre.
  unfold bind, ret, call. cbn [env log].
  destruct (store _ _ (env w)) as [[movies|e] e'] eqn:Hstore.
  - do 4 eexists. split; [reflexivity|]. reflexivity.
  - do 4 eexists. split; [reflexivity|]. reflexivity.
Qed.

(** The limit computed by [getDirectorsWithMostMovies] is the [$limit] of
    the pipeline handed to [aggregate]. *)
Lemma directors_aggregates_with_limit (w : World E) (req : Request) :
  database (env w) = true ->
  exists r w',
    getDirectorsWithMostMovies req w = (r, w')
    /\ log w' = (log w ++ [StoreCall
                             (Aggregate "movies"
                                (directors_pipeline
                                   (directors_limitNum
                                      (with_default (get (query req) "limit")
                                                    (JStr "20")))))])%list.
Proof.
  intros Hdb.
  unfold getDirectorsWithMostMovies, bind, getCollection. rewrite Hdb.
  unfold call. cbn [env log].
  destruct (store _ _ (env w)) as [[results|e] e'] eqn:Hstore.
  - do 2 eexists. split; reflexivity.
  - do 2 eexists. split; reflexivity.
Qed.

End Pagination.

(* ===================================================================== *)
(** ** Vector search: the embedding provider *)
(* ===================================================================== *)

Section Provider.
Context {E : Type} {P : Platform E}.

(** Whatever goes wrong at the provider, a rejected [fetch] or a status
    outside 2xx, [generateVoyageEmbedding] throws a plain [Error] whose text
    alone tells the cases apart. *)
Lemma generateVoyageEmbedding_failure (w : World E) (text apiKey : string)
    (answer : Result HttpResponse) (e' : E) :
  fetch (voyage_request text apiKey) (env w) = (answer, e') ->
  match answer with
  | Ok response => http_ok response = false
  | Thrown _ => True
  end ->
  exists message,
    generateVoyageEmbedding text apiKey w
    = (Thrown (Error message),
       {| env := e'; log := (log w ++ [HttpCall (voyage_request text apiKey)])%list |}).
Proof.
  intros Hfetch Hbad.
  unfold generateVoyageEmbedding, try_catch, bind, http. rewrite Hfetch.
  destruct answer as [response|e].
  - rewrite Hbad. cbn [negb]. eexists. reflexivity.
  - eexists. reflexivity.
Qed.

(** Every provider failure is answered 500 [VECTOR_SEARCH_ERROR]: the
    handler has one [catch] and it does not look at the cause. *)
Lemma provider_failure_answers_500 (w : World E) (req : Request) (q key : string)
    (answer : Result HttpResponse) (e' : E) :
  get (query req) "q" = JStr q ->
  (String.length (trim q) =? 0)%nat = false ->
  VOYAGE_API_KEY (env w) = Some key ->
  api_key_missing (Some key) = false ->
  fetch (voyage_request (trim q) key) (env w) = (answer, e') ->
  match answer with
  | Ok response => http_ok response = false
  | Thrown _ => True
  end ->
  exists resp w',
    vectorSearchMovies req w = (Ok resp, w') /\ fails_with 500 "VECTOR_SEARCH_ERROR" resp.
Proof.
  intros Hq Hlen Hkey Hpresent Hfetch Hbad.
  destruct (generateVoyageEmbedding_failure w _ _ _ _ Hfetch Hbad) as [message Hgen].
  assert (Htruthy : truthy (JStr q) = true).
  { destruct q; [discriminate Hlen | reflexivity]. }
  unfold vectorSearchMovies. rewrite Hq, Htruthy. cbn [is_string negb orb ToString].
  rewrite Hlen. unfold bind at 1. unfold getenv_VOYAGE_API_KEY. rewrite Hkey, Hpresent.
  unfold try_catch, bind. cbn [from_option id]. rewrite Hgen.
  do 2 eexists. split; [reflexivity|]. repeat split.
Qed.

End Provider.

(** C3 at its failing input.  The provider answers 401 Unauthorized to a
    well-formed request; the handler answers 500 [VECTOR_SEARCH_ERROR] with
    the provider's status only inside [details], and a 500 from the provider
    gets the same 500, not 503. *)
Theorem provider_401_answered_500 :
  fst (vectorSearchMovies
         (Scenario.request (JObj []) (JObj [("q", JStr "test")]) JUndefined)
         (Scenario.start (Scenario.with_provider (Ok Scenario.unauthorized) Scenario.quiet)))
  = Ok {| status := 500;
          body :=
            JObj [("success", JBool false);
                  ("message", JStr "Error performing vector search");
                  ("error",
                   JObj [("message", JStr "Error performing vector search");
                         ("code", JStr "VECTOR_SEARCH_ERROR");
                         ("details",
                          JStr "Failed to generate embedding: Voyage AI API returned status 401: Unauthorized")]);
                  ("timestamp", JStr "2025-11-03T00:00:00.124Z")] |}
  /\ fst (vectorSearchMovies
            (Scenario.request (JObj []) (JObj [("q", JStr "test")]) JUndefined)
            (Scenario.start (Scenario.with_provider (Ok Scenario.server_error)
                                                    Scenario.quiet)))
     = Ok {| status := 500;
             body :=
               JObj [("success", JBool false);
                     ("message", JStr "Error performing vector search");
                     ("error",
                      JObj [("message", JStr "Error performing vector search");
                            ("code", JStr "VECTOR_SEARCH_ERROR");
                            ("details",
                             JStr "Failed to generate embedding: Voyage AI API returned status 500: Internal Server Error")]);
                     ("timestamp", JStr "2025-11-03T00:00:00.124Z")] |}.
Proof.
  split; vm_compute; reflexivity.
Qed.

(* ===================================================================== *)
(** ** Vector search: merging and ranking *)
(* ===================================================================== *)

Section Sorting.
Context {A : Type} (cmp : A -> A -> Q).

Lemma insert_sorted_permutation (x : A) (l : list A) :
  Permutation (insert_sorted cmp x l) (x :: l).
Proof.
  induction l as [|y rest IH]; cbn [insert_sorted].
  - apply Permutation_refl.
  - destruct (Qle_bool (cmp x y) 0).
    + apply Permutation_refl.
    + eapply perm_trans; [apply perm_skip, IH | apply perm_swap].
Qed.

(** Sorting rearranges; it neither drops nor invents elements. *)
Lemma Array_sort_permutation (l : list A) : Permutation (Array_sort cmp l) l.
Proof.
  induction l as [|x rest IH]; cbn [Array_sort fold_right].
  - apply perm_nil.
  - eapply perm_trans; [apply insert_sorted_permutation | apply perm_skip, IH].
Qed.

Lemma insert_sorted_Forall (Q : A -> Prop) (x : A) (l : list A) :
  Q x -> Forall Q l -> Forall Q (insert_sorted cmp x l).
Proof.
  intros Hx Hl.
  eapply Permutation_Forall; [apply Permutation_sym, insert_sorted_permutation|].
  constructor; assumption.
Qed.

End Sorting.

Lemma StronglySorted_after {A : Type} (R : A -> A -> Prop) (before after : list A) (x : A) :
  StronglySorted R (before ++ x :: after)%list -> Forall (R x) after.
Proof.
  induction before as [|y before IH]; cbn [app]; intros Hsorted.
  - apply StronglySorted_inv in Hsorted. tauto.
  - apply StronglySorted_inv in Hsorted. tauto.
Qed.

Lemma by_score_desc_spec (a b : VectorSearchResult) :
  Qle_bool (by_score_desc a b) 0 = true <-> score_desc a b.
Proof.
  unfold by_score_desc, score_desc. rewrite Qle_bool_iff. split; intros H; lra.
Qed.

Lemma insert_sorted_by_score (x : VectorSearchResult) (l : list VectorSearchResult) :
  StronglySorted score_desc l ->
  StronglySorted score_desc (insert_sorted by_score_desc x l).
Proof.
  induction 1 as [|y rest Hrest IH Hy]; cbn [insert_sorted].
  - repeat constructor.
  - destruct (Qle_bool (by_score_desc x y) 0) eqn:Hcmp.
    + apply by_score_desc_spec in Hcmp.
      constructor; [constructor; assumption|].
      constructor; [assumption|].
      eapply List.Forall_impl; [|exact Hy].
      unfold score_desc in *. intros z Hz. lra.
    + assert (Hyx : score_desc y x).
      { destruct (Qlt_le_dec (vs_score x) (vs_score y)) as [Hlt|Hle].
        - unfold score_desc. lra.
        - apply by_score_desc_spec in Hle. congruence. }
      constructor; [exact IH|].
      apply insert_sorted_Forall; assumption.
Qed.

Lemma Array_sort_by_score (l : list VectorSearchResult) :
  StronglySorted score_desc (Array_sort by_score_desc l).
Proof.
  induction l as [|x rest IH]; cbn [Array_sort fold_right].
  - constructor.
  - apply insert_sorted_by_score, IH.
Qed.

Section Merging.
Context {E : Type} {P : Platform E}.

(** What the handler answers when both aggregations have answered: the
    merged list of the re-fetched movies, sorted. *)
Lemma vectorSearchMovies_merges (req : Request) (w final : World E)
    (vectorResults : list ScoredId) (movieResults : list ProjectedMovie) :
  searches req w vectorResults movieResults final ->
  exists resp,
    vectorSearchMovies req w = (Ok resp, final)
    /\ status resp = 200
    /\ get (body resp) "data"
       = JArr (map VectorSearchResult_json (finalResults vectorResults movieResults)).
Proof.
  intros (q & key & queryVector & w1 & e2 & Hq & Hlen & Hkey & Hpresent & Hgen & Hdb1
          & Hstore1 & Hsome & Hdb2 & Hstore2 & Hlog).
  assert (Htruthy : truthy (JStr q) = true).
  { destruct q; [discriminate Hlen | reflexivity]. }
  destruct final as [final_env final_log]. cbn [env log] in Hstore2, Hlog. subst final_log.
  unfold vectorSearchMovies. rewrite Hq, Htruthy. cbn [is_string negb orb ToString].
  rewrite Hlen. unfold bind at 1. unfold getenv_VOYAGE_API_KEY. rewrite Hkey, Hpresent.
  unfold try_catch, bind. cbn [from_option id]. rewrite Hgen.
  unfold getCollection at 1. rewrite Hdb1. unfold call at 1. rewrite Hstore1.
  destruct vectorResults as [|hit hits]; [contradiction|].
  cbn [List.length Nat.eqb]. unfold getCollection. cbn [env]. rewrite Hdb2.
  unfold call. cbn [env log]. rewrite Hstore2.
  rewrite <- app_assoc. eexists. split; [reflexivity|]. split; reflexivity.
Qed.

End Merging.


(** C10. In a vector search that reaches the re-fetch, a re-fetched movie
    whose identifier is not in the score map is in the answer, with score 0:
    the answer is 200, its [data] has as many entries as movies were
    re-fetched, and nothing that follows that movie in it has a positive
    score. *)
Theorem unscored_movie_ranks_last {E : Type} {P : Platform E} (req : Request)
    (w final : World E) (vectorResults : list ScoredId)
    (movieResults : list ProjectedMovie) (movie : ProjectedMovie) :
  searches req w vectorResults movieResults final ->
  In movie movieResults ->
  build_scoreMap vectorResults !! pm_id movie = None ->
  exists resp before r after,
    vectorSearchMovies req w = (Ok resp, final)
    /\ status resp = 200
    /\ get (body resp) "data" = JArr (map VectorSearchResult_json (before ++ r :: after))
    /\ List.length (before ++ r :: after) = List.length movieResults
    /\ vs_id r = pm_id movie
    /\ vs_score r = 0%Q
    /\ Forall (fun x => ~ (0 < vs_score x)%Q) after.
Proof.
  intros Hrun Hin Hmissing.
  destruct (vectorSearchMovies_merges _ _ _ _ _ Hrun) as (resp & Hresp & Hstatus & Hdata).
  pose proof (Array_sort_permutation by_score_desc
                (combine_scores (build_scoreMap vectorResults) movieResults)) as Hperm.
  fold (finalResults vectorResults movieResults) in Hperm.
  set (r := {| vs_id := pm_id movie;
               vs_title := or_else (pm_title movie) (JStr "");
               vs_plot := pm_plot movie;
               vs_poster := pm_poster movie;
               vs_year := pm_year movie;
               vs_genres := or_else (pm_genres movie) (JArr []);
               vs_directors := or_else (pm_directors movie) (JArr []);
               vs_cast := or_else (pm_cast movie) (JArr []);
               vs_score := 0%Q |}).
  assert (Hr : In r (finalResults vectorResults movieResults)).
  { eapply Permutation_in; [apply Permutation_sym, Hperm|].
    unfold combine_scores. apply in_map_iff. exists movie. split; [|exact Hin].
    rewrite Hmissing. reflexivity. }
  destruct (in_split _ _ Hr) as (before & after & Hsplit).
  exists resp, before, r, after.
  split; [exact Hresp|]. split; [exact Hstatus|].
  split; [rewrite <- Hsplit; exact Hdata|].
  split.
  { rewrite <- Hsplit, (Permutation_length Hperm). unfold combine_scores. apply length_map. }
  split; [reflexivity|]. split; [reflexivity|].
  pose proof (Array_sort_by_score
                (combine_scores (build_scoreMap vectorResults) movieResults)) as Hsorted.
  fold (finalResults vectorResults movieResults) in Hsorted.
  rewrite Hsplit in Hsorted. apply StronglySorted_after in Hsorted.
  eapply List.Forall_impl; [|exact Hsorted]. unfold score_desc. cbn [vs_score r].
  intros x Hx Hpos. lra.
Qed.

Lemma searches_on_script (movies : list ProjectedMovie) :
  let e := Scenario.refetching movies in
  searches (Cases.with_query [("q", JStr " heist "); ("limit", JStr "3")])
           (Scenario.start e) Scenario.scored movies
           {| env := Scenario.tick (Scenario.tick (Scenario.tick e));
              log := [HttpCall (voyage_request "heist" "pa-test-key");
                      StoreCall (AggregateScores "embedded_movies"
                                   (vectorSearchPipeline Scenario.embedding 3));
                      StoreCall (AggregateMovies "movies"
                                   (moviesPipeline [JObjectId Scenario.id_alien;
                                                    JObjectId Scenario.id_brazil]))] |}.
Proof.
  intros e. unfold searches.
  exists " heist ", "pa-test-key", Scenario.embedding,
    {| env := Scenario.tick e; log := [HttpCall (voyage_request "heist" "pa-test-key")] |},
    (Scenario.tick (Scenario.tick e)).
  repeat split; discriminate.
Defined.


Lemma unscored_movie_ranks_last_witness :
  build_scoreMap Scenario.scored !! Scenario.id_cube = None
  /\ exists resp,
       fst (vectorSearchMovies
              (Cases.with_query [("q", JStr " heist "); ("limit", JStr "3")])
              (Scenario.start (Scenario.refetching Scenario.refetched)))
       = Ok resp
       /\ map (fun m => (get m "title", get m "score"))
              (match get (body resp) "data" with JArr l => l | _ => [] end)
          = [(JStr "Brazil", JNum (9 # 10)); (JStr "Alien", JNum (3 # 4));
             (JStr "Cube", JNum 0)].
Proof.
  assert (Hmissing : build_scoreMap Scenario.scored !! Scenario.id_cube = None)
    by (vm_compute; reflexivity).
  split; [exact Hmissing|].
  destruct (unscored_movie_ranks_last (P := Scenario.sim_platform) _ _ _ _ _ _
              (searches_on_script Scenario.refetched)
              (or_introl eq_refl : In (Scenario.projected Scenario.id_cube "Cube")
                                      Scenario.refetched)
              Hmissing)
    as (resp & before & r & after & Hrun & _).
  exists resp. rewrite Hrun. split; [reflexivity|].
  vm_compute in Hrun. injection Hrun as <-. vm_compute. reflexivity.
Defined.

(** A whole vector search: one call to the provider, the nearest-neighbour
    aggregation with 3 * 20 candidates, the re-fetch, and the answer ranked
    Brazil, Alien, Cube. *)
Example vector_search_run :
  let req := Scenario.request (JObj []) (JObj [("q", JStr " heist "); ("limit", JStr "3")])
                              JUndefined in
  let '(r, w') := vectorSearchMovies req (Scenario.start Scenario.searching) in
  log w' = [HttpCall (voyage_request "heist" "pa-test-key");
            StoreCall (AggregateScores "embedded_movies"
                         (vectorSearchPipeline Scenario.embedding 3));
            StoreCall (AggregateMovies "movies"
                         (moviesPipeline [JObjectId Scenario.id_alien;
                                          JObjectId Scenario.id_brazil]))]
  /\ match r with
     | Ok resp =>
         status resp = 200
         /\ map (fun m => (get m "title", get m "score"))
                (match get (body resp) "data" with JArr l => l | _ => [] end)
            = [(JStr "Brazil", JNum (9 # 10)); (JStr "Alien", JNum (3 # 4));
               (JStr "Cube", JNum 0)]
     | Thrown _ => False
     end.
Proof.
  vm_compute. repeat split.
Qed.

(* ===================================================================== *)
(** ** The year report *)
(* ===================================================================== *)

Module YearReport.
Import Mongo.


Section Report.
Context {arithmetic : Arithmetic}.




(** *** Comparing numbers *)







(** *** Stage 1: the quality filter *)



(** *** Stage 2: the accumulators *)







Lemma numbers_of_numeric (vs : list (option Value)) :
  omap number (omap (fun v : option Value => v ≫= (fun x => number x ≫= (fun _ => Some x))) vs)
  = omap (fun v => v ≫= number) vs.
Proof.
  induction vs as [|v rest IH]; [reflexivity|].
  destruct v as [x|]; [|exact IH].
  cbn. destruct (number x) as [q|] eqn:Hq; cbn.
  - rewrite Hq, IH. reflexivity.
  - exact IH.
Qed.










(** *** Stage 2: grouping *)




(** *** Stage 3: the projection *)


(** *** Stage 4: the sort *)







(** *** One group per year *)




(** *** The report *)
















Context {E : Type} {P : Platform E}.


End Report.


End YearReport.


(* ===================================================================== *)
(** ** The error middleware *)
(* ===================================================================== *)

Section Middleware.
Context {E : Type} {P : Platform E}.

(** X1. A route always answers.  When the handler returns, its response is
    the route's; when it throws, the route answers the failure envelope that
    [parseErrorDetails] prescribes, with status 400, 409 or 500.  The world
    is left as the handler left it. *)
Theorem asyncHandler_always_answers (fn : Request -> M E Response) (req : Request)
    (w : World E) :
  exists resp,
    asyncHandler fn req w = (Ok resp, snd (fn req w))
    /\ match fst (fn req w) with
       | Ok returned => resp = returned
       | Thrown e =>
           status resp = ed_statusCode (parseErrorDetails e)
           /\ (status resp = 400 \/ status resp = 409 \/ status resp = 500)
           /\ get (body resp) "success" = JBool false
           /\ error_code (body resp) = ed_code (parseErrorDetails e)
           /\ get (body resp) "message" = ed_message (parseErrorDetails e)
       end.
Proof.
  unfold asyncHandler, try_catch. destruct (fn req w) as [[returned|e] w'] eqn:Hrun.
  - exists returned. split; reflexivity.
  - destruct (errorHandler_fails w' e) as (resp & Hresp & Hstatus & Hsuccess).
    exists resp. cbn [fst snd]. split; [exact Hresp|].
    unfold errorHandler, bind, createErrorResponse, Date_now, ret in Hresp.
    injection Hresp as <-. cbn [status body]. repeat split; try reflexivity.
    exact Hstatus.
Qed.

(** X2. When the store refuses the aggregation of the year report with a
    driver error, the route makes exactly that one call and answers by the
    error's code: 409 [DUPLICATE_KEY] for 11000, 400
    [DOCUMENT_VALIDATION_ERROR] for 121, 500 [DATABASE_ERROR] otherwise. *)
Theorem store_failure_is_classified (w : World E) (req : Request) (code : Z)
    (message : string) (after : E) :
  database (env w) = true ->
  store _ (Aggregate "movies" yearStats_pipeline) (env w)
    = (Thrown (MongoError code message), after) ->
  exists resp,
    asyncHandler getMoviesByYearWithStats req w
      = (Ok resp,
         {| env := after;
            log := (log w ++ [StoreCall (Aggregate "movies" yearStats_pipeline)])%list |})
    /\ fails_with (if code =? 11000 then 409 else if code =? 121 then 400 else 500)
                  (if code =? 11000 then "DUPLICATE_KEY"
                   else if code =? 121 then "DOCUMENT_VALIDATION_ERROR"
                   else "DATABASE_ERROR")
                  resp.
Proof.
  intros Hdb Hstore.
  unfold asyncHandler, try_catch, getMoviesByYearWithStats, bind, getCollection, call.
  rewrite Hdb, Hstore.
  eexists. split; [reflexivity|].
  unfold fails_with, error_code. cbn [status body errorHandler parseErrorDetails].
  destruct (code =? 11000); [repeat split|].
  destruct (code =? 121); repeat split.
Qed.

End Middleware.

Lemma store_failure_is_classified_witness :
  exists resp,
    fst (asyncHandler getMoviesByYearWithStats (Cases.with_query [])
           {| env := Cases.duplicate_key; log := [] |}) = Ok resp
    /\ fails_with 409 "DUPLICATE_KEY" resp.
Proof.
  destruct (store_failure_is_classified (P := Cases.broken_platform)
              {| env := Cases.duplicate_key; log := [] |} (Cases.with_query [])
              11000 "E11000 duplicate key error" Cases.duplicate_key eq_refl eq_refl)
    as (resp & Hrun & Hfails).
  exists resp. rewrite Hrun. split; [reflexivity | exact Hfails].
Defined.

(* ===================================================================== *)
(** ** Creating movies: validation and outcome *)
(* ===================================================================== *)

Lemma get_of_object (props : list (string * JsVal)) (k : string) :
  get (JObj props) k
  = if has_own k props then lookup_prop k props
    else if existsb (String.eqb k) Object_prototype
         then inherited (JObj props) k else JUndefined.
Proof.
  cbn [get]. destruct (has_own k props); [reflexivity|].
  unfold inherited. destruct (existsb (String.eqb k) Object_prototype); reflexivity.
Qed.

(** A property from [Object.prototype] is neither [undefined], [null] nor
    the empty string. *)
Lemma inherited_is_not_blank (o : JsVal) (k : string) :
  existsb (String.eqb k) Object_prototype = true -> is_blank (inherited o k) = false.
Proof.
  intros Hk. unfold inherited. rewrite Hk.
  destruct (String.eqb k "constructor"); [reflexivity|].
  destruct (String.eqb k "__proto__"); [destruct o|]; reflexivity.
Qed.

Lemma blank_in_object (props : list (string * JsVal)) (k : string) :
  is_blank (get (JObj props) k)
  = if has_own k props then is_blank (lookup_prop k props)
    else negb (existsb (String.eqb k) Object_prototype).
Proof.
  rewrite get_of_object. destruct (has_own k props); [reflexivity|].
  destruct (existsb (String.eqb k) Object_prototype) eqn:Hk; [|reflexivity].
  apply inherited_is_not_blank, Hk.
Qed.

Lemma missingFields_of_object (props : list (string * JsVal)) (fields : list string) :
  missingFields (JObj props) fields
  = Ok (List.filter (fun field => is_blank (get (JObj props) field)) fields).
Proof.
  induction fields as [|field rest IH]; cbn [missingFields List.filter get_prop].
  - reflexivity.
  - rewrite IH. destruct (is_blank (get (JObj props) field)); reflexivity.
Qed.

(** X3. On an object, [validateRequiredFields] passes exactly when no
    required field is missing, and otherwise throws a [ValidationError] that
    lists the missing fields in the order they were required.  A field is
    missing when the object's own property is [undefined], [null] or the
    empty string, or when the object has no such property and
    [Object.prototype] has none either: a name like [constructor] is never
    missing unless the object itself sets it blank.  On a body that is
    [undefined] or [null] it throws a [TypeError] instead, at the first
    field. *)
Theorem validateRequiredFields_lists_blank_fields (props : list (string * JsVal))
    (fields : list string) (field : string) :
  validateRequiredFields (JObj props) fields
  = match List.filter
            (fun f => if has_own f props then is_blank (lookup_prop f props)
                      else negb (existsb (String.eqb f) Object_prototype))
            fields with
    | [] => Ok tt
    | missing =>
        Thrown (ValidationError ("Missing required fields: " ++ join ", " missing))
    end
  /\ validateRequiredFields JUndefined (field :: fields)
     = Thrown (TypeError ("Cannot read properties of undefined (reading '" ++ field ++ "')"))
  /\ validateRequiredFields JNull (field :: fields)
     = Thrown (TypeError ("Cannot read properties of null (reading '" ++ field ++ "')")).
Proof.
  split; [|split; reflexivity].
  unfold validateRequiredFields. rewrite missingFields_of_object.
  rewrite (filter_ext _ _ (blank_in_object props)).
  destruct (List.filter _ fields); reflexivity.
Qed.

Lemma validate_each_first_failure (good rest : list JsVal) (bad : JsVal) (e : JsError)
    (index : Z) :
  Forall (fun movie => validateRequiredFields movie ["title"] = Ok tt) good ->
  validateRequiredFields bad ["title"] = Thrown e ->
  validate_each (good ++ bad :: rest)%list index
  = Thrown (Error ("Movie at index " ++ string_of_Z (index + Z.of_nat (List.length good))
                     ++ ": " ++ error_message e)).
Proof.
  intros Hgood Hbad. revert index.
  induction Hgood as [|movie good Hmovie Hgood IH]; intros index;
    cbn [app validate_each List.length].
  - rewrite Hbad. rewrite Z.add_0_r. reflexivity.
  - rewrite Hmovie, IH.
    replace (index + 1 + Z.of_nat (List.length good))
      with (index + Z.of_nat (S (List.length good))) by lia.
    reflexivity.
Qed.

Section Creating.
Context {E : Type} {P : Platform E}.
Variable insertOne : string -> JsVal -> M E InsertOneResult.
Variable insertMany : string -> JsVal -> M E InsertManyResult.

(** X4. A create request whose body is an object with a blank [title] is
    answered 400 [VALIDATION_ERROR] naming the field; nothing is inserted,
    whatever [insertOne] would do. *)
Theorem createMovie_requires_title (w : World E) (req : Request)
    (props : list (string * JsVal)) :
  req_body req = JObj props ->
  is_blank (lookup_prop "title" props) = true ->
  exists resp,
    asyncHandler (createMovie insertOne) req w = (Ok resp, w)
    /\ fails_with 400 "VALIDATION_ERROR" resp
    /\ get (get (body resp) "error") "details" = JStr "Missing required fields: title".
Proof.
  intros Hbody Hblank.
  unfold asyncHandler, try_catch, createMovie, bind, lift, validateRequiredFields.
  rewrite Hbody, missingFields_of_object. cbn [List.filter]. js_get. rewrite Hblank.
  eexists. split; [reflexivity|]. repeat split.
Qed.


(** X6. A batch-create body that is not an array, or is the empty array, is
    answered 400 [INVALID_INPUT] and nothing is inserted. *)
Theorem createMoviesBatch_needs_movies (w : World E) (req : Request) :
  match req_body req with
  | JArr (_ :: _) => False
  | _ => True
  end ->
  refuses (createMoviesBatch insertMany req) w 400 "INVALID_INPUT".
Proof.
  intros Hbody. unfold refuses, createMoviesBatch.
  destruct (req_body req) as [| | | | | |items| | | | | | |]; try contradiction;
    try exact (respond_error w 400 _ _ _).
  destruct items; [exact (respond_error w 400 _ _ _) | contradiction].
Qed.

(** X7. When a movie of the batch fails validation, the whole batch is
    refused before anything is inserted, and the answer is a 500
    [INTERNAL_ERROR], not a 400: the failure is thrown again as a plain
    [Error] whose message names the index of the first failing movie. *)
Theorem createMoviesBatch_stops_at_first_invalid (w : World E) (req : Request)
    (good rest : list JsVal) (bad : JsVal) (e : JsError) :
  req_body req = JArr (good ++ bad :: rest)%list ->
  Forall (fun movie => validateRequiredFields movie ["title"] = Ok tt) good ->
  validateRequiredFields bad ["title"] = Thrown e ->
  exists resp,
    asyncHandler (createMoviesBatch insertMany) req w = (Ok resp, w)
    /\ fails_with 500 "INTERNAL_ERROR" resp
    /\ get (body resp) "message"
       = JStr ("Movie at index " ++ string_of_Z (Z.of_nat (List.length good)) ++ ": "
                 ++ error_message e).
Proof.
  intros Hbody Hgood Hbad.
  unfold asyncHandler, try_catch, createMoviesBatch, bind, lift.
  rewrite Hbody. cbn [Array_isArray negb orb].
  replace (List.length (good ++ bad :: rest)%list =? 0)%nat with false
    by (symmetry; apply Nat.eqb_neq; rewrite length_app; cbn; lia).
  rewrite (validate_each_first_failure good rest bad e 0 Hgood Hbad). cbn [Z.add].
  eexists. split; [reflexivity|]. repeat split.
Qed.

End Creating.

Lemma createMovie_requires_title_witness :
  exists resp,
    asyncHandler (createMovie Cases.sim_insertOne) (Cases.with_body (JObj [("year", JInt 1979)]))
      (Scenario.start Scenario.quiet)
    = (Ok resp, Scenario.start Scenario.quiet)
    /\ fails_with 400 "VALIDATION_ERROR" resp
    /\ get (get (body resp) "error") "details" = JStr "Missing required fields: title".
Proof.
  exact (createMovie_requires_title Cases.sim_insertOne (Scenario.start Scenario.quiet)
           (Cases.with_body (JObj [("year", JInt 1979)])) [("year", JInt 1979)]
           eq_refl eq_refl).
Defined.


Lemma createMoviesBatch_needs_movies_witness :
  refuses (createMoviesBatch Cases.sim_insertMany (Cases.with_body (JArr [])))
          (Scenario.start Scenario.quiet) 400 "INVALID_INPUT".
Proof.
  apply (createMoviesBatch_needs_movies Cases.sim_insertMany (Scenario.start Scenario.quiet)
           (Cases.with_body (JArr []))).
  exact I.
Defined.

Lemma createMoviesBatch_stops_at_first_invalid_witness :
  exists resp,
    asyncHandler (createMoviesBatch Cases.sim_insertMany)
      (Cases.with_body (JArr [JObj [("title", JStr "Alien")]; JNull;
                              JObj [("title", JStr "")]]))
      (Scenario.start Scenario.quiet)
    = (Ok resp, Scenario.start Scenario.quiet)
    /\ fails_with 500 "INTERNAL_ERROR" resp
    /\ get (body resp) "message"
       = JStr "Movie at index 1: Cannot read properties of null (reading 'title')".
Proof.
  refine (createMoviesBatch_stops_at_first_invalid Cases.sim_insertMany
            (Scenario.start Scenario.quiet)
            (Cases.with_body (JArr [JObj [("title", JStr "Alien")]; JNull;
                                    JObj [("title", JStr "")]]))
            [JObj [("title", JStr "Alien")]] [JObj [("title", JStr "")]] JNull
            (TypeError "Cannot read properties of null (reading 'title')")
            eq_refl _ eq_refl).
  repeat constructor.
Defined.

(* ===================================================================== *)
(** ** The shared connection *)
(* ===================================================================== *)

Module ConnectionFacts.
Import Connection.




(** X9. Once the shared promise is settled nothing changes any more: after
    a rejection, a missing connection string among them, later callers get
    the same rejection and no new connect is attempted, even if the
    connection string is there by then. *)
Theorem settled_connection_is_final (s : State) (later : list Step) :
  (connect_promise s = Some Fulfilled \/ exists e, connect_promise s = Some (Rejected e)) ->
  fold_left step later s = s.
Proof.
  intros Hsettled. induction later as [|x later IH]; cbn [fold_left]; [reflexivity|].
  replace (step s x) with s; [exact IH|].
  destruct x as [uri refused|failure]; cbn [step]; unfold connectToDatabase, settle;
    destruct Hsettled as [-> | [e ->]]; reflexivity.
Qed.

End ConnectionFacts.

Lemma settled_connection_is_final_witness :
  Connection.run [Connection.Ask None None;
                  Connection.Ask (Some "mongodb://localhost") None;
                  Connection.Settle None]
  = {| Connection.connect_promise := Some (Connection.Rejected Connection.uri_missing);
       Connection.database_set := false;
       Connection.connect_calls := 0 |}.
Proof.
  exact (ConnectionFacts.settled_connection_is_final
           (Connection.run [Connection.Ask None None])
           [Connection.Ask (Some "mongodb://localhost") None; Connection.Settle None]
           (or_intror (ex_intro _ Connection.uri_missing eq_refl))).
Defined.

(* ===================================================================== *)
(** ** What gets logged *)
(* ===================================================================== *)

(** X10. Without a [LOG_LEVEL] override, a finished request is logged as
    follows.  In production one answered below 400 is written nowhere, one
    answered 4xx goes to the console and combined.log, one answered 5xx also
    to error.log.  In development every request goes to the console and
    combined.log, 5xx also to error.log.  Under test nothing is written,
    whatever [LOG_LEVEL] says. *)
Theorem request_logging_by_environment (statusCode : Z) (LOG_LEVEL : option string) :
  Logger.written_to (Some "production") None (Logger.logHttpRequest_level statusCode)
  = (if 500 <=? statusCode then ["console"; "error.log"; "combined.log"]
     else if 400 <=? statusCode then ["console"; "combined.log"]
     else [])
  /\ Logger.written_to None None (Logger.logHttpRequest_level statusCode)
     = (if 500 <=? statusCode then ["console"; "error.log"; "combined.log"]
        else ["console"; "combined.log"])
  /\ Logger.written_to (Some "test") LOG_LEVEL (Logger.logHttpRequest_level statusCode) = [].
Proof.
  unfold Logger.logHttpRequest_level.
  split; [|split].
  - destruct (500 <=? statusCode); [reflexivity|].
    destruct (400 <=? statusCode); reflexivity.
  - destruct (500 <=? statusCode); [reflexivity|].
    destruct (400 <=? statusCode); reflexivity.
  - reflexivity.
Qed.

(* ===================================================================== *)
(** ** More on pagination *)
(* ===================================================================== *)

Lemma Number_of_integer_small (z : Z) :
  Z.abs z < 2 ^ 53 -> Number_of_integer z = Finite z.
Proof.
  intros Hsmall. unfold Number_of_integer.
  destruct (Z.ltb_spec (Z.abs z) (2 ^ 53)); [reflexivity | lia].
Qed.

(** X11. The [skip] of the list and of the compound search is never
    negative and never [NaN].  It is the Number that [parseInt] returns, that
    is the integer read from the text rounded to the nearest double
    ([Infinity] beyond the largest), when that integer is positive, and 0
    otherwise, unparsable text and negative numbers included. *)
Theorem skip_is_never_negative (s : string) :
  getAllMovies_skipNum (JStr s)
  = match parseInt_string s with
    | Some n => if 0 <? n then Number_of_integer n else Finite 0
    | None => Finite 0
    end
  /\ searchMovies_skipNum (JStr s) = getAllMovies_skipNum (JStr s)
  /\ match getAllMovies_skipNum (JStr s) with
     | Finite z => 0 <= z
     | Infinite negative => negative = false
     end.
Proof.
  assert (Hskip : getAllMovies_skipNum (JStr s)
                  = match parseInt_string s with
                    | Some n => if 0 <? n then Number_of_integer n else Finite 0
                    | None => Finite 0
                    end).
  { unfold getAllMovies_skipNum, parseInt. cbn [ToString].
    destruct (parseInt_string s) as [n|]; cbn [fmap option_fmap option_map or_number Math_max];
      [|reflexivity].
    destruct (Z.ltb_spec (Z.abs n) (2 ^ 53)) as [Hsmall|Hbig].
    - rewrite (Number_of_integer_small n Hsmall). cbn [or_number].
      destruct (Z.eqb_spec n 0) as [->|Hn]; [reflexivity|]. cbn [Math_max].
      destruct (Z.ltb_spec 0 n); f_equal; lia.
    - pose proof (Number_of_integer_large n Hbig) as Hn.
      destruct (Number_of_integer n) as [v|negative]; cbn [or_number].
      + destruct (Z.ltb_spec n 0); (destruct (Z.eqb_spec v 0); [lia|]); cbn [Math_max];
          destruct (Z.ltb_spec 0 n); try lia; f_equal; lia.
      + subst negative. destruct (Z.ltb_spec n 0); cbn [Math_max];
          destruct (Z.ltb_spec 0 n); try lia; reflexivity. }
  split; [exact Hskip|]. split; [reflexivity|].
  rewrite Hskip. destruct (parseInt_string s) as [n|]; [|lia].
  destruct (Z.ltb_spec 0 n); [|lia].
  destruct (Z.ltb_spec (Z.abs n) (2 ^ 53)) as [Hsmall|Hbig].
  - rewrite (Number_of_integer_small n Hsmall). lia.
  - pose proof (Number_of_integer_large n Hbig) as Hn.
    destruct (Number_of_integer n) as [v|negative].
    + destruct (Z.ltb_spec n 0); lia.
    + subst negative. destruct (Z.ltb_spec n 0); [lia | reflexivity].
Qed.

(** X12. The vector search keeps its limit within 1 and 50.  When [limit]
    is absent the limit is 10, the default of the destructuring; when it is
    present the limit is the effective limit for default 20 and ceiling 50,
    so unparsable text and zero give 20, not 10. *)
Theorem vector_limit_default_and_fallback (s : string) :
  vectorSearch_limitNum (JStr s) = effective_limit 20 50 (parseInt_string s)
  /\ 1 <= vectorSearch_limitNum (JStr s) <= 50
  /\ vectorSearch_limitNum (with_default JUndefined (JStr "10")) = 10.
Proof.
  split; [|split; [apply clamp_bounds; lia | reflexivity]].
  unfold vectorSearch_limitNum, parseInt. cbn [ToString]. apply clamp_effective; lia.
Qed.

(* ===================================================================== *)
(** ** Single documents *)
(* ===================================================================== *)

Section SingleDocument.
Context {E : Type} {P : Platform E}.

(** X13. With a well-formed identifier and the database connected,
    get-by-id makes exactly one [findOne] for that identifier; it answers 404
    [MOVIE_NOT_FOUND] when the store returns no document and 200 with the
    document as [data] otherwise. *)
Theorem getMovieById_finds_or_404 (w : World E) (req : Request) (id : string)
    (found : JsVal) (after : E) :
  get (params req) "id" = JStr id ->
  ObjectId.isValid (JStr id) = true ->
  database (env w) = true ->
  store _ (FindOne "movies" (JObj [("_id", ObjectId.new (JStr id))])) (env w)
    = (Ok found, after) ->
  exists resp,
    getMovieById req w
      = (Ok resp,
         {| env := after;
            log := (log w ++ [StoreCall
                                (FindOne "movies"
                                   (JObj [("_id", ObjectId.new (JStr id))]))])%list |})
    /\ if truthy found
       then status resp = 200 /\ get (body resp) "success" = JBool true
            /\ get (body resp) "data" = found
       else fails_with 404 "MOVIE_NOT_FOUND" resp.
Proof.
  intros Hid Hvalid Hdb Hstore.
  unfold getMovieById. rewrite Hid, Hvalid. cbn [negb].
  unfold bind, getCollection, call. rewrite Hdb, Hstore. destruct (truthy found); cbn [negb];
    (eexists; split; [reflexivity|]); repeat split.
Qed.

(** X14. Delete-by-id makes exactly one [deleteOne]; it answers 404
    [MOVIE_NOT_FOUND] when nothing was deleted and 200 with the count
    otherwise. *)
Theorem deleteMovie_deletes_or_404 (w : World E) (req : Request) (id : string)
    (result : DeleteResult) (after : E) :
  get (params req) "id" = JStr id ->
  ObjectId.isValid (JStr id) = true ->
  database (env w) = true ->
  store _ (DeleteOne "movies" (JObj [("_id", ObjectId.new (JStr id))])) (env w)
    = (Ok result, after) ->
  exists resp,
    deleteMovie req w
      = (Ok resp,
         {| env := after;
            log := (log w ++ [StoreCall
                                (DeleteOne "movies"
                                   (JObj [("_id", ObjectId.new (JStr id))]))])%list |})
    /\ if deletedCount result =? 0
       then fails_with 404 "MOVIE_NOT_FOUND" resp
       else status resp = 200
            /\ get (body resp) "data" = JObj [("deletedCount", JInt (deletedCount result))].
Proof.
  intros Hid Hvalid Hdb Hstore.
  unfold deleteMovie. rewrite Hid, Hvalid. cbn [negb].
  unfold bind, getCollection, call. rewrite Hdb, Hstore. destruct (deletedCount result =? 0);
    (eexists; split; [reflexivity|]); repeat split.
Qed.

(** X15. Find-and-delete makes exactly one [findOneAndDelete]; it answers
    404 [MOVIE_NOT_FOUND] when the store returns no document and 200 with the
    deleted document otherwise. *)
Theorem findAndDeleteMovie_returns_deleted (w : World E) (req : Request) (id : string)
    (deleted : JsVal) (after : E) :
  get (params req) "id" = JStr id ->
  ObjectId.isValid (JStr id) = true ->
  database (env w) = true ->
  store _ (FindOneAndDelete "movies" (JObj [("_id", ObjectId.new (JStr id))])) (env w)
    = (Ok deleted, after) ->
  exists resp,
    findAndDeleteMovie req w
      = (Ok resp,
         {| env := after;
            log := (log w ++ [StoreCall
                                (FindOneAndDelete "movies"
                                   (JObj [("_id", ObjectId.new (JStr id))]))])%list |})
    /\ if truthy deleted
       then status resp = 200 /\ get (body resp) "data" = deleted
       else fails_with 404 "MOVIE_NOT_FOUND" resp.
Proof.
  intros Hid Hvalid Hdb Hstore.
  unfold findAndDeleteMovie. rewrite Hid, Hvalid. cbn [negb].
  unfold bind, getCollection, call. rewrite Hdb, Hstore. destruct (truthy deleted); cbn [negb];
    (eexists; split; [reflexivity|]); repeat split.
Qed.

(** X16. Update-by-id with a well-formed identifier: an empty object as body
    is answered 400 [NO_UPDATE_DATA] without touching the store.  Otherwise
    the handler calls [updateOne] with [$set] of the body; when nothing
    matched it answers 404 [MOVIE_NOT_FOUND] and reads nothing, and when
    something matched it reads the document back and answers 200 with it. *)
Theorem updateMovie_outcomes (w : World E) (req : Request) (id : string)
    (props : list (string * JsVal)) :
  get (params req) "id" = JStr id ->
  ObjectId.isValid (JStr id) = true ->
  req_body req = JObj props ->
  let target := JObj [("_id", ObjectId.new (JStr id))] in
  let update := UpdateOne "movies" target (JObj [("$set", JObj props)]) in
  (props = [] -> refuses (updateMovie req) w 400 "NO_UPDATE_DATA")
  /\ (props <> [] -> database (env w) = true ->
      forall result e1,
        store _ update (env w) = (Ok result, e1) ->
        if matchedCount result =? 0 then
          exists resp,
            updateMovie req w
              = (Ok resp, {| env := e1; log := (log w ++ [StoreCall update])%list |})
            /\ fails_with 404 "MOVIE_NOT_FOUND" resp
        else
          forall found e2,
            store _ (FindOne "movies" target) e1 = (Ok found, e2) ->
            exists resp,
              updateMovie req w
                = (Ok resp,
                   {| env := e2;
                      log := ((log w ++ [StoreCall update])
                                ++ [StoreCall (FindOne "movies" target)])%list |})
              /\ status resp = 200
              /\ get (body resp) "data" = found
              /\ get (body resp) "message"
                 = JStr ("Movie updated successfully. Modified "
                           ++ string_of_Z (modifiedCount result) ++ " field(s).")).
Proof.
  intros Hid Hvalid Hbody target update. split.
  - intros ->. unfold refuses, updateMovie.
    rewrite Hid, Hvalid, Hbody. cbn [negb]. unfold bind, lift.
    cbn [Object_keys map List.length Nat.eqb].
    exact (respond_error w 400 _ _ _).
  - intros Hprops Hdb result e1 Hupdate.
    unfold updateMovie. rewrite Hid, Hvalid, Hbody. cbn [negb].
    destruct props as [|prop props]; [contradiction|].
    unfold bind, lift, getCollection, call.
    cbn [Object_keys map List.length Nat.eqb]. rewrite Hdb.
    fold target. fold update. rewrite Hupdate.
    destruct (matchedCount result =? 0).
    + eexists. split; [reflexivity|]. repeat split.
    + intros found e2 Hfind. cbn [env log]. rewrite Hfind.
      eexists. split; [reflexivity|]. repeat split.
Qed.

End SingleDocument.

Lemma getMovieById_finds_or_404_witness :
  exists resp w',
    getMovieById (Cases.by_id Cases.valid_id) (Scenario.start Scenario.quiet) = (Ok resp, w')
    /\ status resp = 200
    /\ get (body resp) "data" = Scenario.movie "Alien".
Proof.
  destruct (getMovieById_finds_or_404 (P := Scenario.sim_platform)
              (Scenario.start Scenario.quiet) (Cases.by_id Cases.valid_id) Cases.valid_id
              _ _ eq_refl eq_refl eq_refl eq_refl) as (resp & Hrun & Hstatus & _ & Hdata).
  exists resp. eexists. split; [exact Hrun|]. split; [exact Hstatus | exact Hdata].
Defined.

Lemma deleteMovie_deletes_or_404_witness :
  exists resp w',
    deleteMovie (Cases.by_id Cases.valid_id) (Scenario.start Scenario.quiet) = (Ok resp, w')
    /\ status resp = 200
    /\ get (body resp) "data" = JObj [("deletedCount", JInt 1)].
Proof.
  destruct (deleteMovie_deletes_or_404 (P := Scenario.sim_platform)
              (Scenario.start Scenario.quiet) (Cases.by_id Cases.valid_id) Cases.valid_id
              _ _ eq_refl eq_refl eq_refl eq_refl) as (resp & Hrun & Hstatus & Hdata).
  exists resp. eexists. split; [exact Hrun|]. split; [exact Hstatus | exact Hdata].
Defined.

Lemma findAndDeleteMovie_returns_deleted_witness :
  exists resp w',
    findAndDeleteMovie (Cases.by_id Cases.valid_id) (Scenario.start Scenario.quiet)
    = (Ok resp, w')
    /\ status resp = 200
    /\ get (body resp) "data" = Scenario.movie "Alien".
Proof.
  destruct (findAndDeleteMovie_returns_deleted (P := Scenario.sim_platform)
              (Scenario.start Scenario.quiet) (Cases.by_id Cases.valid_id) Cases.valid_id
              _ _ eq_refl eq_refl eq_refl eq_refl) as (resp & Hrun & Hstatus & Hdata).
  exists resp. eexists. split; [exact Hrun|]. split; [exact Hstatus | exact Hdata].
Defined.

Lemma updateMovie_outcomes_witness :
  exists resp w',
    updateMovie (Cases.by_id Cases.valid_id) (Scenario.start Scenario.quiet) = (Ok resp, w')
    /\ status resp = 200
    /\ get (body resp) "message"
       = JStr "Movie updated successfully. Modified 1 field(s).".
Proof.
  destruct (updateMovie_outcomes (P := Scenario.sim_platform)
              (Scenario.start Scenario.quiet) (Cases.by_id Cases.valid_id) Cases.valid_id
              [("rated", JStr "PG")] eq_refl eq_refl eq_refl) as [_ Hupdate].
  specialize (Hupdate ltac:(discriminate) eq_refl _ _ eq_refl).
  cbn [matchedCount Z.eqb] in Hupdate.
  destruct (Hupdate _ _ eq_refl) as (resp & Hrun & Hstatus & _ & Hmessage).
  exists resp. eexists. split; [exact Hrun|]. split; [exact Hstatus | exact Hmessage].
Defined.

(* ===================================================================== *)
(** ** Batches *)
(* ===================================================================== *)

Lemma convert_ids_valid (ids : list JsVal) :
  Forall (fun id => ObjectId.isValid id = true) ids ->
  convert_ids ids = Ok (map ObjectId.new ids).
Proof.
  induction 1 as [|id rest Hid Hrest IH]; cbn [convert_ids map]; [reflexivity|].
  rewrite Hid, IH. reflexivity.
Qed.

Lemma lookup_set_prop_same (k : string) (v : JsVal) (props : list (string * JsVal)) :
  lookup_prop k (set_prop k v props) = v.
Proof.
  induction props as [|[k' v'] rest IH]; cbn [set_prop lookup_prop].
  - rewrite String.eqb_refl. reflexivity.
  - destruct (String.eqb k k') eqn:Hk; cbn [lookup_prop]; rewrite ?Hk, ?String.eqb_refl;
      [reflexivity | exact IH].
Qed.

Lemma lookup_set_prop_other (k k0 : string) (v : JsVal) (props : list (string * JsVal)) :
  k0 <> k -> lookup_prop k0 (set_prop k v props) = lookup_prop k0 props.
Proof.
  intros Hne. induction props as [|[k' v'] rest IH]; cbn [set_prop lookup_prop].
  - destruct (String.eqb_spec k0 k); [contradiction | reflexivity].
  - destruct (String.eqb_spec k k') as [<-|Hk]; cbn [lookup_prop].
    + destruct (String.eqb_spec k0 k); [contradiction | reflexivity].
    + destruct (String.eqb k0 k'); [reflexivity | exact IH].
Qed.

Lemma process_filter_plain (fprops : list (string * JsVal)) :
  Array_isArray (get (lookup_prop "_id" fprops) "$in") = false ->
  process_filter (JObj fprops) = Ok (JObj fprops).
Proof.
  intros Hplain. unfold process_filter. cbn [spread].
  rewrite (get_object fprops "_id" eq_refl), Hplain, andb_false_r. reflexivity.
Qed.

(** X17. Identifier conversion in a batch filter.  The entries of [_id.$in]
    are converted exactly when all of them are well-formed, in order; the
    processed filter then has the converted array under [_id.$in] and every
    other key of the filter with its value as it was. *)
Theorem process_filter_converts_in_place (fprops : list (string * JsVal))
    (ids : list JsVal) :
  get (lookup_prop "_id" fprops) "$in" = JArr ids ->
  Forall (fun id => ObjectId.isValid id = true) ids ->
  exists out,
    process_filter (JObj fprops) = Ok (JObj out)
    /\ lookup_prop "_id" out = JObj [("$in", JArr (map ObjectId.new ids))]
    /\ (forall k, k <> "_id" -> lookup_prop k out = lookup_prop k fprops)
    /\ List.length out = List.length fprops.
Proof.
  intros Hin Hvalid.
  assert (Hin' : get (get (JObj fprops) "_id") "$in" = JArr ids)
    by (rewrite (get_object fprops "_id" eq_refl); exact Hin).
  destruct (in_array_is_object (JObj fprops) ids Hin') as (fprops' & iprops & Hf & Hid & Hids).
  injection Hf as <-. clear Hin'.
  exists (set_prop "_id" (JObj [("$in", JArr (map ObjectId.new ids))]) fprops).
  split; [|split; [|split]].
  - unfold process_filter. cbn [spread]. js_get. cbn [own]. rewrite Hid. cbn [own truthy].
    rewrite Hids. cbn [truthy Array_isArray andb]. rewrite (convert_ids_valid _ Hvalid).
    reflexivity.
  - apply lookup_set_prop_same.
  - intros k Hk. apply lookup_set_prop_other, Hk.
  - clear Hin Hids Hvalid. induction fprops as [|[k v] rest IH]; [discriminate Hid|].
    cbn [set_prop lookup_prop] in *. destruct (String.eqb "_id" k); [reflexivity|].
    cbn [List.length]. f_equal. apply IH, Hid.
Qed.

Section Batches.
Context {E : Type} {P : Platform E}.

(** X18. What a batch update answers before it reaches the store.  A body
    that is an object without a truthy [filter] or without a truthy [update]
    is answered 400 [MISSING_REQUIRED_FIELDS], and so is a body that is an
    array; an object with a truthy [filter] whose [update] is the empty
    object is answered 400 [EMPTY_UPDATE]; a request that has no body at
    all is answered 500 [INTERNAL_ERROR] by the error middleware.  The world
    is as it was in every case. *)
Theorem updateMoviesBatch_needs_filter_and_update (w : World E) (req : Request)
    (props : list (string * JsVal)) (items : list JsVal) :
  (req_body req = JObj props ->
   truthy (lookup_prop "filter" props) = false \/ truthy (lookup_prop "update" props) = false ->
   refuses (updateMoviesBatch req) w 400 "MISSING_REQUIRED_FIELDS")
  /\ (req_body req = JArr items ->
      refuses (updateMoviesBatch req) w 400 "MISSING_REQUIRED_FIELDS")
  /\ (req_body req = JObj props ->
      truthy (lookup_prop "filter" props) = true -> lookup_prop "update" props = JObj [] ->
      refuses (updateMoviesBatch req) w 400 "EMPTY_UPDATE")
  /\ (req_body req = JUndefined ->
      refuses (asyncHandler updateMoviesBatch req) w 500 "INTERNAL_ERROR").
Proof.
  split; [|split; [|split]].
  - intros Hbody Hmissing. unfold refuses, updateMoviesBatch, bind, lift.
    rewrite Hbody. cbn [destructure]. js_get.
    replace (negb (truthy (lookup_prop "filter" props))
             || negb (truthy (lookup_prop "update" props))) with true
      by (destruct Hmissing as [-> | ->]; [|rewrite orb_true_r]; reflexivity).
    exact (respond_error w 400 _ _ _).
  - intros Hbody. unfold refuses, updateMoviesBatch, bind, lift.
    rewrite Hbody. cbn [destructure].
    rewrite (get_plain (JArr items) "update" eq_refl). cbn [own truthy negb].
    rewrite orb_true_r. exact (respond_error w 400 _ _ _).
  - intros Hbody Hfilter Hupdate. unfold refuses, updateMoviesBatch, bind, lift.
    rewrite Hbody. cbn [destructure]. js_get. rewrite Hfilter, Hupdate.
    cbn [truthy negb orb Object_keys map List.length Nat.eqb].
    exact (respond_error w 400 _ _ _).
  - intros Hbody.
    unfold refuses, asyncHandler, try_catch, updateMoviesBatch, bind, lift.
    rewrite Hbody. cbn [destructure].
    eexists. split; [reflexivity|]. repeat split.
Qed.

(** X19. A batch update with an object as [filter] that carries no [_id.$in]
    array, the empty object included, and a non-empty [update] calls
    [updateMany] once with that very filter and [$set] of the update, and
    answers 200 with the matched and modified counts, which the message
    repeats. *)
Theorem updateMoviesBatch_updates_by_filter (w : World E) (req : Request)
    (props fprops : list (string * JsVal)) (field : string * JsVal)
    (fields : list (string * JsVal)) (result : UpdateResult) (after : E) :
  req_body req = JObj props ->
  lookup_prop "filter" props = JObj fprops ->
  Array_isArray (get (lookup_prop "_id" fprops) "$in") = false ->
  lookup_prop "update" props = JObj (field :: fields) ->
  database (env w) = true ->
  let op := UpdateMany "movies" (JObj fprops) (JObj [("$set", JObj (field :: fields))]) in
  store _ op (env w) = (Ok result, after) ->
  exists resp,
    updateMoviesBatch req w
      = (Ok resp, {| env := after; log := (log w ++ [StoreCall op])%list |})
    /\ status resp = 200
    /\ get (body resp) "data"
       = JObj [("matchedCount", JInt (matchedCount result));
               ("modifiedCount", JInt (modifiedCount result))]
    /\ get (body resp) "message"
       = JStr ("Update operation completed. Matched "
                 ++ string_of_Z (matchedCount result) ++ " documents, modified "
                 ++ string_of_Z (modifiedCount result) ++ " documents.").
Proof.
  intros Hbody Hfilter Hplain Hupdate Hdb op Hstore.
  unfold updateMoviesBatch, bind, lift. rewrite Hbody. cbn [destructure].
  rewrite (get_object props "filter" eq_refl), (get_object props "update" eq_refl).
  rewrite Hfilter, Hupdate. cbn [truthy negb orb Object_keys map List.length Nat.eqb].
  unfold getCollection. rewrite Hdb, (process_filter_plain fprops Hplain).
  unfold call. fold op. rewrite Hstore.
  eexists. split; [reflexivity|]. repeat split.
Qed.

(** X20. A batch delete with a non-empty object as [filter] that carries no
    [_id.$in] array calls [deleteMany] once with that very filter and answers
    200 with the number of documents removed. *)
Theorem deleteMoviesBatch_deletes_by_filter (w : World E) (req : Request)
    (props : list (string * JsVal)) (field : string * JsVal)
    (fields : list (string * JsVal)) (result : DeleteResult) (after : E) :
  req_body req = JObj props ->
  lookup_prop "filter" props = JObj (field :: fields) ->
  Array_isArray (get (lookup_prop "_id" (field :: fields)) "$in") = false ->
  database (env w) = true ->
  let op := DeleteMany "movies" (JObj (field :: fields)) in
  store _ op (env w) = (Ok result, after) ->
  exists resp,
    deleteMoviesBatch req w
      = (Ok resp, {| env := after; log := (log w ++ [StoreCall op])%list |})
    /\ status resp = 200
    /\ get (body resp) "data" = JObj [("deletedCount", JInt (deletedCount result))]
    /\ get (body resp) "message"
       = JStr ("Delete operation completed. Removed "
                 ++ string_of_Z (deletedCount result) ++ " documents.").
Proof.
  intros Hbody Hfilter Hplain Hdb op Hstore.
  unfold deleteMoviesBatch, bind, lift. rewrite Hbody. cbn [destructure].
  rewrite (get_object props "filter" eq_refl). rewrite Hfilter.
  cbn [filter_missing truthy negb orb Object_keys map List.length Nat.eqb].
  unfold getCollection. rewrite Hdb, (process_filter_plain _ Hplain).
  unfold call. fold op. rewrite Hstore.
  eexists. split; [reflexivity|]. repeat split.
Qed.

End Batches.

Lemma process_filter_converts_in_place_witness :
  process_filter (JObj [("year", JInt 1999);
                        ("_id", JObj [("$in", JArr [JStr "507F1F77BCF86CD799439011"])])])
  = Ok (JObj [("year", JInt 1999);
              ("_id", JObj [("$in", JArr [JObjectId "507f1f77bcf86cd799439011"])])]).
Proof.
  destruct (process_filter_converts_in_place
              [("year", JInt 1999);
               ("_id", JObj [("$in", JArr [JStr "507F1F77BCF86CD799439011"])])]
              [JStr "507F1F77BCF86CD799439011"] eq_refl
              ltac:(repeat constructor)) as (out & Hrun & _).
  reflexivity.
Defined.

Lemma updateMoviesBatch_needs_filter_and_update_witness :
  refuses (updateMoviesBatch (Cases.with_body (JObj [("filter", JObj [])])))
          (Scenario.start Scenario.quiet) 400 "MISSING_REQUIRED_FIELDS"
  /\ refuses (updateMoviesBatch (Cases.with_body (JArr [JObj []])))
             (Scenario.start Scenario.quiet) 400 "MISSING_REQUIRED_FIELDS"
  /\ refuses (updateMoviesBatch
                (Cases.with_body (JObj [("filter", JObj []); ("update", JObj [])])))
             (Scenario.start Scenario.quiet) 400 "EMPTY_UPDATE"
  /\ refuses (asyncHandler updateMoviesBatch (Cases.with_body JUndefined))
             (Scenario.start Scenario.quiet) 500 "INTERNAL_ERROR".
Proof.
  split; [|split; [|split]].
  - apply (proj1 (updateMoviesBatch_needs_filter_and_update
                    (Scenario.start Scenario.quiet)
                    (Cases.with_body (JObj [("filter", JObj [])]))
                    [("filter", JObj [])] []) eq_refl).
    right. reflexivity.
  - apply (proj1 (proj2 (updateMoviesBatch_needs_filter_and_update
                           (Scenario.start Scenario.quiet)
                           (Cases.with_body (JArr [JObj []])) [] [JObj []])) eq_refl).
  - apply (proj1 (proj2 (proj2 (updateMoviesBatch_needs_filter_and_update
                                  (Scenario.start Scenario.quiet)
                                  (Cases.with_body
                                     (JObj [("filter", JObj []); ("update", JObj [])]))
                                  [("filter", JObj []); ("update", JObj [])] [])))
             eq_refl); reflexivity.
  - apply (proj2 (proj2 (proj2 (updateMoviesBatch_needs_filter_and_update
                                  (Scenario.start Scenario.quiet)
                                  (Cases.with_body JUndefined) [] []))) eq_refl).
Defined.

Lemma updateMoviesBatch_updates_by_filter_witness :
  exists resp w',
    updateMoviesBatch
      (Cases.with_body (JObj [("filter", JObj []); ("update", JObj [("rated", JStr "PG")])]))
      (Scenario.start Scenario.quiet)
    = (Ok resp, w')
    /\ status resp = 200
    /\ get (body resp) "message"
       = JStr "Update operation completed. Matched 2 documents, modified 2 documents.".
Proof.
  destruct (updateMoviesBatch_updates_by_filter (P := Scenario.sim_platform)
              (Scenario.start Scenario.quiet)
              (Cases.with_body
                 (JObj [("filter", JObj []); ("update", JObj [("rated", JStr "PG")])]))
              [("filter", JObj []); ("update", JObj [("rated", JStr "PG")])]
              [] ("rated", JStr "PG") [] _ _ eq_refl eq_refl eq_refl eq_refl eq_refl eq_refl)
    as (resp & Hrun & Hstatus & _ & Hmessage).
  exists resp. eexists. split; [exact Hrun|]. split; [exact Hstatus | exact Hmessage].
Defined.

Lemma deleteMoviesBatch_deletes_by_filter_witness :
  exists resp w',
    deleteMoviesBatch (Cases.with_body (JObj [("filter", JObj [("year", JInt 1999)])]))
      (Scenario.start Scenario.quiet)
    = (Ok resp, w')
    /\ status resp = 200
    /\ Scenario.sim_docs (env w') = []
    /\ get (body resp) "message"
       = JStr "Delete operation completed. Removed 2 documents.".
Proof.
  destruct (deleteMoviesBatch_deletes_by_filter (P := Scenario.sim_platform)
              (Scenario.start Scenario.quiet)
              (Cases.with_body (JObj [("filter", JObj [("year", JInt 1999)])]))
              [("filter", JObj [("year", JInt 1999)])] ("year", JInt 1999) [] _ _
              eq_refl eq_refl eq_refl eq_refl eq_refl)
    as (resp & Hrun & Hstatus & _ & Hmessage).
  exists resp. eexists. split; [exact Hrun|]. split; [exact Hstatus|].
  split; [reflexivity | exact Hmessage].
Defined.

(* ===================================================================== *)
(** ** More on the vector search *)
(* ===================================================================== *)

Section VectorSearch.
Context {E : Type} {P : Platform E}.

Lemma bind_Ok {A B : Type} (m : M E A) (k : A -> M E B) (w w' : World E) (b : B) :
  bind m k w = (Ok b, w') -> exists a w1, m w = (Ok a, w1) /\ k a w1 = (Ok b, w').
Proof.
  unfold bind. destruct (m w) as [[a|e] w1]; intros H; [eauto | discriminate H].
Qed.

Lemma res_json_is_success (data message : JsVal) (w w' : World E) (resp : Response) :
  res_json (createSuccessResponse data message) w = (Ok resp, w') ->
  status resp = 200 /\ get (body resp) "success" = JBool true.
Proof.
  intros H. inversion H. split; reflexivity.
Qed.

(** X21. [generateVoyageEmbedding] sends exactly one request to the
    provider, whatever happens next.  What it returns is a truthy value taken
    from a 2xx answer; whatever it throws, a rejected [fetch], a status
    outside 2xx, a body that is not JSON or has no [data[0].embedding], is an
    [Error] whose message starts with "Failed to generate embedding: ". *)
Theorem generateVoyageEmbedding_one_request (w : World E) (text apiKey : string) :
  exists r,
    generateVoyageEmbedding text apiKey w
    = (r, {| env := snd (fetch (voyage_request text apiKey) (env w));
             log := (log w ++ [HttpCall (voyage_request text apiKey)])%list |})
    /\ match r with
       | Ok embedding =>
           truthy embedding = true
           /\ exists response,
                fst (fetch (voyage_request text apiKey) (env w)) = Ok response
                /\ http_ok response = true
       | Thrown e => exists reason, e = Error ("Failed to generate embedding: " ++ reason)
       end.
Proof.
  unfold generateVoyageEmbedding, try_catch, bind, http.
  destruct (fetch (voyage_request text apiKey) (env w)) as [[response|e] e'].
  - cbn [fst snd]. destruct (http_ok response) eqn:Hok; cbn [negb].
    + unfold lift. destruct (http_json response) as [data|e].
      * destruct (get_prop data "data") as [data_data|e].
        -- destruct (truthy data_data); cbn [negb orb];
             [|eexists; split; [reflexivity | eexists; reflexivity]].
           destruct (truthy (get_index data_data 0)); cbn [negb orb];
             [|eexists; split; [reflexivity | eexists; reflexivity]].
           destruct (truthy (get (get_index data_data 0) "embedding")) eqn:Hemb;
             cbn [negb]; eexists; (split; [reflexivity|]).
           ++ split; [exact Hemb | exists response; split; [reflexivity | exact Hok]].
           ++ eexists; reflexivity.
        -- eexists. split; [reflexivity | eexists; reflexivity].
      * eexists. split; [reflexivity | eexists; reflexivity].
    + eexists. split; [reflexivity | eexists; reflexivity].
  - eexists. split; [reflexivity | eexists; reflexivity].
Qed.

(** X22. [vectorSearchMovies] never throws: on every platform and for every
    request it answers, and the status is 200, 400 or 500, with [success]
    true exactly for 200. *)
Theorem vectorSearchMovies_never_throws (w : World E) (req : Request) :
  exists resp w',
    vectorSearchMovies req w = (Ok resp, w')
    /\ (status resp = 200 \/ status resp = 400 \/ status resp = 500)
    /\ get (body resp) "success" = JBool (status resp =? 200).
Proof.
  unfold vectorSearchMovies. cbv zeta.
  destruct (negb (truthy (get (query req) "q")) || negb (is_string (get (query req) "q"))
            || (String.length (trim (ToString (get (query req) "q"))) =? 0)%nat).
  { do 2 eexists. split; [reflexivity|]. split; [right; left|]; reflexivity. }
  unfold bind at 1, getenv_VOYAGE_API_KEY.
  destruct (api_key_missing (VOYAGE_API_KEY (env w))).
  { do 2 eexists. split; [reflexivity|]. split; [right; left|]; reflexivity. }
  unfold try_catch.
  match goal with
  | |- context [match ?m w with _ => _ end] => destruct (m w) as [[resp|e] w1] eqn:Hrun
  end.
  - exists resp, w1. split; [reflexivity|].
    apply bind_Ok in Hrun as (queryVector & w2 & _ & Hrun).
    apply bind_Ok in Hrun as (collection & w3 & _ & Hrun).
    apply bind_Ok in Hrun as (vectorResults & w4 & _ & Hrun).
    destruct (List.length vectorResults =? 0)%nat.
    + apply res_json_is_success in Hrun as [-> ->]. split; [left|]; reflexivity.
    + apply bind_Ok in Hrun as (movies & w5 & _ & Hrun).
      apply bind_Ok in Hrun as (movieResults & w6 & _ & Hrun).
      apply res_json_is_success in Hrun as [-> ->]. split; [left|]; reflexivity.
  - do 2 eexists. split; [reflexivity|]. split; [right; right|]; reflexivity.
Qed.

(** X23. A vector search whose [q] is not a string, or is blank after
    trimming, is answered 400 [MISSING_QUERY_PARAMETER]; with a usable [q]
    but [VOYAGE_API_KEY] unset, empty or blank it is answered 400
    [SERVICE_UNAVAILABLE].  Neither contacts the provider or the store. *)
Theorem vectorSearch_needs_query_and_key (w : World E) (req : Request) :
  (is_string (get (query req) "q") = false
   \/ (String.length (trim (ToString (get (query req) "q"))) =? 0)%nat = true ->
   refuses (vectorSearchMovies req) w 400 "MISSING_QUERY_PARAMETER")
  /\ (is_string (get (query req) "q") = true ->
      (String.length (trim (ToString (get (query req) "q"))) =? 0)%nat = false ->
      api_key_missing (VOYAGE_API_KEY (env w)) = true ->
      refuses (vectorSearchMovies req) w 400 "SERVICE_UNAVAILABLE").
Proof.
  split.
  - intros Hbad. unfold refuses, vectorSearchMovies. cbv zeta.
    replace (negb (truthy (get (query req) "q")) || negb (is_string (get (query req) "q"))
             || (String.length (trim (ToString (get (query req) "q"))) =? 0)%nat)
      with true.
    + exact (respond_error w 400 _ _ _).
    + destruct Hbad as [-> | ->]; cbn [negb]; rewrite ?orb_true_r; reflexivity.
  - intros Hstring Hlen Hkey. unfold refuses, vectorSearchMovies. cbv zeta.
    destruct (get (query req) "q") as [| | | | | q | | | | | | | |] eqn:Hq;
      try discriminate Hstring.
    assert (Htruthy : truthy (JStr q) = true).
    { destruct q; [discriminate Hlen | reflexivity]. }
    rewrite Htruthy, Hlen. cbn [is_string negb orb].
    unfold bind at 1, getenv_VOYAGE_API_KEY. rewrite Hkey.
    exact (respond_error w 400 _ _ _).
Qed.

(** X24. When the nearest-neighbour aggregation finds nothing, the answer is
    200 with an empty list and the movies collection is not queried: the one
    store call after the embedding is the aggregation on [embedded_movies].
    The message quotes [q] as it was sent, untrimmed. *)
Theorem vectorSearch_without_hits (w w1 : World E) (req : Request) (q key : string)
    (queryVector : JsVal) (after : E) :
  get (query req) "q" = JStr q ->
  (String.length (trim q) =? 0)%nat = false ->
  VOYAGE_API_KEY (env w) = Some key ->
  api_key_missing (Some key) = false ->
  generateVoyageEmbedding (trim q) key w = (Ok queryVector, w1) ->
  database (env w1) = true ->
  let limitNum :=
    vectorSearch_limitNum (with_default (get (query req) "limit") (JStr "10")) in
  let op := AggregateScores "embedded_movies" (vectorSearchPipeline queryVector limitNum) in
  store _ op (env w1) = (Ok [], after) ->
  exists resp,
    vectorSearchMovies req w
      = (Ok resp, {| env := after; log := (log w1 ++ [StoreCall op])%list |})
    /\ status resp = 200
    /\ get (body resp) "data" = JArr []
    /\ get (body resp) "message"
       = JStr ("No similar movies found for query: '" ++ q ++ "'").
Proof.
  intros Hq Hlen Hkey Hpresent Hgen Hdb limitNum op Hstore.
  assert (Htruthy : truthy (JStr q) = true).
  { destruct q; [discriminate Hlen | reflexivity]. }
  unfold vectorSearchMovies. rewrite Hq, Htruthy. cbn [is_string negb orb ToString].
  rewrite Hlen. unfold bind at 1. unfold getenv_VOYAGE_API_KEY. rewrite Hkey, Hpresent.
  unfold try_catch, bind. cbn [from_option id]. rewrite Hgen.
  unfold getCollection. rewrite Hdb. unfold call. fold limitNum. fold op. rewrite Hstore.
  eexists. split; [reflexivity|]. repeat split.
Qed.

End VectorSearch.

Lemma vectorSearch_needs_query_and_key_witness :
  refuses (vectorSearchMovies (Cases.with_query [("q", JStr "   ")]))
          (Scenario.start Scenario.quiet) 400 "MISSING_QUERY_PARAMETER"
  /\ refuses (vectorSearchMovies (Cases.with_query [("q", JStr "space")]))
             (Scenario.start Scenario.quiet) 400 "SERVICE_UNAVAILABLE".
Proof.
  split.
  - apply (proj1 (vectorSearch_needs_query_and_key (Scenario.start Scenario.quiet)
                    (Cases.with_query [("q", JStr "   ")]))).
    right. reflexivity.
  - apply (proj2 (vectorSearch_needs_query_and_key (Scenario.start Scenario.quiet)
                    (Cases.with_query [("q", JStr "space")]))); reflexivity.
Defined.

Lemma vectorSearch_without_hits_witness :
  exists resp w',
    vectorSearchMovies (Cases.with_query [("q", JStr " heist ")])
      (Scenario.start (Scenario.with_provider (Ok Scenario.embedded) Scenario.quiet))
    = (Ok resp, w')
    /\ List.length (log w') = 2%nat
    /\ get (body resp) "message" = JStr "No similar movies found for query: ' heist '".
Proof.
  destruct (vectorSearch_without_hits (P := Scenario.sim_platform)
              (Scenario.start (Scenario.with_provider (Ok Scenario.embedded) Scenario.quiet))
              _ (Cases.with_query [("q", JStr " heist ")]) " heist " "pa-test-key"
              _ _ eq_refl eq_refl eq_refl eq_refl eq_refl eq_refl eq_refl)
    as (resp & Hrun & _ & _ & Hmessage).
  exists resp. eexists. split; [exact Hrun|]. split; [reflexivity | exact Hmessage].
Defined.

(* ===================================================================== *)
(** ** Searching, listing and reporting *)
(* ===================================================================== *)

Lemma reduce_totalComments (rows : list ReportRow) (start : Z) :
  fold_left (fun sum result => sum + or_default (Some (rr_totalComments result)) 0) rows start
  = start + total_comments rows.
Proof.
  unfold total_comments. revert start.
  induction rows as [|row rest IH]; intros start; cbn [fold_left fold_right map]; [lia|].
  rewrite IH. unfold or_default. destruct (Z.eqb_spec (rr_totalComments row) 0); lia.
Qed.

Section Reading.
Context {E : Type} {P : Platform E}.

(** X25. A compound search that passes validation runs one aggregation and
    reads its single [$facet] document: [movies] is the page in [results],
    and [totalCount] is the [count] of the first [totalCount] entry, or 0
    when the search matched nothing and [totalCount] is empty.  The message
    repeats the total. *)
Theorem searchMovies_reads_the_facet (w : World E) (req : Request)
    (count : option Z) (movies : list JsVal) (after : E) :
  database (env w) = true ->
  let operator := with_default (get (query req) "searchOperator") (JStr "must") in
  includes validOperators operator = true ->
  let phrases :=
    searchPhrases (get (query req) "plot") (get (query req) "fullplot")
                  (get (query req) "directors") (get (query req) "writers")
                  (get (query req) "cast") in
  phrases <> [] ->
  let op :=
    Aggregate "movies"
      (searchMovies_pipeline operator phrases
         (searchMovies_skipNum (with_default (get (query req) "skip") (JStr "0")))
         (searchMovies_limitNum (with_default (get (query req) "limit") (JStr "20")))) in
  store _ op (env w)
  = (Ok [JObj [("totalCount",
                JArr match count with
                     | Some n => [JObj [("count", JInt n)]]
                     | None => []
                     end);
               ("results", JArr movies)]],
     after) ->
  let total := match count with Some n => n | None => 0 end in
  exists resp,
    searchMovies req w
      = (Ok resp, {| env := after; log := (log w ++ [StoreCall op])%list |})
    /\ status resp = 200
    /\ get (body resp) "data" = JObj [("movies", JArr movies); ("totalCount", JInt total)]
    /\ get (body resp) "message"
       = JStr ("Found " ++ ToString (JInt total) ++ " movies matching the search criteria").
Proof.
  intros Hdb operator Hvalid phrases Hsome op Hstore total.
  unfold searchMovies, bind, getCollection. rewrite Hdb. cbv zeta.
  fold operator. rewrite Hvalid. cbn [negb]. fold phrases.
  assert (Hlen : (List.length phrases =? 0)%nat = false).
  { destruct phrases; [contradiction | reflexivity]. }
  rewrite Hlen. unfold call. fold op. rewrite Hstore.
  match goal with
  | |- context [JObj [("movies", ?page); ("totalCount", ?counted)]] =>
      assert (Hpage : page = JArr movies) by reflexivity;
      assert (Hcounted : counted = JInt total)
  end.
  { destruct count as [n|]; [|reflexivity].
    transitivity (or_else (JInt n) (JInt 0)); [reflexivity|].
    unfold or_else, total. destruct n; reflexivity. }
  rewrite Hpage, Hcounted.
  eexists. split; [reflexivity|]. repeat split.
Qed.

(** X26. With a well-formed [movieId] the comments report is restricted to
    that movie: the first [$match] carries [_id] beside the [year] check, the
    pipeline keeps up to 50 movies instead of 20, and the message gives the
    total of the rows' [totalComments] without a movie count. *)
Theorem comments_report_for_one_movie (w : World E) (req : Request) (id : string)
    (rows : list ReportRow) (after : E) :
  database (env w) = true ->
  get (query req) "movieId" = JStr id ->
  ObjectId.isValid (JStr id) = true ->
  let limitNum := comments_limitNum (with_default (get (query req) "limit") (JStr "10")) in
  let pipeline :=
    comments_pipeline [("year", year_quality_filter); ("_id", ObjectId.new (JStr id))]
                      limitNum (JStr id) in
  store _ (AggregateReport "movies" pipeline) (env w) = (Ok rows, after) ->
  exists resp,
    getMoviesWithMostRecentComments req w
      = (Ok resp, {| env := after;
                     log := (log w ++ [StoreCall (AggregateReport "movies" pipeline)])%list |})
    /\ status resp = 200
    /\ In (JObj [("$limit", JInt 50)]) pipeline
    /\ get (body resp) "data" = JArr (map ReportRow_json rows)
    /\ get (body resp) "message"
       = JStr ("Found " ++ string_of_Z (total_comments rows) ++ " comments from movie").
Proof.
  intros Hdb Hid Hvalid limitNum pipeline Hstore.
  assert (Htruthy : truthy (JStr id) = true).
  { destruct id; [discriminate Hvalid | reflexivity]. }
  unfold getMoviesWithMostRecentComments, bind, getCollection. rewrite Hdb. cbv zeta.
  rewrite Hid, Htruthy, Hvalid. cbn [is_string negb andb].
  change (set_prop "_id" (ObjectId.new (JStr id)) [("year", year_quality_filter)])
    with [("year", year_quality_filter); ("_id", ObjectId.new (JStr id))].
  fold limitNum. fold pipeline. unfold call. rewrite Hstore.
  rewrite reduce_totalComments, Z.add_0_l.
  eexists. split; [reflexivity|]. split; [reflexivity|]. split; [|split; reflexivity].
  unfold pipeline, comments_pipeline. rewrite Htruthy. cbn [In]. tauto.
Qed.

(** X27. The [genre] of the list is compiled as a regular expression as it
    was sent.  When the engine rejects the pattern, the handler throws before
    any store call and the route answers 500 [INTERNAL_ERROR]. *)
Theorem getAllMovies_malformed_genre (w : World E) (req : Request) :
  database (env w) = true ->
  truthy (get (query req) "genre") = true ->
  regexp_ok (ToString (get (query req) "genre")) = false ->
  (exists e, getAllMovies req w = (Thrown e, w))
  /\ refuses (asyncHandler getAllMovies req) w 500 "INTERNAL_ERROR".
Proof.
  intros Hdb Hgenre Hbad.
  assert (Hthrows : exists message, getAllMovies req w = (Thrown (SyntaxError message), w)).
  { unfold getAllMovies, bind, getCollection. rewrite Hdb. cbv zeta.
    unfold getAllMovies_filter, bind. rewrite Hgenre. unfold new_RegExp. rewrite Hbad.
    eexists. reflexivity. }
  destruct Hthrows as [message Hthrows]. split; [eauto|].
  unfold refuses, asyncHandler, try_catch. rewrite Hthrows.
  eexists. split; [reflexivity|]. repeat split.
Qed.

End Reading.

Lemma searchMovies_reads_the_facet_witness :
  exists resp w',
    searchMovies (Cases.with_query [("plot", JStr "heist")])
      (Scenario.start
         (Scenario.with_docs
            [JObj [("totalCount", JArr [JObj [("count", JInt 7)]]);
                   ("results", JArr [Scenario.movie "Heat"])]]
            Scenario.quiet))
    = (Ok resp, w')
    /\ get (body resp) "data"
       = JObj [("movies", JArr [Scenario.movie "Heat"]); ("totalCount", JInt 7)].
Proof.
  destruct (searchMovies_reads_the_facet (P := Scenario.sim_platform)
              (Scenario.start
                 (Scenario.with_docs
                    [JObj [("totalCount", JArr [JObj [("count", JInt 7)]]);
                           ("results", JArr [Scenario.movie "Heat"])]]
                    Scenario.quiet))
              (Cases.with_query [("plot", JStr "heist")])
              (Some 7) [Scenario.movie "Heat"] _ eq_refl eq_refl
              ltac:(discriminate) eq_refl)
    as (resp & Hrun & _ & Hdata & _).
  exists resp. eexists. split; [exact Hrun | exact Hdata].
Defined.

Lemma comments_report_for_one_movie_witness :
  exists resp w',
    getMoviesWithMostRecentComments (Cases.with_query [("movieId", JStr Cases.valid_id)])
      (Scenario.start Scenario.quiet)
    = (Ok resp, w')
    /\ get (body resp) "message" = JStr "Found 0 comments from movie".
Proof.
  destruct (comments_report_for_one_movie (P := Scenario.sim_platform)
              (Scenario.start Scenario.quiet)
              (Cases.with_query [("movieId", JStr Cases.valid_id)])
              Cases.valid_id [] _ eq_refl eq_refl eq_refl eq_refl)
    as (resp & Hrun & _ & _ & _ & Hmessage).
  exists resp. eexists. split; [exact Hrun | exact Hmessage].
Defined.

Lemma getAllMovies_malformed_genre_witness :
  refuses (asyncHandler getAllMovies (Cases.with_query [("genre", JStr "(")]))
          {| env := Cases.duplicate_key; log := [] |} 500 "INTERNAL_ERROR".
Proof.
  exact (proj2 (getAllMovies_malformed_genre (P := Cases.broken_platform)
                  {| env := Cases.duplicate_key; log := [] |}
                  (Cases.with_query [("genre", JStr "(")]) eq_refl eq_refl eq_refl)).
Defined.
